(** * Elementum: cache-aside metadata access, watched-progress refresh,
      TMDB request proxy and provider callbacks

    A shallow embedding of the Go sources

    - [trakt/movies.go]  ([GetMovie], [TopMovies], [WatchlistMovies]),
    - the Trakt shows file ([GetShow], [TopShows], [CalendarShows],
      [WatchedShows], [WatchedShowsProgress]),
    - [tmdb/tmdb.go] ([MakeRequest]) and the providers file
      ([GetCallback], [RemoveCallback], [CallbackHandler],
      [AddonSearcher.call]),

    together with the properties stated about them.

    Conventions.  Go's [int] is a 64-bit two's complement integer, kept
    as a [Z] with the wrap-around written out ([wrap]).  The key/value
    store, the HTTP layer and the rate limiter live in packages that
    are not part of these files; they appear here as small explicit
    models (documented where they are introduced) or as parameters.
    Stateful code threads a [World] (cache contents and the log of
    upstream requests) through a state monad [M]. *)

From Stdlib Require Import ZArith Lia List String Ascii Bool.
From Stdlib Require Import DecimalString DecimalZ.
From stdpp Require Import base option list gmap strings fin_maps.

Local Open Scope string_scope.
Local Open Scope Z_scope.

(** ** Go integers *)

Module GoInt.

Definition bits : Z := 64.
Definition MaxInt : Z := 2 ^ (bits - 1) - 1.
Definition MinInt : Z := - 2 ^ (bits - 1).

(** Two's complement wrap-around of an [int] result. *)
Definition wrap (z : Z) : Z :=
  (z + 2 ^ (bits - 1)) mod 2 ^ bits - 2 ^ (bits - 1).

Definition in_range (z : Z) : bool := (MinInt <=? z) && (z <=? MaxInt).

Definition add (a b : Z) : Z := wrap (a + b).
Definition sub (a b : Z) : Z := wrap (a - b).
Definition mul (a b : Z) : Z := wrap (a * b).

(** Integer division truncates toward zero and panics on a zero
    divisor; [None] is the panic. *)
Definition div (a b : Z) : option Z :=
  if b =? 0 then None else Some (wrap (Z.quot a b)).

End GoInt.

(** ** [strconv] *)

Module strconv.

(** [strconv.Itoa]: the decimal text of an [int]. *)
Definition Itoa (z : Z) : string := NilZero.string_of_int (Z.to_int z).

Definition digit_of (c : ascii) : option Z :=
  let n := Z.of_nat (nat_of_ascii c) in
  if (48 <=? n) && (n <=? 57) then Some (n - 48) else None.

(** Value of a run of decimal digits, most significant first; [None]
    on any other character. *)
Fixpoint digits (acc : Z) (s : string) : option Z :=
  match s with
  | EmptyString => Some acc
  | String c s' =>
      match digit_of c with
      | Some d => digits (10 * acc + d) s'
      | None => None
      end
  end.

(** [strconv.Atoi]: an optional sign, then at least one decimal
    digit; a syntax error or a value outside [int] is an error
    ([None]). *)
Definition Atoi (s : string) : option Z :=
  let '(neg, body) :=
    match s with
    | String "+" r => (false, r)
    | String "-" r => (true, r)
    | _ => (false, s)
    end in
  match body with
  | EmptyString => None
  | _ =>
      match digits 0 body with
      | Some n =>
          let v := if neg then - n else n in
          if GoInt.in_range v then Some v else None
      | None => None
      end
  end.

End strconv.

(** ** [fmt.Sprintf], for the verbs the cache keys use *)

Module fmt.

Inductive Arg :=
| AStr (s : string)
| AInt (z : Z).

Definition verb_s (a : Arg) : string :=
  match a with
  | AStr s => s
  | AInt z => "%!s(int=" ++ strconv.Itoa z ++ ")"
  end.

Definition verb_d (a : Arg) : string :=
  match a with
  | AInt z => strconv.Itoa z
  | AStr s => "%!d(string=" ++ s ++ ")"
  end.

(** Arguments left over once the format is exhausted. *)
Fixpoint extra (args : list Arg) : string :=
  match args with
  | [] => ""
  | a :: rest =>
      (match a with
       | AStr s => "string=" ++ s
       | AInt z => "int=" ++ strconv.Itoa z
       end) ++ (match rest with [] => "" | _ => ", " ++ extra rest end)
  end.

(** [%s], [%d] and [%%] are interpreted; every other character is
    copied.  A verb without an argument prints Go's [MISSING] marker
    and unused arguments are reported after the text. *)
Fixpoint Sprintf (format : string) (args : list Arg) : string :=
  match format with
  | EmptyString =>
      match args with
      | [] => ""
      | _ => "%!(EXTRA " ++ extra args ++ ")"
      end
  | String c rest =>
      if Ascii.eqb c "%" then
        match rest with
        | String v rest' =>
            if Ascii.eqb v "s" then
              match args with
              | a :: args' => verb_s a ++ Sprintf rest' args'
              | [] => "%!s(MISSING)" ++ Sprintf rest' []
              end
            else if Ascii.eqb v "d" then
              match args with
              | a :: args' => verb_d a ++ Sprintf rest' args'
              | [] => "%!d(MISSING)" ++ Sprintf rest' []
              end
            else if Ascii.eqb v "%" then String "%" (Sprintf rest' args)
            else String c (Sprintf rest args)
        | EmptyString => String c (Sprintf rest args)
        end
      else String c (Sprintf rest args)
  end.

End fmt.

(** ** Catalog entities

  Only the fields the code below reads are kept; the remaining
  fields of the wire format play no part in it. *)

(** [time.Time] as an instant; the zero value is [0]. *)
Definition Time := Z.
Definition Time_Equal (a b : Time) : bool := a =? b.

(** [time.Duration]. *)
Definition Duration := Z.

Record IDs := { Trakt : Z; TMDB : Z }.

Record Movie := { MovieIDs : IDs; MovieTitle : string }.
Record Show := { ShowIDs : IDs; ShowTitle : string }.
Record Episode := { Season : Z; Number : Z; EpisodeTitle : string }.

(** [Movies] and [Shows]: the listing wrappers around a [*Movie] / [*Show]. *)
Record Movies := { Movies_Movie : option Movie }.
Record Shows := { Shows_Show : option Show }.

Record WatchlistMovie := { WatchlistMovie_Movie : option Movie }.
Record CalendarShow := { CalendarShow_Show : option Show; CalendarShow_Episode : option Episode }.

(** A watched show always carries its show record ([show.Show.IDs.Trakt]
  is read without a nil check). *)
Record WatchedShow := { LastWatchedAt : Time; WatchedShow_Show : Show }.

Record WatchedProgressShow := {
Aired : Z;
Completed : Z;
NextEpisode : option Episode
}.

Record ProgressShow := { ProgressShow_Show : Show; ProgressShow_Episode : Episode }.

(** [UserActivities], reduced to [Episodes.WatchedAt]. *)
Record UserActivities := { Episodes_WatchedAt : Time }.

(** ** Serialized values

  What a response body or a cache payload decodes to.  Decoding into
  a Go variable succeeds when the data has the variable's shape and
  fails otherwise, leaving the variable as it was. *)
Inductive Data :=
| DJunk
| DMovie (m : option Movie)
| DMovieList (l : list Movie)
| DMoviesList (l : list Movies)
| DWatchlistMovies (l : list WatchlistMovie)
| DShow (s : option Show)
| DShowList (l : list Show)
| DShowsList (l : list Shows)
| DCalendarShows (l : list CalendarShow)
| DWatchedShows (l : list WatchedShow)
| DProgress (p : option WatchedProgressShow)
| DTime (t : Time)
| DInt (n : Z)
| DActivities (a : UserActivities).

Module decode.
Definition movie (d : Data) := match d with DMovie m => Some m | _ => None end.
Definition movieList (d : Data) := match d with DMovieList l => Some l | _ => None end.
Definition moviesList (d : Data) := match d with DMoviesList l => Some l | _ => None end.
Definition watchlistMovies (d : Data) := match d with DWatchlistMovies l => Some l | _ => None end.
Definition show (d : Data) := match d with DShow s => Some s | _ => None end.
Definition showList (d : Data) := match d with DShowList l => Some l | _ => None end.
Definition showsList (d : Data) := match d with DShowsList l => Some l | _ => None end.
Definition calendarShows (d : Data) := match d with DCalendarShows l => Some l | _ => None end.
Definition watchedShows (d : Data) := match d with DWatchedShows l => Some l | _ => None end.
Definition progress (d : Data) := match d with DProgress p => Some p | _ => None end.
Definition time (d : Data) := match d with DTime t => Some t | _ => None end.
Definition int (d : Data) := match d with DInt n => Some n | _ => None end.
Definition activities (d : Data) := match d with DActivities a => Some a | _ => None end.
End decode.

(** ** Errors *)
Inductive Error :=
| ErrTransport (msg : string)
| ErrNotFound
| ErrExceeded
| ErrHTTP
| ErrSyntax (input : string)
| ErrUnmarshal
| ErrNotAuthorized
| Errorf (msg : string).

(** ** The cache store *)

Module cache.

Record Entry := { payload : Data; expiry : Time }.

(** Modelled from the spec: the store behind [cache.NewDBStore()]
    is not part of these files.  It is a key to value store with
    per-entry expiry: an entry carries its payload and the instant
    [now + ttl] assigned when it was written; [Get] on a missing or
    expired entry, or on one that does not decode into the
    destination, reports an error. *)
Definition lookup (now : Time) (key : string) (c : gmap string Entry) : option Data :=
  match c !! key with
  | Some e => if now <? expiry e then Some (payload e) else None
  | None => None
  end.

Definition Get {A} (dec : Data -> option A) (now : Time) (key : string)
    (c : gmap string Entry) : option A :=
  lookup now key c ≫= dec.

Definition Set_ (now : Time) (key : string) (v : Data) (ttl : Duration)
    (c : gmap string Entry) : gmap string Entry :=
  <[key := {| payload := v; expiry := now + ttl |}]> c.

(** The key formats and lifetimes declared by the [cache] package;
    their values are not part of these files. *)
Record Consts := {
  TraktMovieKey : string;
  TraktMovieExpire : Duration;
  TraktShowKey : string;
  TraktShowExpire : Duration;
  TraktMoviesByCategoryKey : string;
  TraktMoviesByCategoryExpire : Duration;
  TraktMoviesByCategoryTotalKey : string;
  TraktMoviesByCategoryTotalExpire : Duration;
  TraktShowsByCategoryKey : string;
  TraktShowsByCategoryExpire : Duration;
  TraktShowsByCategoryTotalKey : string;
  TraktShowsByCategoryTotalExpire : Duration;
  TraktMoviesWatchlistKey : string;
  TraktMoviesWatchlistExpire : Duration;
  TraktShowsCalendarKey : string;
  TraktShowsCalendarExpire : Duration;
  TraktShowsCalendarTotalKey : string;
  TraktShowsCalendarTotalExpire : Duration;
  TraktShowsWatchedKey : string;
  TraktShowsWatchedExpire : Duration;
  TraktActivitiesKey : string;
  TraktWatchedShowsProgressKey : string;
  TraktWatchedShowsProgressExpire : Duration;
  TraktWatchedShowsProgressWatchedKey : string;
  TraktWatchedShowsProgressWatchedExpire : Duration
}.

End cache.

(** ** Upstream requests *)

Record HTTPRequest := {
withAuth : bool;
endPoint : string;
params : list (string * string)
}.

(** A [*napping.Response]: status, body and the pagination header. *)
Record Response := {
Status : Z;
Body : Data;
XPaginationItemCount : option Z
}.

(** Modelled from the spec: [getPagination] is not part of these files;
  a response without an item count yields the sentinel [-1]. *)
Definition getPagination_ItemCount (r : Response) : Z :=
default (-1) (XPaginationItemCount r).

(** [resp.Unmarshal(&v)]: the decoded body, or an error. *)
Definition Unmarshal {A} (dec : Data -> option A) (r : Response) : option A :=
dec (Body r).

(** What one call of [Get] / [GetWithAuth] hands back: the response
  and the error, as the two results of the Go function. *)
Definition Upstream := HTTPRequest -> Response * option Error.

(** ** The world and its monad *)

Record World := {
store : gmap string cache.Entry;
calls : list HTTPRequest
}.

Definition M (A : Type) : Type := World -> A * World.

Global Instance M_ret : MRet M := fun A a w => (a, w).
Global Instance M_bind : MBind M := fun A B k m w => let '(a, w') := m w in k a w'.

Definition run {A} (m : M A) (w : World) : A * World := m w.

(** ** [config.Get()] *)
Record Config := {
ResultsPerPage : Z;
TraktAuthorized : bool
}.

(** [strings.Replace(s, "/", ".", -1)]. *)
Fixpoint replaceSlash (s : string) : string :=
match s with
| EmptyString => EmptyString
| String c r => String (if Ascii.eqb c "/" then "."%char else c) (replaceSlash r)
end.

(** ** Package [trakt] *)

Section Trakt.

(** The instant at which the call runs, the upstream service, the
    configuration and the constants of the packages around. *)
Variable now : Time.
Variable up : Upstream.
Variable conf : Config.
Variable K : cache.Consts.
(** [PagesAtOnce], declared elsewhere in the package. *)
Variable PagesAtOnce : Z.
(** The outcome of [Authorized()], declared elsewhere in the package. *)
Variable Authorized : option Error.

(** *** Primitive effects *)

Definition cacheGet {A} (dec : Data -> option A) (key : string) : M (option A) :=
  fun w => (cache.Get dec now key (store w), w).

Definition cacheSet (key : string) (v : Data) (ttl : Duration) : M unit :=
  fun w => (tt, {| store := cache.Set_ now key v ttl (store w); calls := calls w |}).

(** Modelled from the spec: [Get] and [GetWithAuth] are declared
    elsewhere in the package.  Each performs exactly one
    request/response cycle against the upstream, with or without the
    caller's credentials, and has no other effect. *)
Definition send (auth : bool) (endPoint : string) (params : list (string * string))
  : M (Response * option Error) :=
  fun w =>
    let r := {| withAuth := auth; endPoint := endPoint; params := params |} in
    (up r, {| store := store w; calls := (calls w ++ [r])%list |}).

Definition Get := send false.
Definition GetWithAuth := send true.

(** *** Page translation

    [(pageInt-1)*resultsPerPage/limit + 1] with
    [limit := resultsPerPage * PagesAtOnce]; [None] is the run-time
    panic of a division by zero. *)
Definition limit : Z := GoInt.mul (ResultsPerPage conf) PagesAtOnce.

Definition upstreamPage (pageInt : Z) : option Z :=
  q ← GoInt.div (GoInt.mul (GoInt.sub pageInt 1) (ResultsPerPage conf)) limit;
  Some (GoInt.add q 1).

Definition pageParams (page : string) : list (string * string) :=
  [("page", page); ("limit", strconv.Itoa limit); ("extended", "full,images")].

(** *** [GetMovie] *)
Definition GetMovie (ID : string) : M (option Movie) :=
  let endPoint := fmt.Sprintf "movies/%s" [fmt.AStr ID] in
  let params := [("extended", "full,images")] in
  let key := fmt.Sprintf (cache.TraktMovieKey K) [fmt.AStr ID] in
  cached ← cacheGet decode.movie key;
  match cached with
  | Some movie => mret movie
  | None =>
      '(resp, err) ← Get endPoint params;
      (* [if err != nil] only logs and notifies; control goes on *)
      let movie := default None (Unmarshal decode.movie resp) in
      cacheSet key (DMovie movie) (cache.TraktMovieExpire K);;
      mret movie
  end.

(** *** [GetShow] *)
Definition GetShow (ID : string) : M (option Show) :=
  let endPoint := fmt.Sprintf "shows/%s" [fmt.AStr ID] in
  let params := [("extended", "full,images")] in
  let key := fmt.Sprintf (cache.TraktShowKey K) [fmt.AStr ID] in
  cached ← cacheGet decode.show key;
  match cached with
  | Some show => mret show
  | None =>
      '(resp, err) ← Get endPoint params;
      match err with
      | Some _ => mret None
      | None =>
          let show := default None (Unmarshal decode.show resp) in
          cacheSet key (DShow show) (cache.TraktShowExpire K);;
          mret show
      end
  end.

Definition isListCategory (topCategory : string) : bool :=
  String.eqb topCategory "popular" || String.eqb topCategory "recommendations".

(** *** [TopMovies]

    The outer [option] is [None] when the page arithmetic panics. *)
Definition TopMovies (topCategory page : string)
  : M (option (list Movies * Z * option Error)) :=
  let endPoint :=
    if String.eqb topCategory "recommendations"
    then topCategory ++ "/movies" else "movies/" ++ topCategory in
  match strconv.Atoi page with
  | None => mret (Some ([], 0, Some (ErrSyntax page)))
  | Some pageInt =>
      match upstreamPage pageInt with
      | None => mret None
      | Some p =>
          let page := strconv.Itoa p in
          let params := pageParams page in
          let key := fmt.Sprintf (cache.TraktMoviesByCategoryKey K)
                       [fmt.AStr topCategory; fmt.AStr page] in
          let totalKey := fmt.Sprintf (cache.TraktMoviesByCategoryTotalKey K)
                            [fmt.AStr topCategory] in
          cached ← cacheGet decode.moviesList key;
          let movies := default [] cached in
          if negb (bool_decide (is_Some cached)) || (Z.of_nat (length movies) =? 0) then
            '(resp, err) ← (if negb (TraktAuthorized conf)
                            then Get endPoint params
                            else GetWithAuth endPoint params);
            match err with
            | Some e => mret (Some (movies, 0, Some e))
            | None =>
                if negb (Status resp =? 200) then
                  mret (Some (movies, 0,
                    Some (Errorf (fmt.Sprintf "Bad status getting top %s Trakt shows: %d"
                                    [fmt.AStr topCategory; fmt.AInt (Status resp)]))))
                else
                  let movies :=
                    if isListCategory topCategory then
                      let movieList := default [] (Unmarshal decode.movieList resp) in
                      map (fun movie => {| Movies_Movie := Some movie |}) movieList
                    else default movies (Unmarshal decode.moviesList resp) in
                  let total := getPagination_ItemCount resp in
                  cacheSet totalKey (DInt total) (cache.TraktMoviesByCategoryTotalExpire K);;
                  cacheSet key (DMoviesList movies) (cache.TraktMoviesByCategoryExpire K);;
                  mret (Some (movies, total, None))
            end
          else
            t ← cacheGet decode.int totalKey;
            mret (Some (movies, default (-1) t, None))
      end
  end.

(** *** [TopShows] *)
Definition TopShows (topCategory page : string)
  : M (option (list Shows * Z * option Error)) :=
  let endPoint :=
    if String.eqb topCategory "recommendations"
    then topCategory ++ "/shows" else "shows/" ++ topCategory in
  match strconv.Atoi page with
  | None => mret (Some ([], 0, Some (ErrSyntax page)))
  | Some pageInt =>
      match upstreamPage pageInt with
      | None => mret None
      | Some p =>
          let page := strconv.Itoa p in
          let params := pageParams page in
          let key := fmt.Sprintf (cache.TraktShowsByCategoryKey K)
                       [fmt.AStr topCategory; fmt.AStr page] in
          let totalKey := fmt.Sprintf (cache.TraktShowsByCategoryTotalKey K)
                            [fmt.AStr topCategory] in
          cached ← cacheGet decode.showsList key;
          let shows := default [] cached in
          if negb (bool_decide (is_Some cached)) || (Z.of_nat (length shows) =? 0) then
            '(resp, err) ← (if negb (TraktAuthorized conf)
                            then Get endPoint params
                            else GetWithAuth endPoint params);
            match err with
            | Some e => mret (Some (shows, 0, Some e))
            | None =>
                if negb (Status resp =? 200) then
                  mret (Some (shows, 0,
                    Some (Errorf (fmt.Sprintf "Bad status getting top %s Trakt shows: %d"
                                    [fmt.AStr topCategory; fmt.AInt (Status resp)]))))
                else
                  let finish (shows : list Shows) :=
                    let total := getPagination_ItemCount resp in
                    cacheSet totalKey (DInt total) (cache.TraktShowsByCategoryTotalExpire K);;
                    cacheSet key (DShowsList shows) (cache.TraktShowsByCategoryExpire K);;
                    mret (Some (shows, total, None)) in
                  if isListCategory topCategory then
                    match Unmarshal decode.showList resp with
                    | None => mret (Some (shows, 0, Some ErrUnmarshal))
                    | Some showList =>
                        finish (map (fun show => {| Shows_Show := Some show |}) showList)
                    end
                  else finish (default shows (Unmarshal decode.showsList resp))
            end
          else
            t ← cacheGet decode.int totalKey;
            mret (Some (shows, default (-1) t, None))
      end
  end.

(** *** [WatchlistMovies] *)
Definition WatchlistMovies (isUpdateNeeded : bool) : M (list Movies * option Error) :=
  match Authorized with
  | Some e => mret ([], Some e)
  | None =>
      let endPoint := "sync/watchlist/movies" in
      let params := [("extended", "full,images")] in
      cached ← (if negb isUpdateNeeded
                then cacheGet decode.moviesList (cache.TraktMoviesWatchlistKey K)
                else mret None);
      match cached with
      | Some movies => mret (movies, None)
      | None =>
          '(resp, err) ← GetWithAuth endPoint params;
          match err with
          | Some e => mret ([], Some e)
          | None =>
              if negb (Status resp =? 200) then
                mret ([], Some (Errorf (fmt.Sprintf
                  "Bad status getting Trakt watchlist for movies: %d"
                  [fmt.AInt (Status resp)])))
              else
                let watchlist := default [] (Unmarshal decode.watchlistMovies resp) in
                let movies :=
                  map (fun movie => {| Movies_Movie := WatchlistMovie_Movie movie |})
                      watchlist in
                cacheSet (cache.TraktMoviesWatchlistKey K) (DMoviesList movies)
                         (cache.TraktMoviesWatchlistExpire K);;
                mret (movies, None)
          end
      end
  end.

(** *** [CalendarShows] *)
Definition CalendarShows (endPoint page : string)
  : M (option (list CalendarShow * Z * option Error)) :=
  match strconv.Atoi page with
  | None => mret (Some ([], 0, Some (ErrSyntax page)))
  | Some pageInt =>
      match upstreamPage pageInt with
      | None => mret None
      | Some p =>
          let page := strconv.Itoa p in
          let params := pageParams page in
          let endPointKey := replaceSlash endPoint in
          let key := fmt.Sprintf (cache.TraktShowsCalendarKey K)
                       [fmt.AStr endPointKey; fmt.AStr page] in
          let totalKey := fmt.Sprintf (cache.TraktShowsCalendarTotalKey K)
                            [fmt.AStr endPointKey] in
          cached ← cacheGet decode.calendarShows key;
          match cached with
          | None =>
              '(resp, err) ← GetWithAuth ("calendars/" ++ endPoint) params;
              match err with
              | Some e => mret (Some ([], 0, Some e))
              | None =>
                  if negb (Status resp =? 200) then
                    mret (Some ([], 0,
                      Some (Errorf (fmt.Sprintf "Bad status getting %s Trakt shows: %d"
                                      [fmt.AStr endPoint; fmt.AInt (Status resp)]))))
                  else
                    let shows := default [] (Unmarshal decode.calendarShows resp) in
                    let total := getPagination_ItemCount resp in
                    cacheSet totalKey (DInt total) (cache.TraktShowsCalendarTotalExpire K);;
                    cacheSet key (DCalendarShows shows) (cache.TraktShowsCalendarExpire K);;
                    mret (Some (shows, total, None))
              end
          | Some shows =>
              t ← cacheGet decode.int totalKey;
              mret (Some (shows, default (-1) t, None))
          end
      end
  end.

(** *** [Request]

    Modelled from the spec: [Request] is declared elsewhere in the
    package.  It is the cache-aside fetch: unless a refresh is
    forced, a cache hit is returned without an upstream call;
    otherwise the upstream is called, a transport error or a status
    other than 200 is returned without writing the cache, and a
    successful answer is decoded (a body that does not decode counts
    as the zero value) and stored under the key with its lifetime. *)
Definition Request {A} (dec : Data -> option A) (enc : A -> Data) (zero : A)
    (endPoint : string) (params : list (string * string))
    (isWithAuth isUpdateNeeded : bool) (cacheKey : string) (cacheExpire : Duration)
  : M (A * option Error) :=
  cached ← (if negb isUpdateNeeded then cacheGet dec cacheKey else mret None);
  match cached with
  | Some v => mret (v, None)
  | None =>
      '(resp, err) ← send isWithAuth endPoint params;
      match err with
      | Some e => mret (zero, Some e)
      | None =>
          if negb (Status resp =? 200) then
            mret (zero, Some (Errorf (fmt.Sprintf "Bad status getting %s: %d"
                                        [fmt.AStr endPoint; fmt.AInt (Status resp)])))
          else
            let v := default zero (Unmarshal dec resp) in
            cacheSet cacheKey (enc v) cacheExpire;;
            mret (v, None)
      end
  end.

(** *** [WatchedShows] *)
Definition WatchedShows (isUpdateNeeded : bool) : M (list WatchedShow * option Error) :=
  '(shows, err) ← Request decode.watchedShows DWatchedShows []
                    "sync/watched/shows" [("extended", "full,images")]
                    true isUpdateNeeded
                    (cache.TraktShowsWatchedKey K) (cache.TraktShowsWatchedExpire K);
  (if negb (Z.of_nat (length shows) =? 0)
   then cacheSet (cache.TraktShowsWatchedKey K) (DWatchedShows shows)
                 (cache.TraktShowsWatchedExpire K)
   else mret tt);;
  mret (shows, err).

(** *** [WatchedShowsProgress] *)

(** [GetLastActivities()], declared elsewhere in the package. *)
Variable GetLastActivities : M (UserActivities * option Error).

Definition progressParams : list (string * string) :=
  [("hidden", "false"); ("specials", "false"); ("count_specials", "false")].

Definition watchedKey (show : WatchedShow) : string :=
  fmt.Sprintf (cache.TraktWatchedShowsProgressWatchedKey K)
    [fmt.AInt (Trakt (ShowIDs (WatchedShow_Show show)))].

Definition progressKey (show : WatchedShow) : string :=
  fmt.Sprintf (cache.TraktWatchedShowsProgressKey K)
    [fmt.AInt (Trakt (ShowIDs (WatchedShow_Show show)))].

Definition progressEndPoint (show : WatchedShow) : string :=
  fmt.Sprintf "shows/%d/progress/watched"
    [fmt.AInt (Trakt (ShowIDs (WatchedShow_Show show)))].

(** The body of the per-show goroutine up to its [return]: the value
    left in [watchedProgressShow]. *)
Definition progressFetch (show : WatchedShow) : M (option WatchedProgressShow) :=
  cachedWatchedAt ← cacheGet decode.time (watchedKey show);
  reuse ← match cachedWatchedAt with
          | Some t =>
              if Time_Equal (LastWatchedAt show) t
              then cacheGet decode.progress (progressKey show)
              else mret None
          | None => mret None
          end;
  match reuse with
  | Some watchedProgressShow => mret watchedProgressShow
  | None =>
      '(resp, err) ← GetWithAuth (progressEndPoint show) progressParams;
      match err with
      | Some _ => mret None
      | None =>
          if negb (Status resp =? 200) then mret None
          else
            let watchedProgressShow := default None (Unmarshal decode.progress resp) in
            cacheSet (progressKey show) (DProgress watchedProgressShow)
                     (cache.TraktWatchedShowsProgressExpire K);;
            mret watchedProgressShow
      end
  end.

(** The test of the deferred function: a progress with a next
    episode whose number and season are both non-zero. *)
Definition nextOf (watchedProgressShow : option WatchedProgressShow) : option Episode :=
  match watchedProgressShow with
  | Some p =>
      match NextEpisode p with
      | Some e => if negb (Number e =? 0) && negb (Season e =? 0) then Some e else None
      | None => None
      end
  | None => None
  end.

Definition toProgressShow (show : WatchedShow)
    (watchedProgressShow : option WatchedProgressShow) : option ProgressShow :=
  e ← nextOf watchedProgressShow;
  Some {| ProgressShow_Show := WatchedShow_Show show; ProgressShow_Episode := e |}.

(** The two result arrays, one slot per watched show. *)
Record Slots := {
  showsList : list (option ProgressShow);
  watchedProgressShows : list (option WatchedProgressShow)
}.

(** One goroutine run without interruption: the body, then the
    deferred function (snapshot write and the two slot writes at
    [idx]). *)
Definition progressTask (idx : nat) (show : WatchedShow) (s : Slots) : M Slots :=
  watchedProgressShow ← progressFetch show;
  cacheSet (watchedKey show) (DTime (LastWatchedAt show))
           (cache.TraktWatchedShowsProgressWatchedExpire K);;
  mret {| showsList :=
            match toProgressShow show watchedProgressShow with
            | Some ps => <[idx := Some ps]> (showsList s)
            | None => showsList s
            end;
          watchedProgressShows := <[idx := watchedProgressShow]> (watchedProgressShows s) |}.

(** The same goroutine one operation at a time, so that the
    goroutines of different shows can interleave.  A goroutine is
    about to read the snapshot ([TStart]), to read the progress entry
    ([TFresh]), to call the upstream ([TCall]), to decode and store a
    good answer ([TStore]), to run the cache write of its deferred
    function ([TDefer]), to run the slot writes of its deferred
    function ([TSlots]), or it has called [wg.Done] ([TDone]). *)
Inductive TaskState :=
| TStart
| TFresh
| TCall
| TStore (resp : Response)
| TDefer (watchedProgressShow : option WatchedProgressShow)
| TSlots (watchedProgressShow : option WatchedProgressShow)
| TDone.

Definition taskStep (idx : nat) (show : WatchedShow) (t : TaskState) (s : Slots)
  : M (TaskState * Slots) :=
  match t with
  | TStart =>
      cachedWatchedAt ← cacheGet decode.time (watchedKey show);
      mret (match cachedWatchedAt with
            | Some t' => if Time_Equal (LastWatchedAt show) t' then TFresh else TCall
            | None => TCall
            end, s)
  | TFresh =>
      cached ← cacheGet decode.progress (progressKey show);
      mret (match cached with
            | Some watchedProgressShow => TDefer watchedProgressShow
            | None => TCall
            end, s)
  | TCall =>
      '(resp, err) ← GetWithAuth (progressEndPoint show) progressParams;
      mret (match err with
            | Some _ => TDefer None
            | None => if negb (Status resp =? 200) then TDefer None else TStore resp
            end, s)
  | TStore resp =>
      let watchedProgressShow := default None (Unmarshal decode.progress resp) in
      cacheSet (progressKey show) (DProgress watchedProgressShow)
               (cache.TraktWatchedShowsProgressExpire K);;
      mret (TDefer watchedProgressShow, s)
  | TDefer watchedProgressShow =>
      cacheSet (watchedKey show) (DTime (LastWatchedAt show))
               (cache.TraktWatchedShowsProgressWatchedExpire K);;
      mret (TSlots watchedProgressShow, s)
  | TSlots watchedProgressShow =>
      mret (TDone,
            {| showsList :=
                 match toProgressShow show watchedProgressShow with
                 | Some ps => <[idx := Some ps]> (showsList s)
                 | None => showsList s
                 end;
               watchedProgressShows :=
                 <[idx := watchedProgressShow]> (watchedProgressShows s) |})
  | TDone => mret (TDone, s)
  end.

(** [fuel] steps of one goroutine in a row. *)
Fixpoint taskRun (fuel : nat) (idx : nat) (show : WatchedShow) (t : TaskState) (s : Slots)
  : M (TaskState * Slots) :=
  match fuel with
  | O => mret (t, s)
  | S fuel' =>
      '(t', s') ← taskStep idx show t s;
      taskRun fuel' idx show t' s'
  end.

(** The goroutines under the scheduler: [sched] lists, in order, the
    index of the goroutine that takes the next step. *)
Fixpoint runSteps (sched : list nat) (watchedShows : list WatchedShow)
    (tasks : list TaskState) (s : Slots) : M (list TaskState * Slots) :=
  match sched with
  | [] => mret (tasks, s)
  | idx :: rest =>
      match watchedShows !! idx, tasks !! idx with
      | Some show, Some t =>
          '(t', s') ← taskStep idx show t s;
          runSteps rest watchedShows (<[idx := t']> tasks) s'
      | _, _ => runSteps rest watchedShows tasks s
      end
  end.

Definition isDone (t : TaskState) : bool :=
  match t with TDone => true | _ => false end.

(** The final loop: append every non-nil slot. *)
Definition collect (l : list (option ProgressShow)) : list ProgressShow :=
  fold_left (fun shows s => match s with Some x => (shows ++ [x])%list | None => shows end)
            l [].

(** [WatchedShowsProgress] up to and including [wg.Wait()]: the error
    of an early return, the watched shows with the two arrays as the
    goroutines left them, or, when the schedule ends before every
    goroutine is done, a [wg.Wait()] that has not returned. *)
Inductive Gathered :=
| Failed (e : Error)
| Waiting (watchedShows : list WatchedShow)
| Joined (watchedShows : list WatchedShow) (s : Slots).

Definition gatherProgress (sched : list nat) : M Gathered :=
  match Authorized with
  | Some errAuth => mret (Failed errAuth)
  | None =>
      '(lastActivities, err) ← GetLastActivities;
      match err with
      | Some e => mret (Failed e)
      | None =>
          prev ← cacheGet decode.activities (cache.TraktActivitiesKey K);
          let previousActivities := default {| Episodes_WatchedAt := 0 |} prev in
          let isRefresh :=
            negb (Time_Equal (Episodes_WatchedAt lastActivities)
                             (Episodes_WatchedAt previousActivities)) in
          '(watchedShows, errWatched) ← WatchedShows isRefresh;
          match errWatched with
          | Some e => mret (Failed e)
          | None =>
              let n := length watchedShows in
              '(tasks, s) ← runSteps sched watchedShows (replicate n TStart)
                              {| showsList := replicate n None;
                                 watchedProgressShows := replicate n None |};
              if forallb isDone tasks
              then mret (Joined watchedShows s)
              else mret (Waiting watchedShows)
          end
      end
  end.

(** [None]: the function has not returned. *)
Definition WatchedShowsProgress (sched : list nat)
  : M (option (list ProgressShow * option Error)) :=
  r ← gatherProgress sched;
  match r with
  | Failed e => mret (Some ([], Some e))
  | Waiting _ => mret None
  | Joined _ s => mret (Some (collect (showsList s), None))
  end.

End Trakt.

(** ** Package [tmdb]: [MakeRequest] *)

Module tmdb.

(** The response headers, reduced to the retry hint. *)
Record Header := { RetryAfter : option Duration }.

Record Response := { Status : Z; HttpHeader : Header }.

Record APIRequest := {
  URL : string;
  Params : list (string * string);
  Description : string
}.

(** The limiter [rl] and what went over the wire: the clock, the
    instant until which the limiter cools down, the headers
    [CoolDown] was called with, and the requests sent with the
    instant of each. *)
Record State := {
  clock : Time;
  coolDownUntil : Time;
  coolDowns : list Header;
  sent : list (Time * APIRequest)
}.

Section MakeRequest.

  (** [napping.Get]: the answer of TMDB to a request. *)
Variable napping_Get : APIRequest -> Response * option Error.
  (** The limiter's fixed fallback delay. *)
Variable defaultCoolDown : Duration.

  (** Modelled from the spec: the rate limiter is declared in package
      [util], which is not part of these files.  [CoolDown] reads the
      retry hint of the headers and sets the cooldown-until instant
      accordingly, with a fixed default delay when there is no hint. *)
Definition CoolDown (h : Header) (s : State) : State :=
    {| clock := clock s;
       coolDownUntil := clock s + default defaultCoolDown (RetryAfter h);
       coolDowns := (coolDowns s ++ [h])%list;
       sent := sent s |}.

  (** Modelled from the spec: [Call] delays its function until the
      cooldown has elapsed, then executes it once; it delays, it
      never drops. *)
Definition Call {A} (f : State -> A * State) (s : State) : A * State :=
    f {| clock := Z.max (clock s) (coolDownUntil s);
         coolDownUntil := coolDownUntil s;
         coolDowns := coolDowns s;
         sent := sent s |}.

Definition doGet (r : APIRequest) (s : State) : (Response * option Error) * State :=
    (napping_Get r,
     {| clock := clock s; coolDownUntil := coolDownUntil s; coolDowns := coolDowns s;
        sent := (sent s ++ [(clock s, r)])%list |}).

  (** The closure passed to [rl.Call]; its first result is the value
      left in the named result [ret], its second the closure's own
      return value. *)
Definition request (r : APIRequest) (s : State) : (option Error * option Error) * State :=
    let '((resp, err), s1) := doGet r s in
    match err with
    | Some e =>
        (* [ret = err], then control reaches [ret = nil; return nil] *)
        ((None, None), s1)
    | None =>
        if Status resp =? 429 then ((Some ErrExceeded, Some ErrExceeded), CoolDown (HttpHeader resp) s1)
        else if Status resp =? 404 then ((Some ErrNotFound, Some ErrNotFound), CoolDown (HttpHeader resp) s1)
        else if negb (Status resp =? 200) then ((Some ErrHTTP, Some ErrHTTP), s1)
        else ((None, None), s1)
    end.

Definition MakeRequest (r : APIRequest) (s : State) : option Error * State :=
    let '((ret, _), s') := Call (request r) s in (ret, s').

End MakeRequest.

End tmdb.

(** ** Package [providers]: the callback registry and [AddonSearcher.call] *)

Module providers.

Record TorrentFile := { URI : string }.

(** A [chan []byte] made with capacity 1. *)
Record Chan := { buf : list string; closed : bool }.

Record SearchPayload (SearchObject : Type) := {
  Method : string;
  CallbackURL : string;
  Search : SearchObject
}.
Arguments Method {_} _.
Arguments CallbackURL {_} _.
Arguments Search {_} _.

Section Dispatch.

Variable SearchObject : Type.

  (** [callbacks] maps a correlation id to its channel; channels live
      in [chans] and stay reachable by the goroutine that made them
      after the registration is gone.  [executed] logs
      [xbmc.ExecuteAddon]. *)
Record State := {
    callbacks : gmap string nat;
    chans : gmap nat Chan;
    executed : list (string * SearchPayload SearchObject)
  }.

  (** What a goroutine's step comes to: it completes, it blocks, or
      it panics. *)
Inductive Outcome (A : Type) :=
  | Done (a : A)
  | Blocked
  | Panic.
Arguments Done {_} _.
Arguments Blocked {_}.
Arguments Panic {_}.

Definition withCallbacks (f : gmap string nat -> gmap string nat) (s : State) : State :=
    {| callbacks := f (callbacks s); chans := chans s; executed := executed s |}.

Definition withChans (f : gmap nat Chan -> gmap nat Chan) (s : State) : State :=
    {| callbacks := callbacks s; chans := f (chans s); executed := executed s |}.

  (** [GetCallback]; [rnd] is the draw of [rand.Int()]. *)
Definition GetCallback (rnd : Z) (s : State) : (string * nat) * State :=
    let cid := strconv.Itoa rnd in
    let c := fresh (dom (chans s)) in
    let s1 := withChans (insert c {| buf := []; closed := false |}) s in
    ((cid, c), withCallbacks (insert cid c) s1).

Definition RemoveCallback (cid : string) (s : State) : State :=
    withCallbacks (delete cid) s.

  (** [c <- body] on a channel of capacity 1. *)
Definition chanSend (c : nat) (body : string) (s : State) : Outcome State :=
    match chans s !! c with
    | None => Blocked
    | Some ch =>
        if closed ch then Panic
        else match buf ch with
             | [] => Done (withChans (insert c {| buf := [body]; closed := false |}) s)
             | _ => Blocked
             end
    end.

  (** [close(c)]. *)
Definition chanClose (c : nat) (s : State) : Outcome State :=
    match chans s !! c with
    | None => Panic
    | Some ch =>
        if closed ch then Panic
        else Done (withChans (insert c {| buf := buf ch; closed := true |}) s)
    end.

  (** [CallbackHandler], for the request with id [cid] and body [body]. *)
Definition CallbackHandler (cid : string) (body : string) (s : State) : Outcome State :=
    match callbacks s !! cid with
    | None => Done s
    | Some c =>
        match chanSend c body (RemoveCallback cid s) with
        | Done s' => chanClose c s'
        | Blocked => Blocked
        | Panic => Panic
        end
    end.

  (** [util.GetHTTPHost()], [providerTimeout()], the provider
      settings of [config.Get()] and [json.Unmarshal] into the
      torrent list. *)
Variable HTTPHost : string.
Variable providerTimeout : Duration.
Variable CustomProviderTimeoutEnabled : bool.
Variable CustomProviderTimeout : Z.
Variable json_Unmarshal : string -> option (list TorrentFile).

Definition Second : Duration := 1000000000.

Definition timeout : Duration :=
    if CustomProviderTimeoutEnabled
    then GoInt.mul CustomProviderTimeout Second
    else providerTimeout.

  (** [call] up to its [select]: register, build the payload, run the
      add-on. *)
Definition call_dispatch (addonID method : string) (searchObject : SearchObject)
      (rnd : Z) (s : State) : (string * nat) * State :=
    let '((cid, c), s1) := GetCallback rnd s in
    let cbURL := fmt.Sprintf "%s/callbacks/%s" [fmt.AStr HTTPHost; fmt.AStr cid] in
    let payload := {| Method := method; CallbackURL := cbURL; Search := searchObject |} in
    ((cid, c),
     {| callbacks := callbacks s1; chans := chans s1;
        executed := (executed s1 ++ [(addonID, payload)])%list |}).

  (** The two cases of the [select]. *)
Inductive Case := OnTimeout | OnResult.

  (** [<-c]: the oldest buffered value, or the zero value of a closed
      and drained channel; an open and empty channel is not ready. *)
Definition chanRecv (c : nat) (s : State) : Outcome (string * State) :=
    match chans s !! c with
    | None => Blocked
    | Some ch =>
        match buf ch with
        | body :: rest =>
            Done (body, withChans (insert c {| buf := rest; closed := closed ch |}) s)
        | [] => if closed ch then Done ("", s) else Blocked
        end
    end.

  (** [call] from its [select] on, [elapsed] after the timer was
      started, taking the case [pick]; a case that is not ready
      cannot be taken. *)
Definition call_select (cid : string) (c : nat) (elapsed : Duration) (pick : Case)
      (s : State) : Outcome (list TorrentFile * State) :=
    let torrents : list TorrentFile := [] in
    match pick with
    | OnTimeout =>
        if timeout <=? elapsed then Done (torrents, RemoveCallback cid s) else Blocked
    | OnResult =>
        match chanRecv c s with
        | Done (result, s') => Done (default torrents (json_Unmarshal result), s')
        | Blocked => Blocked
        | Panic => Panic
        end
    end.

End Dispatch.

Arguments Done {_} _.
Arguments Blocked {_}.
Arguments Panic {_}.
Arguments callbacks {_} _.
Arguments chans {_} _.
Arguments executed {_} _.

End providers.

(** * Derived notions

    Names for the requests, keys and entries the functions above build
    inline, used to state their properties. *)

  (** The request a paged fetch sends for upstream page [P]. *)
Definition pageRequest (conf : Config) (PagesAtOnce : Z)
    (auth : bool) (endPoint : string) (P : Z) : HTTPRequest :=
    {| withAuth := auth; endPoint := endPoint;
       params := pageParams conf PagesAtOnce (strconv.Itoa P) |}.

Definition topMoviesEndPoint (topCategory : string) : string :=
    if String.eqb topCategory "recommendations"
    then topCategory ++ "/movies" else "movies/" ++ topCategory.

Definition topMoviesKey (K : cache.Consts) (topCategory : string) (P : Z) : string :=
    fmt.Sprintf (cache.TraktMoviesByCategoryKey K)
      [fmt.AStr topCategory; fmt.AStr (strconv.Itoa P)].

Definition calendarShowsKey (K : cache.Consts) (endPoint : string) (P : Z) : string :=
    fmt.Sprintf (cache.TraktShowsCalendarKey K)
      [fmt.AStr (replaceSlash endPoint); fmt.AStr (strconv.Itoa P)].



Definition topMoviesTotalKey (K : cache.Consts) (topCategory : string) : string :=
  fmt.Sprintf (cache.TraktMoviesByCategoryTotalKey K) [fmt.AStr topCategory].

Definition movieKey (K : cache.Consts) (ID : string) : string :=
  fmt.Sprintf (cache.TraktMovieKey K) [fmt.AStr ID].

Definition showKey (K : cache.Consts) (ID : string) : string :=
  fmt.Sprintf (cache.TraktShowKey K) [fmt.AStr ID].

Definition movieRequest (ID : string) : HTTPRequest :=
  {| withAuth := false; endPoint := fmt.Sprintf "movies/%s" [fmt.AStr ID];
     params := [("extended", "full,images")] |}.

Definition showRequest (ID : string) : HTTPRequest :=
  {| withAuth := false; endPoint := fmt.Sprintf "shows/%s" [fmt.AStr ID];
     params := [("extended", "full,images")] |}.

Definition watchlistRequest : HTTPRequest :=
  {| withAuth := true; endPoint := "sync/watchlist/movies";
     params := [("extended", "full,images")] |}.

(** An answer counts as failed when it carries an error or a status
    other than 200. *)
Definition failed (a : Response * option Error) : Prop :=
  is_Some (snd a) \/ Status (fst a) <> 200.


Definition topShowsKey (K : cache.Consts) (topCategory : string) (P : Z) : string :=
  fmt.Sprintf (cache.TraktShowsByCategoryKey K)
    [fmt.AStr topCategory; fmt.AStr (strconv.Itoa P)].

Definition topShowsTotalKey (K : cache.Consts) (topCategory : string) : string :=
  fmt.Sprintf (cache.TraktShowsByCategoryTotalKey K) [fmt.AStr topCategory].

Definition badStatusTop (topCategory : string) (status : Z) : Error :=
  Errorf (fmt.Sprintf "Bad status getting top %s Trakt shows: %d"
            [fmt.AStr topCategory; fmt.AInt status]).

(** The movies a successful answer to [TopMovies] decodes to. *)
Definition topMoviesOf (topCategory : string) (resp : Response) : list Movies :=
  if isListCategory topCategory
  then map (fun movie => {| Movies_Movie := Some movie |})
           (default [] (decode.movieList (Body resp)))
  else default [] (decode.moviesList (Body resp)).

(** The world with one request more in its log. *)
Definition logged (r : HTTPRequest) (w : World) : World :=
  {| store := store w; calls := (calls w ++ [r])%list |}.



Definition progressRequest (show : WatchedShow) : HTTPRequest :=
  {| withAuth := true; endPoint := progressEndPoint show; params := progressParams |}.

(** What the staleness check finds reusable: the cached progress, when
    the cached snapshot is readable, equals the show's [LastWatchedAt]
    and the progress entry is readable too. *)
Definition reusable (now : Time) (K : cache.Consts) (show : WatchedShow) (w : World)
  : option (option WatchedProgressShow) :=
  match cache.Get decode.time now (watchedKey K show) (store w) with
  | Some t =>
      if Time_Equal (LastWatchedAt show) t
      then cache.Get decode.progress now (progressKey K show) (store w)
      else None
  | None => None
  end.

(** The snapshot entry a task leaves behind. *)
Definition snapshotEntry (now : Time) (K : cache.Consts) (show : WatchedShow) : cache.Entry :=
  {| cache.payload := DTime (LastWatchedAt show);
     cache.expiry := now + cache.TraktWatchedShowsProgressWatchedExpire K |}.

Definition progressEntry (now : Time) (K : cache.Consts)
    (p : option WatchedProgressShow) : cache.Entry :=
  {| cache.payload := DProgress p;
     cache.expiry := now + cache.TraktWatchedShowsProgressExpire K |}.

Definition answeredOK (a : Response * option Error) : bool :=
  match snd a with
  | Some _ => false
  | None => Status (fst a) =? 200
  end.

(** The two arrays agree: slot [i] of [showsList] is what the deferred
    test makes of slot [i] of [watchedProgressShows]. *)
Definition consistent (watchedShows : list WatchedShow) (s : Slots) : Prop :=
  length (showsList s) = length watchedShows /\
  length (watchedProgressShows s) = length watchedShows /\
  forall i show, watchedShows !! i = Some show ->
    exists p, watchedProgressShows s !! i = Some p /\
              showsList s !! i = Some (toProgressShow show p).




(** The instant at which [rl.Call] lets the request go. *)
Definition admitted (s : tmdb.State) : Time := Z.max (tmdb.clock s) (tmdb.coolDownUntil s).

(** An open channel nothing has been written to. *)
Definition untouched : providers.Chan := {| providers.buf := []; providers.closed := false |}.

(** * Sample data *)

(** Sample settings, catalog and upstream used to run the code. *)
Module Sample.

Definition K : cache.Consts := {|
    cache.TraktMovieKey := "com.trakt.movie.%s";
    cache.TraktMovieExpire := 3600;
    cache.TraktShowKey := "com.trakt.show.%s";
    cache.TraktShowExpire := 3600;
    cache.TraktMoviesByCategoryKey := "com.trakt.movies.%s.%s";
    cache.TraktMoviesByCategoryExpire := 3600;
    cache.TraktMoviesByCategoryTotalKey := "com.trakt.movies.%s.total";
    cache.TraktMoviesByCategoryTotalExpire := 3600;
    cache.TraktShowsByCategoryKey := "com.trakt.shows.%s.%s";
    cache.TraktShowsByCategoryExpire := 3600;
    cache.TraktShowsByCategoryTotalKey := "com.trakt.shows.%s.total";
    cache.TraktShowsByCategoryTotalExpire := 3600;
    cache.TraktMoviesWatchlistKey := "com.trakt.movies.watchlist";
    cache.TraktMoviesWatchlistExpire := 3600;
    cache.TraktShowsCalendarKey := "com.trakt.shows.calendar.%s.%s";
    cache.TraktShowsCalendarExpire := 3600;
    cache.TraktShowsCalendarTotalKey := "com.trakt.shows.calendar.%s.total";
    cache.TraktShowsCalendarTotalExpire := 3600;
    cache.TraktShowsWatchedKey := "com.trakt.shows.watched";
    cache.TraktShowsWatchedExpire := 3600;
    cache.TraktActivitiesKey := "com.trakt.last_activities";
    cache.TraktWatchedShowsProgressKey := "com.trakt.shows.watched.progress.%d";
    cache.TraktWatchedShowsProgressExpire := 3600;
    cache.TraktWatchedShowsProgressWatchedKey := "com.trakt.shows.watched.progress.watched.%d";
    cache.TraktWatchedShowsProgressWatchedExpire := 3600
  |}.

Definition conf : Config := {| ResultsPerPage := 20; TraktAuthorized := false |}.

Definition movieA : Movie := {| MovieIDs := {| Trakt := 1; TMDB := 101 |}; MovieTitle := "A" |}.
Definition movieB : Movie := {| MovieIDs := {| Trakt := 2; TMDB := 102 |}; MovieTitle := "B" |}.
Definition showX : Show := {| ShowIDs := {| Trakt := 100; TMDB := 1100 |}; ShowTitle := "X" |}.
Definition showY : Show := {| ShowIDs := {| Trakt := 200; TMDB := 1200 |}; ShowTitle := "Y" |}.

Definition ok (body : Data) (count : option Z) : Response * option Error :=
    ({| Status := 200; Body := body; XPaginationItemCount := count |}, None).

Definition notFound : Response * option Error :=
    ({| Status := 404; Body := DJunk; XPaginationItemCount := None |}, Some ErrNotFound).

Definition serverError : Response * option Error :=
    ({| Status := 500; Body := DJunk; XPaginationItemCount := None |}, None).

  (** A healthy upstream. *)
Definition up : Upstream := fun r =>
    if String.eqb (endPoint r) "movies/popular" then ok (DMovieList [movieA; movieB]) (Some 2)
    else if String.eqb (endPoint r) "movies/42" then ok (DMovie (Some movieA)) None
    else if String.eqb (endPoint r) "shows/100" then ok (DShow (Some showX)) None
    else if String.eqb (endPoint r) "sync/watchlist/movies"
         then ok (DWatchlistMovies [{| WatchlistMovie_Movie := Some movieB |}]) None
    else if String.eqb (endPoint r) "calendars/my/shows"
         then ok (DCalendarShows [{| CalendarShow_Show := Some showX;
                                     CalendarShow_Episode := None |}]) (Some 1)
    else notFound.

  (** An upstream that answers every request with "not found". *)
Definition upNotFound : Upstream := fun _ => notFound.

  (** An upstream whose "not found" answers come without an error. *)
Definition upNotFoundQuiet : Upstream := fun _ =>
  ({| Status := 404; Body := DJunk; XPaginationItemCount := None |}, None).

(** An upstream that answers every request with status 500. *)
Definition upBroken : Upstream := fun _ => serverError.

Definition w0 : World := {| store := ∅; calls := [] |}.

End Sample.


(** Sample data for the progress refresh: show X was last watched at
    instant 9; the store still holds the snapshot 5 and the progress
    computed then (next episode 1x02); the upstream now reports 1x03. *)
Module SampleProgress.

Definition watchedX : WatchedShow := {| LastWatchedAt := 9; WatchedShow_Show := Sample.showX |}.

Definition ep (season number : Z) : Episode :=
  {| Season := season; Number := number; EpisodeTitle := "" |}.

Definition old : WatchedProgressShow :=
  {| Aired := 10; Completed := 1; NextEpisode := Some (ep 1 2) |}.

Definition current : WatchedProgressShow :=
  {| Aired := 10; Completed := 2; NextEpisode := Some (ep 1 3) |}.

Definition stale : World :=
  {| store :=
       <["com.trakt.shows.watched.progress.watched.100" :=
           {| cache.payload := DTime 5; cache.expiry := 3600 |}]>
       (<["com.trakt.shows.watched.progress.100" :=
           {| cache.payload := DProgress (Some old); cache.expiry := 3600 |}]> ∅);
     calls := [] |}.

Definition up : Upstream := fun r =>
  if String.eqb (endPoint r) "shows/100/progress/watched"
  then Sample.ok (DProgress (Some current)) None
  else Sample.notFound.

Definition slots : Slots := {| showsList := [None]; watchedProgressShows := [None] |}.

End SampleProgress.

(** Sample run of the whole synchronizer: four watched shows, of which
    the second has no next episode and the fourth a next episode
    numbered 0. *)
Module SampleSync.

Definition showZ : Show := {| ShowIDs := {| Trakt := 300; TMDB := 1300 |}; ShowTitle := "Z" |}.
Definition showV : Show := {| ShowIDs := {| Trakt := 400; TMDB := 1400 |}; ShowTitle := "V" |}.

Definition watched : list WatchedShow :=
  [ {| LastWatchedAt := 9; WatchedShow_Show := Sample.showX |};
    {| LastWatchedAt := 4; WatchedShow_Show := Sample.showY |};
    {| LastWatchedAt := 6; WatchedShow_Show := showZ |};
    {| LastWatchedAt := 2; WatchedShow_Show := showV |} ].

Definition progress (next : option Episode) : Data :=
  DProgress (Some {| Aired := 10; Completed := 3; NextEpisode := next |}).

Definition up : Upstream := fun r =>
  if String.eqb (endPoint r) "sync/watched/shows" then Sample.ok (DWatchedShows watched) None
  else if String.eqb (endPoint r) "shows/100/progress/watched"
       then Sample.ok (progress (Some (SampleProgress.ep 1 3))) None
  else if String.eqb (endPoint r) "shows/200/progress/watched"
       then Sample.ok (progress None) None
  else if String.eqb (endPoint r) "shows/300/progress/watched"
       then Sample.ok (progress (Some (SampleProgress.ep 2 1))) None
  else if String.eqb (endPoint r) "shows/400/progress/watched"
       then Sample.ok (progress (Some (SampleProgress.ep 3 0))) None
  else Sample.notFound.

Definition GetLastActivities : M (UserActivities * option Error) :=
  fun w => (({| Episodes_WatchedAt := 9 |}, None), w).

(** Z's goroutine first, the four goroutines taking turns. *)
Definition sched : list nat := concat (replicate 6 [2; 0; 3; 1]%nat).

End SampleSync.

Module SampleTmdb.

Definition request : tmdb.APIRequest :=
  {| tmdb.URL := "http://api.themoviedb.org/3/movie/0";
     tmdb.Params := [("api_key", "k")];
     tmdb.Description := "movie" |}.

Definition napping_Get : tmdb.APIRequest -> tmdb.Response * option Error :=
  fun _ => ({| tmdb.Status := 404; tmdb.HttpHeader := {| tmdb.RetryAfter := Some 7 |} |}, None).

Definition s0 : tmdb.State :=
  {| tmdb.clock := 100; tmdb.coolDownUntil := 0; tmdb.coolDowns := []; tmdb.sent := [] |}.

End SampleTmdb.

Module SampleProviders.

Definition s0 : providers.State string :=
  {| providers.callbacks := ∅; providers.chans := ∅; providers.executed := [] |}.

Definition json_Unmarshal (body : string) : option (list providers.TorrentFile) :=
  if String.eqb body "[]" then Some []
  else if String.eqb body "[{uri:magnet}]" then Some [{| providers.URI := "magnet" |}]
  else None.

(** The state after the dispatch of one search. *)
Definition dispatched :=
  providers.call_dispatch string "http://127.0.0.1:65220" "script.elementum.sample"
    "search" "query" 4711 s0.

End SampleProviders.

(** * Further code of the packages *)

(** ** Package [trakt]: list items and lookups by TMDB id *)

(** [ListItem], [MovieSearchResult] and [ShowSearchResult], reduced to
    the fields read below. *)
Record ListItem := { ListItem_Movie : option Movie; ListItem_Show : option Show }.
Record MovieSearchResult := { MovieSearchResult_Movie : option Movie }.
Record ShowSearchResult := { ShowSearchResult_Show : option Show }.

(** [time.Minute], in the unit of [providers.Second]. *)
Definition Minute : Duration := 60 * providers.Second.

Section TraktLists.

Variable now : Time.
Variable up : Upstream.
Variable conf : Config.
(** [config.Get().TraktUsername]. *)
Variable TraktUsername : string.
(** Key formats and lifetimes of the [cache] package read here. *)
Variables TraktMoviesListKey TraktShowsListKey TraktMovieByTMDBKey TraktShowTMDBKey : string.
Variables TraktShowsListExpire TraktMovieByTMDBExpire TraktShowTMDBExpire : Duration.
(** What [resp.Unmarshal] makes of a body for the three destination
    types that are not cache payloads. *)
Variable unmarshalListItems : Data -> option (list ListItem).
Variable unmarshalMovieSearchResults : Data -> option (list MovieSearchResult).
Variable unmarshalShowSearchResults : Data -> option (list ShowSearchResult).

(** The loop over the decoded items: those without a movie are
    skipped, the others are appended in order. *)
Definition movieListing (items : list ListItem) : list Movies :=
  fold_left (fun listing item =>
               match ListItem_Movie item with
               | None => listing
               | Some movie => (listing ++ [{| Movies_Movie := Some movie |}])%list
               end) items [].

Definition showListing (items : list ListItem) : list Shows :=
  fold_left (fun listing item =>
               match ListItem_Show item with
               | None => listing
               | Some show => (listing ++ [{| Shows_Show := Some show |}])%list
               end) items [].

Definition listUser (user : string) : string :=
  if String.eqb user EmptyString || String.eqb user "id" then TraktUsername else user.

(** *** [ListItemsMovies] *)
Definition ListItemsMovies (user listID : string) (isUpdateNeeded : bool)
  : M (list Movies * option Error) :=
  let user := listUser user in
  let endPoint := fmt.Sprintf "users/%s/lists/%s/items/movies"
                    [fmt.AStr user; fmt.AStr listID] in
  let params := [] in
  let key := fmt.Sprintf TraktMoviesListKey [fmt.AStr listID] in
  cached ← (if negb isUpdateNeeded then cacheGet now decode.moviesList key else mret None);
  match cached with
  | Some movies => mret (movies, None)
  | None =>
      '(resp, errGet) ← (if negb (TraktAuthorized conf)
                         then Get up endPoint params
                         else GetWithAuth up endPoint params);
      if bool_decide (is_Some errGet) || negb (Status resp =? 200) then
        mret ([], errGet)
      else
        let decoded := Unmarshal unmarshalListItems resp in
        let err := match decoded with Some _ => None | None => Some ErrUnmarshal end in
        let movies := movieListing (default [] decoded) in
        cacheSet now key (DMoviesList movies) (1 * Minute);;
        mret (movies, err)
  end.

(** *** [ListItemsShows] *)
Definition ListItemsShows (user listID : string) (isUpdateNeeded : bool)
  : M (list Shows * option Error) :=
  let user := listUser user in
  let endPoint := fmt.Sprintf "users/%s/lists/%s/items/shows"
                    [fmt.AStr user; fmt.AStr listID] in
  let params := [] in
  let key := fmt.Sprintf TraktShowsListKey [fmt.AStr listID] in
  cached ← (if negb isUpdateNeeded then cacheGet now decode.showsList key else mret None);
  match cached with
  | Some shows => mret (shows, None)
  | None =>
      '(resp, errGet) ← (if negb (TraktAuthorized conf)
                         then Get up endPoint params
                         else GetWithAuth up endPoint params);
      if bool_decide (is_Some errGet) || negb (Status resp =? 200) then
        mret ([], errGet)
      else
        let decoded := Unmarshal unmarshalListItems resp in
        let err := match decoded with Some _ => None | None => Some ErrUnmarshal end in
        let shows := showListing (default [] decoded) in
        cacheSet now key (DShowsList shows) TraktShowsListExpire;;
        mret (shows, err)
  end.

(** *** [GetMovieByTMDB] *)
Definition GetMovieByTMDB (tmdbID : string) : M (option Movie) :=
  let endPoint := fmt.Sprintf "search/tmdb/%s?type=movie" [fmt.AStr tmdbID] in
  let params := [] in
  let key := fmt.Sprintf TraktMovieByTMDBKey [fmt.AStr tmdbID] in
  cached ← cacheGet now decode.movie key;
  match cached with
  | Some movie => mret movie
  | None =>
      '(resp, err) ← Get up endPoint params;
      match err with
      | Some _ => mret None
      | None =>
          let results := default [] (Unmarshal unmarshalMovieSearchResults resp) in
          let movie :=
            match results with
            | first :: _ => MovieSearchResult_Movie first
            | [] => None
            end in
          cacheSet now key (DMovie movie) TraktMovieByTMDBExpire;;
          mret movie
      end
  end.

(** *** [GetShowByTMDB] *)
Definition GetShowByTMDB (tmdbID : string) : M (option Show) :=
  let endPoint := fmt.Sprintf "search/tmdb/%s?type=show" [fmt.AStr tmdbID] in
  let params := [] in
  let key := fmt.Sprintf TraktShowTMDBKey [fmt.AStr tmdbID] in
  cached ← cacheGet now decode.show key;
  match cached with
  | Some show => mret show
  | None =>
      '(resp, err) ← Get up endPoint params;
      match err with
      | Some _ => mret None
      | None =>
          let results := default [] (Unmarshal unmarshalShowSearchResults resp) in
          let show :=
            match results with
            | first :: _ => ShowSearchResult_Show first
            | [] => None
            end in
          cacheSet now key (DShow show) TraktShowTMDBExpire;;
          mret show
      end
  end.

End TraktLists.

(** ** Package [providers]: the movie search object *)

Module search.

(** [strings.Split(s, "-")[0]]: the text before the first dash, the
    whole text when there is none. *)
Fixpoint firstField (s : string) : string :=
  match s with
  | EmptyString => EmptyString
  | String c r => if Ascii.eqb c "-" then EmptyString else String c (firstField r)
  end.

(** The value [strconv.Atoi] returns beside its error: the number
    when the text is one, [0] after a syntax error, the nearest bound
    of [int] after a range error. *)
Definition AtoiValue (s : string) : Z :=
  let '(neg, body) :=
    match s with
    | String "+" r => (false, r)
    | String "-" r => (true, r)
    | _ => (false, s)
    end in
  match body with
  | EmptyString => 0
  | _ =>
      match strconv.digits 0 body with
      | Some n =>
          let v := if neg then - n else n in
          if GoInt.in_range v then v
          else if neg then GoInt.MinInt else GoInt.MaxInt
      | None => 0
      end
  end.

(** [y, _ := strconv.Atoi(strings.Split(date, "-")[0])]. *)
Definition yearOf (date : string) : Z := AtoiValue (firstField date).

(** The records of package [tmdb] behind a [*tmdb.Movie], reduced to
    the fields read here.  A nil slice and an empty one range over
    nothing alike, so slices are lists; pointers are options. *)
Record ReleaseDate := { ReleaseDate_ReleaseDate : string }.
Record ReleaseDatesResult := {
  ReleaseDatesResult_Iso3166_1 : string;
  ReleaseDatesResult_ReleaseDates : list ReleaseDate
}.
Record ReleaseDatesResults := { Results : list ReleaseDatesResult }.
Record AlternativeTitle := {
  AlternativeTitle_Iso3166_1 : string;
  AlternativeTitle_Title : string
}.
Record AlternativeTitles := { AlternativeTitles_Titles : list AlternativeTitle }.
Record TranslationData := { TranslationData_Title : string }.
Record Translation := {
  Translation_Iso3166_1 : string;
  Translation_Iso639_1 : string;
  Translation_Data : option TranslationData
}.
Record Translations := { Translations_Translations : list Translation }.

Record Movie := {
  Movie_IMDBId : string;
  Movie_ID : Z;
  Movie_Title : string;
  Movie_OriginalTitle : string;
  Movie_OriginalLanguage : string;
  Movie_ReleaseDate : string;
  Movie_ReleaseDates : option ReleaseDatesResults;
  Movie_AlternativeTitles : option AlternativeTitles;
  Movie_Translations : option Translations
}.

Record MovieSearchObject := {
  IMDBId : string;
  TMDBId : Z;
  Title : string;
  Year : Z;
  Years : gmap string Z;
  Titles : gmap string string;
  ProxyURL : string;
  ElementumURL : string;
  InternalProxyURL : string;
  Silent : bool;
  SkipAuth : bool
}.

Section SearchObject.

(** [config.Get()], reduced to the fields read here. *)
Variable UseOriginalTitle UseLowestReleaseDate : bool.
Variable Language config_ProxyURL : string.
(** [util.ElementumURL()] and [util.InternalProxyURL()]. *)
Variable util_ElementumURL util_InternalProxyURL : string.
(** [NormalizeTitle], declared elsewhere in the package, and
    [strings.ToLower]. *)
Variable NormalizeTitle : string -> string.
Variable ToLower : string -> string.

(** The first loop: the earliest year over all release dates,
    starting from the movie's own. *)
Definition earliest (results : list ReleaseDatesResult) (year : Z) : Z :=
  fold_left (fun year r =>
               fold_left (fun year d =>
                            let y := yearOf (ReleaseDate_ReleaseDate d) in
                            if y <? year then y else year)
                         (ReleaseDatesResult_ReleaseDates r) year)
            results year.

(** The inner loop of the second pass: [lowestYear] of one location. *)
Definition lowestYear (dates : list ReleaseDate) : Z :=
  fold_left (fun lowestYear d =>
               let y := yearOf (ReleaseDate_ReleaseDate d) in
               if (y <? lowestYear) || (lowestYear =? 0) then y else lowestYear)
            dates 0.

(** The second pass: one entry per location with a positive year. *)
Definition collectYears (results : list ReleaseDatesResult) (years : gmap string Z)
  : gmap string Z :=
  fold_left (fun years r =>
               let lowestYear := lowestYear (ReleaseDatesResult_ReleaseDates r) in
               if 0 <? lowestYear
               then <[ToLower (ReleaseDatesResult_Iso3166_1 r) := lowestYear]> years
               else years)
            results years.

Definition collectAlternativeTitles (titles : list AlternativeTitle)
    (m : gmap string string) : gmap string string :=
  fold_left (fun m title =>
               <[ToLower (AlternativeTitle_Iso3166_1 title)
                 := NormalizeTitle (AlternativeTitle_Title title)]> m)
            titles m.

Definition collectTranslations (translations : list Translation)
    (m : gmap string string) : gmap string string :=
  fold_left (fun m tr =>
               match Translation_Data tr with
               | None => m
               | Some data =>
                   if String.eqb (TranslationData_Title data) EmptyString then m
                   else
                     <[ToLower (Translation_Iso639_1 tr)
                       := NormalizeTitle (TranslationData_Title data)]>
                       (<[ToLower (Translation_Iso3166_1 tr)
                          := NormalizeTitle (TranslationData_Title data)]> m)
               end)
            translations m.

(** *** [GetMovieSearchObject] *)
Definition GetMovieSearchObject (movie : Movie) : MovieSearchObject :=
  let year := yearOf (Movie_ReleaseDate movie) in
  let title :=
    if UseOriginalTitle && negb (String.eqb (Movie_OriginalTitle movie) EmptyString)
    then Movie_OriginalTitle movie else Movie_Title movie in
  let year :=
    match Movie_ReleaseDates movie with
    | Some dates => if UseLowestReleaseDate then earliest (Results dates) year else year
    | None => year
    end in
  let years : gmap string Z := {[ "original" := year ]} in
  let titles : gmap string string :=
    <["source" := Movie_OriginalTitle movie]>
      {[ "original" := NormalizeTitle (Movie_OriginalTitle movie) ]} in
  let years :=
    match Movie_ReleaseDates movie with
    | Some dates => collectYears (Results dates) years
    | None => years
    end in
  let titles :=
    match Movie_AlternativeTitles movie with
    | Some alt => collectAlternativeTitles (AlternativeTitles_Titles alt) titles
    | None => titles
    end in
  let titles :=
    <[ToLower (Movie_OriginalLanguage movie)
      := NormalizeTitle (default EmptyString (titles !! "source"))]> titles in
  let titles := <[ToLower Language := NormalizeTitle (Movie_Title movie)]> titles in
  let titles :=
    match Movie_Translations movie with
    | Some tr => collectTranslations (Translations_Translations tr) titles
    | None => titles
    end in
  {| IMDBId := Movie_IMDBId movie;
     TMDBId := Movie_ID movie;
     Title := NormalizeTitle title;
     Year := year;
     Years := years;
     Titles := titles;
     ProxyURL := config_ProxyURL;
     ElementumURL := util_ElementumURL;
     InternalProxyURL := util_InternalProxyURL;
     Silent := false;
     SkipAuth := false |}.

(** *** [GetMovieSearchSilentObject] *)
Definition GetMovieSearchSilentObject (movie : Movie) (withAuth : bool)
  : MovieSearchObject :=
  let o := GetMovieSearchObject movie in
  {| IMDBId := IMDBId o;
     TMDBId := TMDBId o;
     Title := Title o;
     Year := Year o;
     Years := Years o;
     Titles := Titles o;
     ProxyURL := ProxyURL o;
     ElementumURL := ElementumURL o;
     InternalProxyURL := InternalProxyURL o;
     Silent := true;
     SkipAuth := negb withAuth |}.

End SearchObject.

End search.

(** ** Package [tmdb]: the API key check *)

Module apikeys.

(** The package variables [apiKeys] and [apiKey], with the keys
    checked and the number of random draws so far. *)
Record State := {
  apiKeys : list string;
  apiKey : string;
  checked : list string;
  draws : nat
}.

(** How [CheckAPIKey] ends: with a key that passed, without one, or
    in a run-time panic (an index or a slice bound out of range). *)
Inductive Outcome :=
| Passed (s : State)
| Failed (s : State)
| Panic.

Section CheckAPIKey.

(** The answer to the [n]-th check request, made with [key]. *)
Variable napping_Get : nat -> string -> tmdb.Response * option Error.
(** The [n]-th draw of [rand.Intn]. *)
Variable rand_Intn : nat -> Z -> Z.
(** [config.Get().TMDBApiKey]. *)
Variable TMDBApiKey : string.

(** *** [tmdbCheck] *)
Definition tmdbCheck (n : nat) (key : string) : bool :=
  let '(resp, err) := napping_Get n key in
  match err with
  | Some _ => false
  | None => if negb (tmdb.Status resp =? 200) then false else true
  end.

(** [append(apiKeys[:index], apiKeys[index+1:]...)]. *)
Definition remove (index : nat) (keys : list string) : list string :=
  (take index keys ++ drop (S index) keys)%list.

(** The loop [for index := len(apiKeys) - 1; index >= 0; index--],
    entered with [n = index + 1]. *)
Fixpoint loop (n : nat) (s : State) : Outcome :=
  match n with
  | O => Failed s
  | S index =>
      let result := tmdbCheck (length (checked s)) (apiKey s) in
      let s := {| apiKeys := apiKeys s; apiKey := apiKey s;
                  checked := (checked s ++ [apiKey s])%list; draws := draws s |} in
      if result then
        (* [apiKey[:7]] in the notice *)
        if (String.length (apiKey s) <? 7)%nat then Panic else Passed s
      else
        match apiKeys s !! index with
        | None => Panic
        | Some key =>
            let keys := if String.eqb (apiKey s) key
                        then remove index (apiKeys s) else apiKeys s in
            if (0 <? length keys)%nat then
              match keys !! Z.to_nat (rand_Intn (draws s) (Z.of_nat (length keys))) with
              | None => Panic
              | Some next =>
                  loop index {| apiKeys := keys; apiKey := next;
                                checked := checked s; draws := S (draws s) |}
              end
            else Failed {| apiKeys := keys; apiKey := apiKey s;
                           checked := checked s; draws := draws s |}
        end
  end.

(** *** [CheckAPIKey] *)
Definition CheckAPIKey (s : State) : Outcome :=
  let s :=
    if negb (String.eqb TMDBApiKey EmptyString)
    then {| apiKeys := (apiKeys s ++ [TMDBApiKey])%list; apiKey := TMDBApiKey;
            checked := checked s; draws := draws s |}
    else s in
  loop (length (apiKeys s)) s.

End CheckAPIKey.

End apikeys.

(** ** Package [trakt]: fan art *)

Module fanart.

(** [tmdb.ImageURL]. *)
Definition imageEndpoint : string := "http://image.tmdb.org/t/p/".

Definition ImageURL (uri size : string) : string :=
  if String.eqb uri EmptyString then EmptyString else imageEndpoint ++ size ++ uri.

(** The image records, reduced to the fields read or written here. *)
Record Sizes := { Full : string }.

Record Images := {
  Poster : option Sizes;
  Thumbnail : option Sizes;
  FanArt : option Sizes;
  Banner : option Sizes;
  ClearArt : option Sizes
}.

(** A [*Movie] as [setFanart] sees it. *)
Record Movie := { Movie_IDs : option IDs; Movie_Images : option Images }.

(** [Movies], the listing wrapper around it. *)
Record Movies := { Movies_Movie : option Movie }.

(** What [tmdb.GetImages] returns. *)
Record Image := { FilePath : string; Iso639_1 : string }.
Record TmdbImages := { Posters : list Image; Backdrops : list Image }.

Section SetFanart.

(** [tmdb.GetImages], declared elsewhere, and [config.Get().Language]. *)
Variable GetImages : Z -> option TmdbImages.
Variable Language : string.

(** The choice among the images of one kind: nothing for an empty
    list; otherwise the first image, replaced in turn by every image
    in the configured language. *)
Definition choose (images : list Image) : option string :=
  match images with
  | [] => None
  | first :: _ =>
      Some (fold_left (fun chosen image =>
                         if String.eqb (Iso639_1 image) Language
                         then ImageURL (FilePath image) "w1280" else chosen)
                      images (ImageURL (FilePath first) "w1280"))
  end.

(** [if p == nil { p = &Sizes{} }]. *)
Definition orEmpty (p : option Sizes) : option Sizes :=
  match p with
  | None => Some {| Full := EmptyString |}
  | Some _ => p
  end.

(** *** [setFanart]; [None] is the panic on a nil movie. *)
Definition setFanart (movie : option Movie) : option Movie :=
  match movie with
  | None => None
  | Some movie =>
      let images :=
        default {| Poster := None; Thumbnail := None; FanArt := None;
                   Banner := None; ClearArt := None |} (Movie_Images movie) in
      let images :=
        {| Poster := orEmpty (Poster images); Thumbnail := orEmpty (Thumbnail images);
           FanArt := orEmpty (FanArt images); Banner := orEmpty (Banner images);
           ClearArt := orEmpty (ClearArt images) |} in
      let unchanged := Some {| Movie_IDs := Movie_IDs movie; Movie_Images := Some images |} in
      match Movie_IDs movie with
      | None => unchanged
      | Some ids =>
          if TMDB ids =? 0 then unchanged
          else
            match GetImages (TMDB ids) with
            | None => unchanged
            | Some tmdbImages =>
                let images :=
                  match choose (Posters tmdbImages) with
                  | Some posterImage =>
                      {| Poster := Some {| Full := posterImage |};
                         Thumbnail := Some {| Full := posterImage |};
                         FanArt := FanArt images; Banner := Banner images;
                         ClearArt := ClearArt images |}
                  | None => images
                  end in
                let images :=
                  match choose (Backdrops tmdbImages) with
                  | Some backdropImage =>
                      {| Poster := Poster images; Thumbnail := Thumbnail images;
                         FanArt := Some {| Full := backdropImage |};
                         Banner := Some {| Full := backdropImage |};
                         ClearArt := ClearArt images |}
                  | None => images
                  end in
                Some {| Movie_IDs := Movie_IDs movie; Movie_Images := Some images |}
            end
      end
  end.

(** *** [setFanarts]: one goroutine per entry, each writing its own
    slot; [None] when one of them panics. *)
Definition setFanarts (movies : list Movies) : option (list Movies) :=
  mapM (fun m => movie ← setFanart (Movies_Movie m);
                 Some {| Movies_Movie := Some movie |}) movies.

End SetFanart.

End fanart.

(** ** Package [main]: the repository add-on *)

Module migration.

(** The calls [checkRepository] makes to the host and to the
    [repository] package, in the order it makes them. *)
Inductive Call :=
| IsAddonInstalled (id : string)
| IsAddonEnabled (id : string)
| SetAddonEnabled (id : string) (enabled : bool)
| MakeElementumRepositoryAddon
| UpdateLocalAddons
| GetAddons
| InstallAddon (id : string)
| Sleep (d : Duration)
| UpdateAddonRepos.

Record Addon := { ID : string; Enabled : bool }.

(** What the host answers: to the [n]-th question whether the
    repository add-on is installed, whether it is enabled, with what
    error the add-on is created, and which repository add-ons it
    lists. *)
Record Host := {
  installed : nat -> bool;
  enabled : bool;
  made : option Error;
  addons : list Addon
}.

Section CheckRepository.

Variable h : Host.

(** [for timeout := 0; timeout < 10; timeout++], entered with
    [rounds = 10 - timeout] after [asked] questions. *)
Fixpoint wait (rounds asked : nat) : list Call :=
  match rounds with
  | O => []
  | S rounds =>
      IsAddonInstalled "repository.elementum" ::
      (if installed h asked then []
       else Sleep (1 * providers.Second) :: wait rounds (S asked))
  end.

(** The range over the listed add-ons: whether one of them is the
    enabled repository add-on. *)
Definition foundEnabled : bool :=
  existsb (fun addon => String.eqb (ID addon) "repository.elementum"
                        && Bool.eqb (Enabled addon) true) (addons h).

(** *** [checkRepository]: the result and the calls made. *)
Definition checkRepository : bool * list Call :=
  if installed h 0 then
    (true,
     IsAddonInstalled "repository.elementum" :: IsAddonEnabled "repository.elementum" ::
     (if negb (enabled h) then [SetAddonEnabled "repository.elementum" true] else []))
  else
    match made h with
    | Some _ =>
        (false, [IsAddonInstalled "repository.elementum"; MakeElementumRepositoryAddon])
    | None =>
        let start := [IsAddonInstalled "repository.elementum"; MakeElementumRepositoryAddon;
                      UpdateLocalAddons; GetAddons] in
        if foundEnabled then (false, start)
        else
          (true,
           start ++ InstallAddon "repository.elementum" :: wait 10 1 ++
           [SetAddonEnabled "repository.elementum" true; UpdateLocalAddons;
            UpdateAddonRepos])%list
    end.

End CheckRepository.

End migration.

(** * Further notions *)

(** Whether an answer makes [MakeRequest] cool the limiter down. *)
Definition coolsDown (a : tmdb.Response * option Error) : bool :=
  match snd a with
  | Some _ => false
  | None => (tmdb.Status (fst a) =? 429) || (tmdb.Status (fst a) =? 404)
  end.

(** The requests of the list and search fetches. *)
Definition listMoviesRequest (conf : Config) (user listID : string) : HTTPRequest :=
  {| withAuth := TraktAuthorized conf;
     endPoint := fmt.Sprintf "users/%s/lists/%s/items/movies"
                   [fmt.AStr user; fmt.AStr listID];
     params := [] |}.

Definition listShowsRequest (conf : Config) (user listID : string) : HTTPRequest :=
  {| withAuth := TraktAuthorized conf;
     endPoint := fmt.Sprintf "users/%s/lists/%s/items/shows"
                   [fmt.AStr user; fmt.AStr listID];
     params := [] |}.

Definition movieByTMDBRequest (tmdbID : string) : HTTPRequest :=
  {| withAuth := false;
     endPoint := fmt.Sprintf "search/tmdb/%s?type=movie" [fmt.AStr tmdbID];
     params := [] |}.

Definition showByTMDBRequest (tmdbID : string) : HTTPRequest :=
  {| withAuth := false;
     endPoint := fmt.Sprintf "search/tmdb/%s?type=show" [fmt.AStr tmdbID];
     params := [] |}.

(** An answer without error and with status 200. *)
Definition answered200 (a : Response * option Error) : Prop :=
  snd a = None /\ Status (fst a) = 200.

(** The years of all release dates of all locations, in the order
    the first loop of [GetMovieSearchObject] visits them. *)
Definition allYears (results : list search.ReleaseDatesResult) : list Z :=
  flat_map (fun r => map (fun d => search.yearOf (search.ReleaseDate_ReleaseDate d))
                         (search.ReleaseDatesResult_ReleaseDates r)) results.

Definition yearsOf (dates : list search.ReleaseDate) : list Z :=
  map (fun d => search.yearOf (search.ReleaseDate_ReleaseDate d)) dates.

(** The locations a movie carries release dates for. *)
Definition locations (movie : search.Movie) : list search.ReleaseDatesResult :=
  match search.Movie_ReleaseDates movie with
  | Some dates => search.Results dates
  | None => []
  end.

(** Every key of [keys], checked in turn from check number [base]
    on, fails. *)
Definition allFailed (tmdbCheck : nat -> string -> bool) (base : nat) (keys : list string)
  : Prop :=
  forall i key, keys !! i = Some key -> tmdbCheck (base + i)%nat key = false.

(** The state in which [CheckAPIKey] enters its loop. *)
Definition entry (TMDBApiKey : string) (s : apikeys.State) : apikeys.State :=
  if negb (String.eqb TMDBApiKey EmptyString)
  then {| apikeys.apiKeys := (apikeys.apiKeys s ++ [TMDBApiKey])%list;
          apikeys.apiKey := TMDBApiKey;
          apikeys.checked := apikeys.checked s; apikeys.draws := apikeys.draws s |}
  else s.

(** The contract of [rand.Intn]. *)
Definition inRange (rand_Intn : nat -> Z -> Z) : Prop :=
  forall k n, 0 < n -> 0 <= rand_Intn k n < n.

(** A movie whose five image containers are all there. *)
Definition complete (movie : fanart.Movie) : Prop :=
  exists poster thumbnail fanArt banner clearArt,
    fanart.Movie_Images movie
    = Some {| fanart.Poster := Some poster; fanart.Thumbnail := Some thumbnail;
              fanart.FanArt := Some fanArt; fanart.Banner := Some banner;
              fanart.ClearArt := Some clearArt |}.

(** The images in the configured language. *)
Definition inLanguage (Language : string) (images : list fanart.Image) : list fanart.Image :=
  filter (fun image => fanart.Iso639_1 image = Language) images.

(** The seconds slept in a sequence of calls. *)
Definition isSleep (c : migration.Call) : bool :=
  match c with migration.Sleep _ => true | _ => false end.

Definition sleeps (calls : list migration.Call) : nat :=
  length (List.filter isSleep calls).

(** The number of questions, among the first [n] asked from question
    [from] on, that come before the first answer "installed". *)
Fixpoint unanswered (installed : nat -> bool) (n from : nat) : nat :=
  match n with
  | O => O
  | S n => if installed from then O else S (unanswered installed n (S from))
  end.

(** Successive [WatchedShows] calls without a forced refresh, at the
    given instants. *)
Fixpoint watchedAt (up : Upstream) (K : cache.Consts) (times : list Time) (w : World)
  : list (list WatchedShow * option Error) * World :=
  match times with
  | [] => ([], w)
  | now :: rest =>
      let '(r, w1) := WatchedShows now up K false w in
      let '(rs, w2) := watchedAt up K rest w1 in
      (r :: rs, w2)
  end.

(** Every instant comes less than [d] after the one before it. *)
Fixpoint closely (d : Duration) (prev : Time) (times : list Time) : Prop :=
  match times with
  | [] => True
  | t :: rest => t < prev + d /\ closely d t rest
  end.

(** ** Further sample data *)

Module SampleProviders2.


End SampleProviders2.

Module SampleLists.

(** Bodies of list items are carried as [DMoviesList] / [DShowsList]
    in the samples. *)
Definition unmarshalListItems (d : Data) : option (list ListItem) :=
  match d with
  | DMoviesList l =>
      Some (map (fun m => {| ListItem_Movie := Movies_Movie m; ListItem_Show := None |}) l)
  | DShowsList l =>
      Some (map (fun s => {| ListItem_Movie := None; ListItem_Show := Shows_Show s |}) l)
  | _ => None
  end.

Definition unmarshalMovieSearchResults (d : Data) : option (list MovieSearchResult) :=
  match d with
  | DMoviesList l => Some (map (fun m => {| MovieSearchResult_Movie := Movies_Movie m |}) l)
  | _ => None
  end.

Definition unmarshalShowSearchResults (d : Data) : option (list ShowSearchResult) :=
  match d with
  | DShowsList l => Some (map (fun s => {| ShowSearchResult_Show := Shows_Show s |}) l)
  | _ => None
  end.

Definition mixedMovies : Data :=
  DMoviesList [{| Movies_Movie := Some Sample.movieA |}; {| Movies_Movie := None |};
               {| Movies_Movie := Some Sample.movieB |}].

Definition mixedShows : Data :=
  DShowsList [{| Shows_Show := None |}; {| Shows_Show := Some Sample.showX |}].

(** Lists exist for user "alice" only; searches by TMDB id find movie
    101 and show 1100. *)
Definition up : Upstream := fun r =>
  if String.eqb (endPoint r) "users/alice/lists/7/items/movies"
  then Sample.ok mixedMovies None
  else if String.eqb (endPoint r) "users/alice/lists/7/items/shows"
  then Sample.ok mixedShows None
  else if String.eqb (endPoint r) "search/tmdb/101?type=movie"
  then Sample.ok (DMoviesList [{| Movies_Movie := Some Sample.movieA |};
                               {| Movies_Movie := Some Sample.movieB |}]) None
  else if String.eqb (endPoint r) "search/tmdb/1100?type=show"
  then Sample.ok (DShowsList [{| Shows_Show := Some Sample.showX |}]) None
  else Sample.upNotFoundQuiet r.

End SampleLists.

Module SampleSearch.

Definition date (s : string) : search.ReleaseDate := {| search.ReleaseDate_ReleaseDate := s |}.

(** Released 1999 in the US, with one undated entry between two dated
    ones in Germany. *)
Definition dates : search.ReleaseDatesResults :=
  {| search.Results :=
       [ {| search.ReleaseDatesResult_Iso3166_1 := "us";
            search.ReleaseDatesResult_ReleaseDates := [date "1999-10-15"; date "2000-01-01"] |};
         {| search.ReleaseDatesResult_Iso3166_1 := "de";
            search.ReleaseDatesResult_ReleaseDates :=
              [date "1998-11-11"; date EmptyString; date "2001-05-05"] |} ] |}.

Definition movie : search.Movie :=
  {| search.Movie_IMDBId := "tt0137523";
     search.Movie_ID := 550;
     search.Movie_Title := "Fight Club";
     search.Movie_OriginalTitle := "Fight Club";
     search.Movie_OriginalLanguage := "en";
     search.Movie_ReleaseDate := "1999-10-15";
     search.Movie_ReleaseDates := Some dates;
     search.Movie_AlternativeTitles := None;
     search.Movie_Translations := None |}.

Definition GetMovieSearchObject (lowest : bool) : search.MovieSearchObject :=
  search.GetMovieSearchObject false lowest "en" "proxy" "elementum" "internal"
    (fun s => s) (fun s => s) movie.

End SampleSearch.

Module SampleKeys.

(** The package's own keys; the first was drawn at start-up. *)
Definition s0 : apikeys.State :=
  {| apikeys.apiKeys := ["8cf43ad9c085135b9479ad5cf6bbcbda";
                         "ae4bd1b6fce2a5648671bfc171d15ba4";
                         "29a551a65eef108dd01b46e27eb0554a"];
     apikeys.apiKey := "8cf43ad9c085135b9479ad5cf6bbcbda";
     apikeys.checked := [];
     apikeys.draws := 0 |}.

(** The first key is refused, the others are accepted. *)
Definition napping_Get (n : nat) (key : string) : tmdb.Response * option Error :=
  ({| tmdb.Status := if String.eqb key "8cf43ad9c085135b9479ad5cf6bbcbda" then 401 else 200;
      tmdb.HttpHeader := {| tmdb.RetryAfter := None |} |}, None).

(** A source of draws that keeps returning 0, and one that counts up. *)
Definition zeros (k : nat) (n : Z) : Z := 0.
Definition counting (k : nat) (n : Z) : Z := Z.of_nat (S k) mod n.

End SampleKeys.

(** * Properties *)

(** ** Sanity checks of the library models *)

Example Itoa_ex : strconv.Itoa 42 = "42" /\ strconv.Itoa (-7) = "-7" /\ strconv.Itoa 0 = "0".
Proof. repeat split; reflexivity. Qed.

Example Atoi_ex :
  strconv.Atoi "17" = Some 17 /\ strconv.Atoi "+3" = Some 3 /\
  strconv.Atoi "-12" = Some (-12) /\ strconv.Atoi "" = None /\
  strconv.Atoi "1x" = None /\ strconv.Atoi "99999999999999999999" = None.
Proof. repeat split; reflexivity. Qed.

Example Sprintf_ex :
  fmt.Sprintf "com.trakt.movies.%s.%s" [fmt.AStr "popular"; fmt.AStr "3"]
  = "com.trakt.movies.popular.3" /\
  fmt.Sprintf "shows/%d/progress/watched" [fmt.AInt 1390] = "shows/1390/progress/watched".
Proof. split; reflexivity. Qed.

Example M_ex : run (x ← mret 1; y ← mret 2; mret (x + y)) {| store := ∅; calls := [] |}
               = (3, {| store := ∅; calls := [] |}).
Proof. reflexivity. Qed.

(** ** Go integers and decimal text *)






Ltac unfold_M :=
  unfold mbind, M_bind, mret, M_ret, cacheGet, cacheSet, Get, GetWithAuth, send in *;
  simpl in *.

(** ** Page translation *)

Section PageTranslation.

Variable conf : Config.
Variable PagesAtOnce : Z.



Variable now : Time.
Variable up : Upstream.
Variable K : cache.Consts.



End PageTranslation.


(** ** Cache keys *)

Lemma append_cons (c : ascii) (a b : string) :
  (String c a ++ b)%string = String c (a ++ b).
Proof. reflexivity. Qed.

Lemma append_nil (b : string) : ("" ++ b)%string = b.
Proof. reflexivity. Qed.

Lemma append_assoc (a b c : string) : ((a ++ b) ++ c)%string = (a ++ (b ++ c))%string.
Proof.
  induction a as [|x a IH]; [reflexivity|].
  rewrite !append_cons. now rewrite IH.
Qed.










(** [TopMovies] leaves every entry other than the page entry and the
    total entry as it was. *)
Lemma TopMovies_frame (now : Time) (up : Upstream) (conf : Config) (K : cache.Consts)
    (PagesAtOnce : Z) (topCategory page : string) (p P : Z) (w : World) (k : string) :
  strconv.Atoi page = Some p -> upstreamPage conf PagesAtOnce p = Some P ->
  k <> topMoviesKey K topCategory P -> k <> topMoviesTotalKey K topCategory ->
  store (snd (TopMovies now up conf K PagesAtOnce topCategory page w)) !! k = store w !! k.
Proof.
  intros Hp HP Hk Ht. unfold TopMovies, topMoviesKey, topMoviesTotalKey in *.
  rewrite Hp, HP. unfold_M.
  destruct (cache.Get decode.moviesList now _ (store w)) as [movies|]; simpl;
    try (destruct (Z.of_nat (length movies) =? 0); simpl; [|reflexivity]);
    (destruct (TraktAuthorized conf); simpl;
     destruct (up _) as [resp [e|]]; simpl; try reflexivity;
     destruct (Status resp =? 200); simpl; try reflexivity;
     unfold cache.Set_; rewrite !lookup_insert_ne by congruence; reflexivity).
Qed.





(** ** Cache-aside fetches *)

(** A value written at [now] is read back until its lifetime is over. *)
Lemma Get_Set_eq {A} (dec : Data -> option A) (now now' : Time) (key : string)
    (v : Data) (ttl : Duration) (c : gmap string cache.Entry) :
  cache.Get dec now' key (cache.Set_ now key v ttl c)
  = if now' <? now + ttl then dec v else None.
Proof.
  unfold cache.Get, cache.lookup, cache.Set_. rewrite lookup_insert_eq. simpl.
  now destruct (now' <? now + ttl).
Qed.

Lemma Get_Set_ne {A} (dec : Data -> option A) (now now' : Time) (key key' : string)
    (v : Data) (ttl : Duration) (c : gmap string cache.Entry) :
  key <> key' ->
  cache.Get dec now' key' (cache.Set_ now key v ttl c) = cache.Get dec now' key' c.
Proof.
  intros H. unfold cache.Get, cache.lookup, cache.Set_. now rewrite lookup_insert_ne.
Qed.

(** [GetMovie]: a hit leaves the world alone; a miss sends one request
    and stores what the answer decodes to, whatever the answer. *)
Lemma GetMovie_run (now : Time) (up : Upstream) (K : cache.Consts) (ID : string) (w : World) :
  GetMovie now up K ID w =
  match cache.Get decode.movie now (movieKey K ID) (store w) with
  | Some movie => (movie, w)
  | None =>
      let movie := default None (decode.movie (Body (fst (up (movieRequest ID))))) in
      (movie,
       {| store := cache.Set_ now (movieKey K ID) (DMovie movie) (cache.TraktMovieExpire K)
                     (store w);
          calls := (calls w ++ [movieRequest ID])%list |})
  end.
Proof.
  unfold GetMovie, movieKey, movieRequest. unfold_M.
  destruct (cache.Get decode.movie now _ (store w)); [reflexivity|].
  now destruct (up _) as [resp err].
Qed.

(** [GetShow]: as [GetMovie], except that an answer with an error is
    returned before anything is stored. *)
Lemma GetShow_run (now : Time) (up : Upstream) (K : cache.Consts) (ID : string) (w : World) :
  GetShow now up K ID w =
  match cache.Get decode.show now (showKey K ID) (store w) with
  | Some show => (show, w)
  | None =>
      let w1 := {| store := store w; calls := (calls w ++ [showRequest ID])%list |} in
      match snd (up (showRequest ID)) with
      | Some _ => (None, w1)
      | None =>
          let show := default None (decode.show (Body (fst (up (showRequest ID))))) in
          (show,
           {| store := cache.Set_ now (showKey K ID) (DShow show) (cache.TraktShowExpire K)
                         (store w);
              calls := calls w1 |})
      end
  end.
Proof.
  unfold GetShow, showKey, showRequest. unfold_M.
  destruct (cache.Get decode.show now _ (store w)); [reflexivity|].
  now destruct (up _) as [resp [e|]].
Qed.

(** [WatchlistMovies], authorized and without a forced refresh. *)
Lemma WatchlistMovies_run (now : Time) (up : Upstream) (K : cache.Consts)
    (isUpdateNeeded : bool) (w : World) :
  WatchlistMovies now up K None isUpdateNeeded w =
  match (if isUpdateNeeded then None
         else cache.Get decode.moviesList now (cache.TraktMoviesWatchlistKey K) (store w)) with
  | Some movies => ((movies, None), w)
  | None =>
      let w1 := {| store := store w; calls := (calls w ++ [watchlistRequest])%list |} in
      let resp := fst (up watchlistRequest) in
      match snd (up watchlistRequest) with
      | Some e => (([], Some e), w1)
      | None =>
          if Status resp =? 200 then
            let movies :=
              map (fun movie => {| Movies_Movie := WatchlistMovie_Movie movie |})
                  (default [] (decode.watchlistMovies (Body resp))) in
            ((movies, None),
             {| store := cache.Set_ now (cache.TraktMoviesWatchlistKey K) (DMoviesList movies)
                           (cache.TraktMoviesWatchlistExpire K) (store w);
                calls := calls w1 |})
          else
            (([], Some (Errorf (fmt.Sprintf
                 "Bad status getting Trakt watchlist for movies: %d"
                 [fmt.AInt (Status resp)]))), w1)
      end
  end.
Proof.
  unfold WatchlistMovies, watchlistRequest. unfold_M.
  destruct isUpdateNeeded; simpl.
  - destruct (up _) as [resp [e|]]; simpl; [reflexivity|].
    now destruct (Status resp =? 200).
  - destruct (cache.Get decode.moviesList now _ (store w)); [reflexivity|].
    destruct (up _) as [resp [e|]]; simpl; [reflexivity|].
    now destruct (Status resp =? 200).
Qed.

(** The sibling fetches return a failed answer without touching the
    store: [GetShow] on an error, [WatchlistMovies] and [TopMovies] on
    an error or a status other than 200. *)
Lemma GetShow_failed_writes_nothing (now : Time) (up : Upstream) (K : cache.Consts)
    (ID : string) (w : World) :
  is_Some (snd (up (showRequest ID))) ->
  store (snd (GetShow now up K ID w)) = store w.
Proof.
  intros [e He]. rewrite GetShow_run.
  destruct (cache.Get decode.show now _ (store w)); [reflexivity|].
  now rewrite He.
Qed.

Lemma WatchlistMovies_failed_writes_nothing (now : Time) (up : Upstream) (K : cache.Consts)
    (isUpdateNeeded : bool) (w : World) :
  failed (up watchlistRequest) ->
  store (snd (WatchlistMovies now up K None isUpdateNeeded w)) = store w.
Proof.
  intros Hf. rewrite WatchlistMovies_run.
  destruct (if isUpdateNeeded then None else _); [reflexivity|].
  destruct (snd (up watchlistRequest)) as [e|] eqn:He; simpl; [reflexivity|].
  destruct Hf as [[e He']|Hs]; [congruence|].
  destruct (Z.eqb_spec (Status (fst (up watchlistRequest))) 200); [contradiction | reflexivity].
Qed.

Lemma TopMovies_failed_writes_nothing (now : Time) (up : Upstream) (conf : Config)
    (K : cache.Consts) (PagesAtOnce : Z) (topCategory page : string) (w : World) :
  (forall r, failed (up r)) ->
  store (snd (TopMovies now up conf K PagesAtOnce topCategory page w)) = store w.
Proof.
  intros Hf. unfold TopMovies.
  destruct (strconv.Atoi page) as [p|]; [|reflexivity].
  destruct (upstreamPage conf PagesAtOnce p) as [P|]; [|reflexivity].
  unfold_M.
  destruct (cache.Get decode.moviesList now _ (store w)) as [movies|]; simpl;
    try (destruct (Z.of_nat (length movies) =? 0); simpl; [|reflexivity]).
  all: destruct (TraktAuthorized conf); simpl.
  all: match goal with
       | |- context [?u ?r] =>
           match type of r with
           | HTTPRequest => pose proof (Hf r) as F; destruct (u r) as [resp [e|]]
           end
       end.
  all: simpl in *; try reflexivity.
  all: unfold failed in F; simpl in F; destruct F as [[e He]|Hs]; [discriminate|].
  all: destruct (Z.eqb_spec (Status resp) 200); [contradiction | reflexivity].
Qed.

(** [GetMovie] stores the outcome of a failed answer too: after a miss
    the key holds whatever the answer decoded to, for the whole
    lifetime of a movie entry. *)
Lemma GetMovie_failed_is_cached (now : Time) (up : Upstream) (K : cache.Consts)
    (ID : string) (w : World) :
  cache.Get decode.movie now (movieKey K ID) (store w) = None ->
  store (snd (GetMovie now up K ID w)) !! movieKey K ID
  = Some {| cache.payload :=
              DMovie (default None (decode.movie (Body (fst (up (movieRequest ID))))));
            cache.expiry := now + cache.TraktMovieExpire K |}.
Proof.
  intros Hmiss. rewrite GetMovie_run, Hmiss. simpl.
  unfold cache.Set_. apply lookup_insert_eq.
Qed.

(** The single-entity fetches never look at the status: an answer
    that comes without an error is decoded and stored by [GetShow]
    whatever its status. *)
Lemma GetShow_stores_any_status (now : Time) (up : Upstream) (K : cache.Consts)
    (ID : string) (w : World) :
  cache.Get decode.show now (showKey K ID) (store w) = None ->
  snd (up (showRequest ID)) = None ->
  store (snd (GetShow now up K ID w)) !! showKey K ID
  = Some {| cache.payload :=
              DShow (default None (decode.show (Body (fst (up (showRequest ID))))));
            cache.expiry := now + cache.TraktShowExpire K |}.
Proof.
  intros Hmiss Herr. rewrite GetShow_run, Hmiss, Herr. simpl.
  unfold cache.Set_. apply lookup_insert_eq.
Qed.

(** C1 (the code at the failing input). The cache is empty and the
    upstream answers "not found" to [GetMovie("42")], with the error
    [ErrNotFound]: the function returns no movie and leaves an entry (a
    nil movie, with the full lifetime) under the movie's key.  A second
    [GetMovie("42")] one tick later, with an upstream that now has the
    movie, is served that entry and sends no request.  The same
    happens when the 404 answer comes without an error.  [GetShow] at
    the first input leaves the store empty and asks the upstream
    again. *)
Lemma GetMovie_caches_failed_fetch :
  let first := GetMovie 0 Sample.upNotFound Sample.K "42" Sample.w0 in
  let second := GetMovie 1 Sample.up Sample.K "42" (snd first) in
  let quiet := GetMovie 0 Sample.upNotFoundQuiet Sample.K "42" Sample.w0 in
  let firstShow := GetShow 0 Sample.upNotFound Sample.K "100" Sample.w0 in
  let secondShow := GetShow 1 Sample.up Sample.K "100" (snd firstShow) in
  Sample.upNotFound (movieRequest "42")
    = ({| Status := 404; Body := DJunk; XPaginationItemCount := None |}, Some ErrNotFound) /\
  store Sample.w0 !! "com.trakt.movie.42" = None /\
  fst first = None /\
  store (snd first) !! "com.trakt.movie.42"
    = Some {| cache.payload := DMovie None; cache.expiry := 3600 |} /\
  fst second = None /\
  calls (snd second) = calls (snd first) /\
  fst (GetMovie 1 Sample.up Sample.K "42" Sample.w0) = Some Sample.movieA /\
  store (snd quiet) !! "com.trakt.movie.42"
    = Some {| cache.payload := DMovie None; cache.expiry := 3600 |} /\
  store (snd firstShow) = store Sample.w0 /\
  fst secondShow = Some Sample.showX /\
  length (calls (snd secondShow)) = 2%nat.
Proof. vm_compute. repeat split; reflexivity. Qed.





(** The scenario of C2 run on the sample data: the second fetch of the
    watchlist returns the list of the first and the log holds one
    request. *)
Example watchlist_twice :
  let first := WatchlistMovies 0 Sample.up Sample.K None false Sample.w0 in
  let second := WatchlistMovies 10 Sample.upBroken Sample.K None false (snd first) in
  fst second = ([{| Movies_Movie := Some Sample.movieB |}], None) /\
  calls (snd second) = [watchlistRequest].
Proof. vm_compute. split; reflexivity. Qed.

(** ** Empty cached pages *)

(** [TopMovies] when the page key yields nothing or an empty list: one
    request, and a store written only on a successful answer. *)
Lemma TopMovies_refetch (now : Time) (up : Upstream) (conf : Config) (K : cache.Consts)
    (PagesAtOnce : Z) (topCategory page : string) (p P : Z) (w : World) :
  strconv.Atoi page = Some p -> upstreamPage conf PagesAtOnce p = Some P ->
  cache.Get decode.moviesList now (topMoviesKey K topCategory P) (store w) = None \/
  cache.Get decode.moviesList now (topMoviesKey K topCategory P) (store w) = Some [] ->
  TopMovies now up conf K PagesAtOnce topCategory page w =
  let r := pageRequest conf PagesAtOnce (TraktAuthorized conf)
             (topMoviesEndPoint topCategory) P in
  let resp := fst (up r) in
  match snd (up r) with
  | Some e => (Some ([], 0, Some e), logged r w)
  | None =>
      if Status resp =? 200 then
        (Some (topMoviesOf topCategory resp, getPagination_ItemCount resp, None),
         {| store :=
              cache.Set_ now (topMoviesKey K topCategory P)
                (DMoviesList (topMoviesOf topCategory resp))
                (cache.TraktMoviesByCategoryExpire K)
                (cache.Set_ now (topMoviesTotalKey K topCategory)
                   (DInt (getPagination_ItemCount resp))
                   (cache.TraktMoviesByCategoryTotalExpire K) (store w));
            calls := (calls w ++ [r])%list |})
      else (Some ([], 0, Some (badStatusTop topCategory (Status resp))), logged r w)
  end.
Proof.
  intros Hp HP Hc.
  unfold TopMovies, pageRequest, topMoviesEndPoint, topMoviesKey, topMoviesTotalKey,
    topMoviesOf, badStatusTop, logged in *.
  rewrite Hp, HP. unfold_M.
  destruct Hc as [-> | ->]; simpl.
  all: destruct (TraktAuthorized conf); simpl.
  all: destruct (up _) as [resp [e|]]; simpl; try reflexivity.
  all: destruct (Status resp =? 200); simpl; try reflexivity.
Qed.






(** ** Watched-show progress *)

Lemma answeredOK_failed (a : Response * option Error) : answeredOK a = false <-> failed a.
Proof.
  unfold answeredOK, failed. destruct a as [resp [e|]]; simpl.
  - split; [left; eauto | reflexivity].
  - rewrite Z.eqb_neq. split; [tauto | intros [[e He]|H]; [discriminate | exact H]].
Qed.

Lemma progressFetch_run (now : Time) (up : Upstream) (K : cache.Consts)
    (show : WatchedShow) (w : World) :
  progressFetch now up K show w =
  match reusable now K show w with
  | Some watchedProgressShow => (watchedProgressShow, w)
  | None =>
      let r := progressRequest show in
      if answeredOK (up r) then
        let p := default None (decode.progress (Body (fst (up r)))) in
        (p, {| store := <[progressKey K show := progressEntry now K p]> (store w);
               calls := (calls w ++ [r])%list |})
      else (None, logged r w)
  end.
Proof.
  unfold progressFetch, reusable, progressRequest, answeredOK, logged, progressEntry.
  unfold_M.
  destruct (cache.Get decode.time now _ (store w)) as [t|]; simpl.
  - destruct (Time_Equal (LastWatchedAt show) t); simpl.
    + destruct (cache.Get decode.progress now _ (store w)); simpl; [reflexivity|].
      destruct (up _) as [resp [e|]]; simpl; [reflexivity|].
      now destruct (Status resp =? 200).
    + destruct (up _) as [resp [e|]]; simpl; [reflexivity|].
      now destruct (Status resp =? 200).
  - destruct (up _) as [resp [e|]]; simpl; [reflexivity|].
    now destruct (Status resp =? 200).
Qed.

Lemma progressTask_run (now : Time) (up : Upstream) (K : cache.Consts)
    (idx : nat) (show : WatchedShow) (s : Slots) (w : World) :
  progressTask now up K idx show s w =
  let fetched := progressFetch now up K show w in
  ({| showsList :=
        match toProgressShow show (fst fetched) with
        | Some ps => <[idx := Some ps]> (showsList s)
        | None => showsList s
        end;
      watchedProgressShows := <[idx := fst fetched]> (watchedProgressShows s) |},
   {| store := <[watchedKey K show := snapshotEntry now K show]> (store (snd fetched));
      calls := calls (snd fetched) |}).
Proof.
  unfold progressTask. unfold_M.
  now destruct (progressFetch now up K show w) as [p w1].
Qed.

(** C5 (as stated, refuted). The snapshot (5) differs from the show's
    [LastWatchedAt] (9), so the task calls the upstream; the upstream
    answers with status 500.  The snapshot entry is overwritten, the
    derived-progress entry is not: it still holds the old progress. *)
Lemma progress_entry_kept_on_failure :
  let show := SampleProgress.watchedX in
  let w := SampleProgress.stale in
  let done := progressTask 10 Sample.upBroken Sample.K 0 show SampleProgress.slots w in
  reusable 10 Sample.K show w = None /\
  calls (snd done) = [progressRequest show] /\
  store (snd done) !! watchedKey Sample.K show
    = Some {| cache.payload := DTime 9; cache.expiry := 3610 |} /\
  store (snd done) !! progressKey Sample.K show = store w !! progressKey Sample.K show /\
  store (snd done) !! progressKey Sample.K show
    = Some {| cache.payload := DProgress (Some SampleProgress.old); cache.expiry := 3600 |}.
Proof. vm_compute. repeat split; reflexivity. Qed.

(** C5 (amended). In the per-show task of [WatchedShowsProgress], when
    the cached snapshot is readable and equals the show's
    [LastWatchedAt] and the cached derived-progress entry is readable,
    no request is sent and the cached progress is the task's result.
    Otherwise exactly one request is sent, to the progress endpoint of
    that show; when it is answered without error and with status 200
    the derived-progress entry is overwritten with the decoded
    progress, and when it fails that entry is left as it was and the
    task has no progress.  The snapshot entry is overwritten on every
    path. *)
Theorem progress_task_paths
    (now : Time) (up : Upstream) (K : cache.Consts)
    (idx : nat) (show : WatchedShow) (s : Slots) (w : World) :
  watchedKey K show <> progressKey K show ->
  (idx < length (watchedProgressShows s))%nat ->
  let done := progressTask now up K idx show s w in
  let r := progressRequest show in
  store (snd done) !! watchedKey K show = Some (snapshotEntry now K show) /\
  match reusable now K show w with
  | Some cached =>
      calls (snd done) = calls w /\
      watchedProgressShows (fst done) !! idx = Some cached /\
      store (snd done) !! progressKey K show = store w !! progressKey K show
  | None =>
      calls (snd done) = (calls w ++ [r])%list /\
      if answeredOK (up r) then
        let p := default None (decode.progress (Body (fst (up r)))) in
        watchedProgressShows (fst done) !! idx = Some p /\
        store (snd done) !! progressKey K show = Some (progressEntry now K p)
      else
        watchedProgressShows (fst done) !! idx = Some None /\
        store (snd done) !! progressKey K show = store w !! progressKey K show
  end.
Proof.
  intros Hne Hidx done r. subst done.
  rewrite progressTask_run. cbv zeta. cbn [fst snd store calls watchedProgressShows showsList].
  split; [apply lookup_insert_eq|].
  rewrite progressFetch_run. fold r.
  destruct (reusable now K show w) as [cached|]; cbn [fst snd store calls watchedProgressShows showsList].
  - rewrite list_lookup_insert_eq by assumption.
    rewrite lookup_insert_ne by assumption. auto.
  - destruct (answeredOK (up r)); cbv zeta; cbn [fst snd store calls logged watchedProgressShows showsList].
    + rewrite list_lookup_insert_eq by assumption.
      rewrite lookup_insert_ne by assumption.
      rewrite lookup_insert_eq. auto.
    + rewrite list_lookup_insert_eq by assumption.
      rewrite lookup_insert_ne by assumption. auto.
Qed.

Lemma progress_task_paths_witness :
  let now := 10 in
  let up := SampleProgress.up in
  let K := Sample.K in
  let show := SampleProgress.watchedX in
  let s := SampleProgress.slots in
  let w := SampleProgress.stale in
  let done := progressTask now up K 0 show s w in
  let r := progressRequest show in
  store (snd done) !! watchedKey K show = Some (snapshotEntry now K show) /\
  match reusable now K show w with
  | Some cached =>
      calls (snd done) = calls w /\
      watchedProgressShows (fst done) !! 0%nat = Some cached /\
      store (snd done) !! progressKey K show = store w !! progressKey K show
  | None =>
      calls (snd done) = (calls w ++ [r])%list /\
      if answeredOK (up r) then
        let p := default None (decode.progress (Body (fst (up r)))) in
        watchedProgressShows (fst done) !! 0%nat = Some p /\
        store (snd done) !! progressKey K show = Some (progressEntry now K p)
      else
        watchedProgressShows (fst done) !! 0%nat = Some None /\
        store (snd done) !! progressKey K show = store w !! progressKey K show
  end.
Proof.
  apply (progress_task_paths 10 SampleProgress.up Sample.K 0 SampleProgress.watchedX
           SampleProgress.slots SampleProgress.stale).
  - vm_compute. congruence.
  - simpl. lia.
Defined.

(** C6 (as stated, refuted). Run 1 finds the stale snapshot, calls the
    upstream and the call fails; its deferred function still stores
    the new snapshot 9.  Run 2, with the same [LastWatchedAt] and an
    upstream that now reports next episode 1x03, finds the snapshot
    equal and the old progress readable: it sends no request and hands
    out the old pointer 1x02.  The update is missed, and no extra call
    repairs it. *)
Lemma failed_run_pins_the_old_pointer :
  let show := SampleProgress.watchedX in
  let r := progressRequest show in
  let run1 := progressTask 10 Sample.upBroken Sample.K 0 show
                SampleProgress.slots SampleProgress.stale in
  let run2 := progressTask 20 SampleProgress.up Sample.K 0 show
                SampleProgress.slots (snd run1) in
  answeredOK (Sample.upBroken r) = false /\
  calls (snd run1) = [r] /\
  watchedProgressShows (fst run1) = [None] /\
  Body (fst (SampleProgress.up r)) = DProgress (Some SampleProgress.current) /\
  calls (snd run2) = calls (snd run1) /\
  watchedProgressShows (fst run2) = [Some SampleProgress.old] /\
  showsList (fst run2)
    = [Some {| ProgressShow_Show := Sample.showX;
               ProgressShow_Episode := SampleProgress.ep 1 2 |}] /\
  NextEpisode SampleProgress.old <> NextEpisode SampleProgress.current.
Proof. vm_compute. repeat split; try reflexivity. discriminate. Qed.

(** After a task the snapshot is readable and equal to the show's
    [LastWatchedAt] for as long as the snapshot entry lives, so what a
    later task reuses is whatever the derived-progress entry holds. *)
Lemma reusable_after_task (now1 now2 : Time) (up : Upstream) (K : cache.Consts)
    (idx : nat) (show : WatchedShow) (s : Slots) (w : World) :
  watchedKey K show <> progressKey K show ->
  now2 < now1 + cache.TraktWatchedShowsProgressWatchedExpire K ->
  reusable now2 K show (snd (progressTask now1 up K idx show s w))
  = cache.Get decode.progress now2 (progressKey K show)
      (store (snd (progressFetch now1 up K show w))).
Proof.
  intros Hne Hlt. rewrite progressTask_run. cbv zeta. cbn [snd store].
  unfold reusable, cache.Get, cache.lookup. cbn [store].
  rewrite lookup_insert_eq. cbn [snapshotEntry cache.expiry cache.payload].
  apply Z.ltb_lt in Hlt. rewrite Hlt. cbn.
  unfold Time_Equal. rewrite Z.eqb_refl.
  now rewrite lookup_insert_ne.
Qed.

(** C6 (amended). Every per-item task of [WatchedShowsProgress] writes
    the show's current [LastWatchedAt] snapshot, whichever path it
    takes.  After a run that went upstream and failed, the next run
    with the same [LastWatchedAt], while the snapshot entry lives,
    finds the snapshot equal: when a derived-progress entry is still
    readable (the one from before the change, since the failed run did
    not touch it) it is reused without any request, so the pointer is
    not updated; only when no derived-progress entry is readable does
    the next run call the upstream again, once. *)
Theorem snapshot_written_on_every_path
    (now1 now2 : Time) (up1 up2 : Upstream) (K : cache.Consts)
    (idx : nat) (show : WatchedShow) (s : Slots) (w : World) :
  watchedKey K show <> progressKey K show ->
  (idx < length (watchedProgressShows s))%nat ->
  now2 < now1 + cache.TraktWatchedShowsProgressWatchedExpire K ->
  reusable now1 K show w = None ->
  answeredOK (up1 (progressRequest show)) = false ->
  let r := progressRequest show in
  let run1 := progressTask now1 up1 K idx show s w in
  let run2 := progressTask now2 up2 K idx show s (snd run1) in
  (forall now up s' w',
      store (snd (progressTask now up K idx show s' w')) !! watchedKey K show
      = Some (snapshotEntry now K show)) /\
  calls (snd run1) = (calls w ++ [r])%list /\
  match cache.Get decode.progress now2 (progressKey K show) (store w) with
  | Some old =>
      calls (snd run2) = calls (snd run1) /\
      watchedProgressShows (fst run2) !! idx = Some old
  | None =>
      calls (snd run2) = (calls (snd run1) ++ [r])%list
  end.
Proof.
  intros Hne Hidx Hlt Hstale Hfail r run1 run2. subst r.
  split.
  { intros now up s' w'. rewrite progressTask_run. cbv zeta. cbn [snd store].
    apply lookup_insert_eq. }
  assert (Hfetch1 : progressFetch now1 up1 K show w
                    = (None, logged (progressRequest show) w)).
  { rewrite progressFetch_run, Hstale. cbv zeta. now rewrite Hfail. }
  assert (Hcalls1 : calls (snd run1) = (calls w ++ [progressRequest show])%list).
  { subst run1. rewrite progressTask_run. cbv zeta. now rewrite Hfetch1. }
  split; [exact Hcalls1|].
  pose proof (reusable_after_task now1 now2 up1 K idx show s w Hne Hlt) as Hre.
  rewrite Hfetch1 in Hre. cbn [snd logged store] in Hre. fold run1 in Hre.
  subst run2. rewrite progressTask_run. cbv zeta.
  cbn [fst snd store calls watchedProgressShows].
  rewrite progressFetch_run, Hre.
  destruct (cache.Get decode.progress now2 (progressKey K show) (store w)) as [old|].
  - cbn [fst snd]. split; [reflexivity|].
    now rewrite list_lookup_insert_eq.
  - cbv zeta. destruct (answeredOK (up2 (progressRequest show))); reflexivity.
Qed.

Lemma snapshot_written_on_every_path_witness :
  let K := Sample.K in
  let show := SampleProgress.watchedX in
  let s := SampleProgress.slots in
  let w := SampleProgress.stale in
  let r := progressRequest show in
  let run1 := progressTask 10 Sample.upBroken K 0 show s w in
  let run2 := progressTask 20 SampleProgress.up K 0 show s (snd run1) in
  (forall now up s' w',
      store (snd (progressTask now up K 0 show s' w')) !! watchedKey K show
      = Some (snapshotEntry now K show)) /\
  calls (snd run1) = (calls w ++ [r])%list /\
  match cache.Get decode.progress 20 (progressKey K show) (store w) with
  | Some old =>
      calls (snd run2) = calls (snd run1) /\
      watchedProgressShows (fst run2) !! 0%nat = Some old
  | None =>
      calls (snd run2) = (calls (snd run1) ++ [r])%list
  end.
Proof.
  apply (snapshot_written_on_every_path 10 20 Sample.upBroken SampleProgress.up Sample.K 0
           SampleProgress.watchedX SampleProgress.slots SampleProgress.stale).
  - vm_compute. congruence.
  - simpl. lia.
  - vm_compute. reflexivity.
  - vm_compute. reflexivity.
  - vm_compute. reflexivity.
Defined.

(** ** The list returned by [WatchedShowsProgress] *)



Lemma consistent_initial (watchedShows : list WatchedShow) :
  consistent watchedShows
    {| showsList := replicate (length watchedShows) None;
       watchedProgressShows := replicate (length watchedShows) None |}.
Proof.
  repeat split; simpl; try apply length_replicate.
  intros i show Hi. apply lookup_lt_Some in Hi.
  exists None. split; now apply lookup_replicate_2.
Qed.



(** A goroutine's six steps in a row are the uninterrupted goroutine. *)
Lemma taskRun_solo (now : Time) (up : Upstream) (K : cache.Consts)
    (idx : nat) (show : WatchedShow) (s : Slots) (w : World) :
  taskRun now up K 6 idx show TStart s w
  = ((TDone, fst (progressTask now up K idx show s w)),
     snd (progressTask now up K idx show s w)).
Proof.
  rewrite progressTask_run, progressFetch_run.
  unfold reusable, progressRequest, answeredOK, logged, progressEntry, snapshotEntry.
  unfold taskRun, taskStep. unfold_M.
  destruct (cache.Get decode.time now _ (store w)) as [t|]; simpl.
  - destruct (Time_Equal (LastWatchedAt show) t); simpl.
    + destruct (cache.Get decode.progress now _ (store w)); simpl; [reflexivity|].
      destruct (up _) as [resp [e|]]; simpl; [reflexivity|].
      now destruct (Status resp =? 200).
    + destruct (up _) as [resp [e|]]; simpl; [reflexivity|].
      now destruct (Status resp =? 200).
  - destruct (up _) as [resp [e|]]; simpl; [reflexivity|].
    now destruct (Status resp =? 200).
Qed.









(** The sample run under an interleaving schedule: shows X and Z are
    kept, in input order, although Z's goroutine finishes first; Y and
    V are dropped.  Under a schedule that starves a goroutine the
    function does not return. *)
Example sample_sync :
  fst (WatchedShowsProgress 0 SampleSync.up Sample.K None SampleSync.GetLastActivities
         SampleSync.sched Sample.w0)
  = Some ([ {| ProgressShow_Show := Sample.showX;
               ProgressShow_Episode := SampleProgress.ep 1 3 |};
            {| ProgressShow_Show := SampleSync.showZ;
               ProgressShow_Episode := SampleProgress.ep 2 1 |} ], None) /\
  fst (WatchedShowsProgress 0 SampleSync.up Sample.K None SampleSync.GetLastActivities
         [0; 0; 1; 2; 0]%nat Sample.w0) = None.
Proof. vm_compute. split; reflexivity. Qed.

(** ** [MakeRequest] and the cooldown *)

Lemma MakeRequest_run (napping_Get : tmdb.APIRequest -> tmdb.Response * option Error)
    (defaultCoolDown : Duration) (r : tmdb.APIRequest) (s : tmdb.State) :
  tmdb.MakeRequest napping_Get defaultCoolDown r s =
  let s1 := {| tmdb.clock := admitted s;
               tmdb.coolDownUntil := tmdb.coolDownUntil s;
               tmdb.coolDowns := tmdb.coolDowns s;
               tmdb.sent := (tmdb.sent s ++ [(admitted s, r)])%list |} in
  let resp := fst (napping_Get r) in
  match snd (napping_Get r) with
  | Some _ => (None, s1)
  | None =>
      if tmdb.Status resp =? 429
      then (Some ErrExceeded, tmdb.CoolDown defaultCoolDown (tmdb.HttpHeader resp) s1)
      else if tmdb.Status resp =? 404
      then (Some ErrNotFound, tmdb.CoolDown defaultCoolDown (tmdb.HttpHeader resp) s1)
      else if negb (tmdb.Status resp =? 200) then (Some ErrHTTP, s1)
      else (None, s1)
  end.
Proof.
  unfold tmdb.MakeRequest, tmdb.Call, tmdb.request, tmdb.doGet, admitted. simpl.
  destruct (napping_Get r) as [resp [e|]]; simpl; [reflexivity|].
  destruct (tmdb.Status resp =? 429); [reflexivity|].
  destruct (tmdb.Status resp =? 404); [reflexivity|].
  now destruct (tmdb.Status resp =? 200).
Qed.

(** C9. A request that TMDB answers with status 404 makes
    [MakeRequest] call [rl.CoolDown] with the headers of that answer
    and return [ErrNotFound]; the limiter is left in exactly the state
    a 429 answer with the same headers leaves it in, and the next
    request is not sent before the cooldown instant. *)
Theorem not_found_cools_down
    (napping_Get : tmdb.APIRequest -> tmdb.Response * option Error)
    (defaultCoolDown : Duration) (r : tmdb.APIRequest) (s : tmdb.State)
    (resp : tmdb.Response) :
  napping_Get r = (resp, None) ->
  tmdb.Status resp = 404 ->
  let res := tmdb.MakeRequest napping_Get defaultCoolDown r s in
  fst res = Some ErrNotFound /\
  tmdb.coolDowns (snd res) = (tmdb.coolDowns s ++ [tmdb.HttpHeader resp])%list /\
  tmdb.coolDownUntil (snd res)
    = admitted s + default defaultCoolDown (tmdb.RetryAfter (tmdb.HttpHeader resp)) /\
  (forall napping_Get' resp',
      napping_Get' r = (resp', None) -> tmdb.Status resp' = 429 ->
      tmdb.HttpHeader resp' = tmdb.HttpHeader resp ->
      snd (tmdb.MakeRequest napping_Get' defaultCoolDown r s) = snd res) /\
  (forall napping_Get' r',
      exists s', snd (tmdb.MakeRequest napping_Get' defaultCoolDown r' (snd res)) = s' /\
                 last (tmdb.sent s') = Some (admitted (snd res), r') /\
                 tmdb.coolDownUntil (snd res) <= admitted (snd res)).
Proof.
  intros Hget Hst res. subst res. rewrite MakeRequest_run. cbv zeta.
  rewrite Hget. cbn [fst snd]. rewrite Hst. cbn [Z.eqb Pos.eqb].
  cbn [fst snd tmdb.CoolDown tmdb.coolDowns tmdb.coolDownUntil tmdb.clock tmdb.sent].
  repeat split.
  - intros g' resp' Hget' Hst' Hhdr. rewrite MakeRequest_run. cbv zeta.
    rewrite Hget'. cbn [fst snd]. rewrite Hst', Hhdr. reflexivity.
  - intros g' r'. eexists. split; [reflexivity|].
    rewrite MakeRequest_run. cbv zeta. split.
    + destruct (snd (g' r')); [|destruct (_ =? 429); [|destruct (_ =? 404);
                                  [|destruct (negb _)]]];
        cbn [snd tmdb.sent tmdb.CoolDown]; apply last_snoc.
    + unfold admitted. cbn [tmdb.CoolDown tmdb.clock tmdb.coolDownUntil]. lia.
Qed.

Lemma not_found_cools_down_witness :
  let napping_Get := SampleTmdb.napping_Get in
  let r := SampleTmdb.request in
  let s := SampleTmdb.s0 in
  let resp := fst (napping_Get r) in
  let res := tmdb.MakeRequest napping_Get 10 r s in
  fst res = Some ErrNotFound /\
  tmdb.coolDowns (snd res) = (tmdb.coolDowns s ++ [tmdb.HttpHeader resp])%list /\
  tmdb.coolDownUntil (snd res)
    = admitted s + default 10 (tmdb.RetryAfter (tmdb.HttpHeader resp)) /\
  (forall napping_Get' resp',
      napping_Get' r = (resp', None) -> tmdb.Status resp' = 429 ->
      tmdb.HttpHeader resp' = tmdb.HttpHeader resp ->
      snd (tmdb.MakeRequest napping_Get' 10 r s) = snd res) /\
  (forall napping_Get' r',
      exists s', snd (tmdb.MakeRequest napping_Get' 10 r' (snd res)) = s' /\
                 last (tmdb.sent s') = Some (admitted (snd res), r') /\
                 tmdb.coolDownUntil (snd res) <= admitted (snd res)).
Proof.
  apply (not_found_cools_down SampleTmdb.napping_Get 10 SampleTmdb.request SampleTmdb.s0
           (fst (SampleTmdb.napping_Get SampleTmdb.request)));
    reflexivity.
Defined.

(** On the sample: the 404 answer with a hint of 7 moves the cooldown
    from 0 to 107, and the next request goes out at 107. *)
Example sample_not_found :
  let res := tmdb.MakeRequest SampleTmdb.napping_Get 10 SampleTmdb.request SampleTmdb.s0 in
  let next := tmdb.MakeRequest SampleTmdb.napping_Get 10 SampleTmdb.request (snd res) in
  fst res = Some ErrNotFound /\
  tmdb.coolDownUntil (snd res) = 107 /\
  map fst (tmdb.sent (snd next)) = [100; 107].
Proof. vm_compute. repeat split; reflexivity. Qed.

(** ** Provider callbacks *)

Section Callbacks.

Variable SearchObject : Type.
Variable HTTPHost : string.
Variable providerTimeout : Duration.
Variable CustomProviderTimeoutEnabled : bool.
Variable CustomProviderTimeout : Z.
Variable json_Unmarshal : string -> option (list providers.TorrentFile).

Let State := providers.State SearchObject.
Let timeout := providers.timeout providerTimeout CustomProviderTimeoutEnabled
                 CustomProviderTimeout.
Let call_select := providers.call_select SearchObject providerTimeout
                     CustomProviderTimeoutEnabled CustomProviderTimeout json_Unmarshal.

(** Right after the dispatch the id is registered and its channel is
    new and empty. *)
Lemma dispatch_registers (addonID method : string) (searchObject : SearchObject)
    (rnd : Z) (s : State) :
  let res := providers.call_dispatch SearchObject HTTPHost addonID method searchObject rnd s in
  let cid := fst (fst res) in
  let c := snd (fst res) in
  cid = strconv.Itoa rnd /\
  providers.callbacks (snd res) !! cid = Some c /\
  providers.chans (snd res) !! c = Some untouched /\
  providers.chans s !! c = None.
Proof.
  unfold providers.call_dispatch, providers.GetCallback. simpl.
  repeat split.
  - apply lookup_insert_eq.
  - apply lookup_insert_eq.
  - apply not_elem_of_dom. apply is_fresh.
Qed.

(** The handler on an id that is not registered returns at once and
    changes nothing. *)
Lemma CallbackHandler_absent (cid body : string) (s : State) :
  providers.callbacks s !! cid = None ->
  providers.CallbackHandler SearchObject cid body s = providers.Done s.
Proof. intros H. unfold providers.CallbackHandler. now rewrite H. Qed.

(** C8. While the callback of a dispatch has not arrived its channel
    is open and empty, so the receive case of the [select] is not
    ready; once the configured timeout has elapsed the timeout case
    removes the registration and [call] returns an empty torrent list.
    A callback for that id that arrives after the registration is gone
    finds no channel and returns without writing: the state is
    unchanged. *)
Theorem late_callback_is_dropped
    (cid : string) (c : nat) (elapsed : Duration) (s : State) (body : string) :
  providers.chans s !! c = Some untouched ->
  timeout <= elapsed ->
  call_select cid c elapsed providers.OnResult s = providers.Blocked /\
  call_select cid c elapsed providers.OnTimeout s
    = providers.Done ([], providers.RemoveCallback SearchObject cid s) /\
  providers.callbacks (providers.RemoveCallback SearchObject cid s) !! cid = None /\
  providers.CallbackHandler SearchObject cid body (providers.RemoveCallback SearchObject cid s)
    = providers.Done (providers.RemoveCallback SearchObject cid s) /\
  (forall s' : State,
      providers.callbacks s' !! cid = None ->
      providers.CallbackHandler SearchObject cid body s' = providers.Done s').
Proof.
  intros Hc Ht.
  assert (Hgone : providers.callbacks (providers.RemoveCallback SearchObject cid s) !! cid
                  = None) by apply lookup_delete_eq.
  repeat split.
  - unfold call_select, providers.call_select, providers.chanRecv. now rewrite Hc.
  - unfold call_select, providers.call_select. fold timeout.
    apply Z.leb_le in Ht. now rewrite Ht.
  - exact Hgone.
  - now apply CallbackHandler_absent.
  - intros s'. apply CallbackHandler_absent.
Qed.

End Callbacks.

Lemma late_callback_is_dropped_witness :
  let cid := "4711" in
  let c := snd (fst SampleProviders.dispatched) in
  let s := snd SampleProviders.dispatched in
  let call_select :=
    providers.call_select string 4000000000 false 0 SampleProviders.json_Unmarshal in
  call_select cid c 4000000000 providers.OnResult s = providers.Blocked /\
  call_select cid c 4000000000 providers.OnTimeout s
    = providers.Done ([], providers.RemoveCallback string cid s) /\
  providers.callbacks (providers.RemoveCallback string cid s) !! cid = None /\
  providers.CallbackHandler string cid "[{uri:magnet}]" (providers.RemoveCallback string cid s)
    = providers.Done (providers.RemoveCallback string cid s) /\
  (forall s' : providers.State string,
      providers.callbacks s' !! cid = None ->
      providers.CallbackHandler string cid "[{uri:magnet}]" s' = providers.Done s').
Proof.
  apply (late_callback_is_dropped string 4000000000 false 0 SampleProviders.json_Unmarshal
           "4711" (snd (fst SampleProviders.dispatched)) 4000000000
           (snd SampleProviders.dispatched) "[{uri:magnet}]").
  - vm_compute. reflexivity.
  - vm_compute. congruence.
Defined.

(** The sample dispatch: a callback in time is received and decoded
    and the registration is gone; a second callback for the same id is
    a no-op. *)
Example sample_callback_in_time :
  let s := snd SampleProviders.dispatched in
  let c := snd (fst SampleProviders.dispatched) in
  match providers.CallbackHandler string "4711" "[{uri:magnet}]" s with
  | providers.Done s1 =>
      providers.callbacks s1 !! "4711" = None /\
      providers.CallbackHandler string "4711" "[]" s1 = providers.Done s1 /\
      match providers.call_select string 4000000000 false 0 SampleProviders.json_Unmarshal
              "4711" c 1000 providers.OnResult s1 with
      | providers.Done (torrents, _) => torrents = [{| providers.URI := "magnet" |}]
      | _ => False
      end
  | _ => False
  end.
Proof. vm_compute. repeat split; reflexivity. Qed.

(** * Further properties of the code *)

(** ** [MakeRequest]: what the caller is told *)

(** X1. [MakeRequest] returns nil exactly when [napping.Get] reported an
    error or the status is 200: the error of a failed transport is
    assigned to [ret] and then overwritten by the final [ret = nil], so
    the caller cannot tell it from a success. *)
Theorem MakeRequest_nil_iff
    (napping_Get : tmdb.APIRequest -> tmdb.Response * option Error)
    (defaultCoolDown : Duration) (r : tmdb.APIRequest) (s : tmdb.State) :
  fst (tmdb.MakeRequest napping_Get defaultCoolDown r s) = None <->
  is_Some (snd (napping_Get r)) \/ tmdb.Status (fst (napping_Get r)) = 200.
Proof.
  rewrite MakeRequest_run. cbv zeta.
  destruct (napping_Get r) as [resp [e|]]; cbn [fst snd].
  - split; [intros _; left; eauto | reflexivity].
  - destruct (Z.eqb_spec (tmdb.Status resp) 429) as [E|N1]; cbn [fst].
    { split; [discriminate | intros [[e He]|H]; [discriminate | lia]]. }
    destruct (Z.eqb_spec (tmdb.Status resp) 404) as [E|N2]; cbn [fst].
    { split; [discriminate | intros [[e He]|H]; [discriminate | lia]]. }
    destruct (Z.eqb_spec (tmdb.Status resp) 200) as [E|N3]; cbn [fst negb].
    + split; [intros _; now right | reflexivity].
    + split; [discriminate | intros [[e He]|H]; [discriminate | contradiction]].
Qed.

(** X2. Every [MakeRequest] sends exactly one request, at the instant
    the limiter admits it, which is never before the cooldown instant.
    [rl.CoolDown] is called, once and with the headers of the answer,
    exactly for an answer without transport error whose status is 429
    or 404; after any other answer the cooldown instant is what it
    was. *)
Theorem MakeRequest_effects
    (napping_Get : tmdb.APIRequest -> tmdb.Response * option Error)
    (defaultCoolDown : Duration) (r : tmdb.APIRequest) (s : tmdb.State) :
  let res := tmdb.MakeRequest napping_Get defaultCoolDown r s in
  let h := tmdb.HttpHeader (fst (napping_Get r)) in
  tmdb.sent (snd res) = (tmdb.sent s ++ [(admitted s, r)])%list /\
  tmdb.coolDownUntil s <= admitted s /\
  tmdb.coolDowns (snd res)
    = (if coolsDown (napping_Get r) then (tmdb.coolDowns s ++ [h])%list else tmdb.coolDowns s) /\
  tmdb.coolDownUntil (snd res)
    = (if coolsDown (napping_Get r)
       then admitted s + default defaultCoolDown (tmdb.RetryAfter h)
       else tmdb.coolDownUntil s).
Proof.
  cbv zeta. rewrite MakeRequest_run. cbv zeta. unfold coolsDown.
  split; [|split; [unfold admitted; lia|]].
  - destruct (snd (napping_Get r)); [reflexivity|].
    destruct (_ =? 429); [reflexivity|].
    destruct (_ =? 404); [reflexivity|].
    now destruct (negb _).
  - destruct (snd (napping_Get r)); [split; reflexivity|].
    destruct (_ =? 429); [split; reflexivity|].
    destruct (_ =? 404); [split; reflexivity|].
    now destruct (negb _).
Qed.

(** ** The callback registry *)

Section Registry.

Variable SearchObject : Type.
Variable HTTPHost : string.
Variable providerTimeout : Duration.
Variable CustomProviderTimeoutEnabled : bool.
Variable CustomProviderTimeout : Z.
Variable json_Unmarshal : string -> option (list providers.TorrentFile).

Let State := providers.State SearchObject.
Let call_select := providers.call_select SearchObject providerTimeout
                     CustomProviderTimeoutEnabled CustomProviderTimeout json_Unmarshal.

(** X3. A callback that arrives while its id is registered and its
    channel still empty never blocks and never panics: the handler
    removes the registration, leaves the body in the channel and closes
    it.  The receive case of the waiting [select] is then ready,
    whatever time has passed, and yields the decoded torrents, or the
    empty list when the body does not decode; a second callback for the
    same id changes nothing. *)
Theorem callback_in_time
    (cid : string) (c : nat) (body body' : string) (elapsed : Duration) (s : State) :
  providers.callbacks s !! cid = Some c ->
  providers.chans s !! c = Some untouched ->
  exists s1 s2 : State,
    providers.CallbackHandler SearchObject cid body s = providers.Done s1 /\
    providers.callbacks s1 !! cid = None /\
    providers.chans s1 !! c = Some {| providers.buf := [body]; providers.closed := true |} /\
    call_select cid c elapsed providers.OnResult s1
      = providers.Done (default [] (json_Unmarshal body), s2) /\
    providers.chans s2 !! c = Some {| providers.buf := []; providers.closed := true |} /\
    providers.CallbackHandler SearchObject cid body' s1 = providers.Done s1.
Proof.
  intros Hcid Hc.
  unfold providers.CallbackHandler. rewrite Hcid.
  unfold providers.chanSend, providers.RemoveCallback, providers.withCallbacks.
  cbn [providers.chans]. rewrite Hc. cbn [untouched providers.closed providers.buf].
  unfold providers.chanClose, providers.withChans. cbn [providers.chans providers.callbacks].
  rewrite lookup_insert_eq. cbn [providers.closed providers.buf].
  eexists _, _. split; [reflexivity|].
  cbn [providers.callbacks providers.chans].
  split; [apply lookup_delete_eq|].
  split; [apply lookup_insert_eq|].
  split; [|split].
  - unfold call_select, providers.call_select, providers.chanRecv, providers.withChans.
    cbn [providers.chans]. rewrite lookup_insert_eq. cbn [providers.buf providers.closed].
    reflexivity.
  - cbn [providers.chans]. apply lookup_insert_eq.
  - cbn [providers.callbacks]. now rewrite lookup_delete_eq.
Qed.


(** X5. Without a callback [call] does not return early: while the
    channel is open and empty and less than the timeout has elapsed,
    neither case of the [select] is ready.  The timeout is the custom
    one, in seconds, when the custom timeout is enabled, and the
    provider timeout otherwise. *)
Theorem no_early_return
    (cid : string) (c : nat) (elapsed : Duration) (s : State) :
  providers.chans s !! c = Some untouched ->
  elapsed < providers.timeout providerTimeout CustomProviderTimeoutEnabled
              CustomProviderTimeout ->
  call_select cid c elapsed providers.OnResult s = providers.Blocked /\
  call_select cid c elapsed providers.OnTimeout s = providers.Blocked /\
  providers.timeout providerTimeout CustomProviderTimeoutEnabled CustomProviderTimeout
    = (if CustomProviderTimeoutEnabled
       then GoInt.wrap (CustomProviderTimeout * 1000000000)
       else providerTimeout).
Proof.
  intros Hc Hlt. repeat split.
  - unfold call_select, providers.call_select, providers.chanRecv. now rewrite Hc.
  - unfold call_select, providers.call_select.
    apply Z.leb_gt in Hlt. now rewrite Hlt.
Qed.

End Registry.

Lemma callback_in_time_witness :
  let cid := "4711" in
  let c := snd (fst SampleProviders.dispatched) in
  let s := snd SampleProviders.dispatched in
  exists s1 s2 : providers.State string,
    providers.CallbackHandler string cid "[{uri:magnet}]" s = providers.Done s1 /\
    providers.callbacks s1 !! cid = None /\
    providers.chans s1 !! c
      = Some {| providers.buf := ["[{uri:magnet}]"]; providers.closed := true |} /\
    providers.call_select string 4000000000 false 0 SampleProviders.json_Unmarshal
      cid c 5000000000 providers.OnResult s1
      = providers.Done (default [] (SampleProviders.json_Unmarshal "[{uri:magnet}]"), s2) /\
    providers.chans s2 !! c = Some {| providers.buf := []; providers.closed := true |} /\
    providers.CallbackHandler string cid "[]" s1 = providers.Done s1.
Proof.
  apply (callback_in_time string 4000000000 false 0 SampleProviders.json_Unmarshal
           "4711" (snd (fst SampleProviders.dispatched)) "[{uri:magnet}]" "[]" 5000000000
           (snd SampleProviders.dispatched));
    vm_compute; reflexivity.
Defined.


Lemma no_early_return_witness :
  let c := snd (fst SampleProviders.dispatched) in
  let s := snd SampleProviders.dispatched in
  let call_select :=
    providers.call_select string 4000000000 true 30 SampleProviders.json_Unmarshal in
  call_select "4711" c 29000000000 providers.OnResult s = providers.Blocked /\
  call_select "4711" c 29000000000 providers.OnTimeout s = providers.Blocked /\
  providers.timeout 4000000000 true 30
    = (if true then GoInt.wrap (30 * 1000000000) else 4000000000).
Proof.
  apply (no_early_return string 4000000000 true 30 SampleProviders.json_Unmarshal
           "4711" (snd (fst SampleProviders.dispatched)) 29000000000
           (snd SampleProviders.dispatched));
    vm_compute; reflexivity.
Defined.

(** ** Paged fetches: edge behaviour *)

(** X6. A page text that is not a decimal number makes [TopMovies],
    [TopShows] and [CalendarShows] return the conversion error at
    once: empty list, total 0, no request, store untouched. *)
Theorem bad_page_text
    (now : Time) (up : Upstream) (conf : Config) (K : cache.Consts) (PagesAtOnce : Z)
    (topCategory endPoint page : string) (w : World) :
  strconv.Atoi page = None ->
  TopMovies now up conf K PagesAtOnce topCategory page w
    = (Some ([], 0, Some (ErrSyntax page)), w) /\
  TopShows now up conf K PagesAtOnce topCategory page w
    = (Some ([], 0, Some (ErrSyntax page)), w) /\
  CalendarShows now up conf K PagesAtOnce endPoint page w
    = (Some ([], 0, Some (ErrSyntax page)), w).
Proof.
  intros H. unfold TopMovies, TopShows, CalendarShows. rewrite H. auto.
Qed.

Lemma bad_page_text_witness :
  TopMovies 0 Sample.up Sample.conf Sample.K 5 "popular" "two" Sample.w0
    = (Some ([], 0, Some (ErrSyntax "two")), Sample.w0) /\
  TopShows 0 Sample.up Sample.conf Sample.K 5 "popular" "two" Sample.w0
    = (Some ([], 0, Some (ErrSyntax "two")), Sample.w0) /\
  CalendarShows 0 Sample.up Sample.conf Sample.K 5 "my/shows" "two" Sample.w0
    = (Some ([], 0, Some (ErrSyntax "two")), Sample.w0).
Proof.
  apply (bad_page_text 0 Sample.up Sample.conf Sample.K 5 "popular" "my/shows" "two"
           Sample.w0).
  reflexivity.
Defined.

(** X7. With a page text that parses, the three paged fetches panic
    (integer division by zero) exactly when
    [resultsPerPage * PagesAtOnce] is zero as an [int]; the panic comes
    before any cache access or request. *)
Theorem zero_limit_panics
    (now : Time) (up : Upstream) (conf : Config) (K : cache.Consts) (PagesAtOnce : Z)
    (topCategory endPoint page : string) (p : Z) (w : World) :
  strconv.Atoi page = Some p ->
  (GoInt.mul (ResultsPerPage conf) PagesAtOnce = 0 ->
   TopMovies now up conf K PagesAtOnce topCategory page w = (None, w) /\
   TopShows now up conf K PagesAtOnce topCategory page w = (None, w) /\
   CalendarShows now up conf K PagesAtOnce endPoint page w = (None, w)) /\
  (GoInt.mul (ResultsPerPage conf) PagesAtOnce <> 0 ->
   is_Some (fst (TopMovies now up conf K PagesAtOnce topCategory page w)) /\
   is_Some (fst (TopShows now up conf K PagesAtOnce topCategory page w)) /\
   is_Some (fst (CalendarShows now up conf K PagesAtOnce endPoint page w))).
Proof.
  intros Hp. split.
  - intros Hz. unfold TopMovies, TopShows, CalendarShows, upstreamPage, limit, GoInt.div.
    rewrite Hp, Hz. auto.
  - intros Hnz.
    assert (Hup : is_Some (upstreamPage conf PagesAtOnce p)).
    { unfold upstreamPage, limit, GoInt.div.
      destruct (Z.eqb_spec (GoInt.mul (ResultsPerPage conf) PagesAtOnce) 0);
        [contradiction | simpl; eauto]. }
    destruct Hup as [P HP].
    unfold TopMovies, TopShows, CalendarShows. rewrite Hp, HP. unfold_M.
    repeat split.
    + destruct (cache.Get decode.moviesList now _ (store w)) as [l|]; simpl;
        try (destruct (Z.of_nat (length l) =? 0); simpl; [|eauto]).
      all: destruct (TraktAuthorized conf); simpl;
        destruct (up _) as [resp [e|]]; simpl; eauto;
        destruct (Status resp =? 200); simpl; eauto.
    + destruct (cache.Get decode.showsList now _ (store w)) as [l|]; simpl;
        try (destruct (Z.of_nat (length l) =? 0); simpl; [|eauto]).
      all: destruct (TraktAuthorized conf); simpl;
        destruct (up _) as [resp [e|]]; simpl; eauto;
        destruct (Status resp =? 200); simpl; eauto;
        destruct (isListCategory topCategory); simpl; eauto;
        destruct (Unmarshal decode.showList resp); simpl; eauto.
    + destruct (cache.Get decode.calendarShows now _ (store w)) as [l|]; simpl; eauto.
      destruct (up _) as [resp [e|]]; simpl; eauto.
      destruct (Status resp =? 200); simpl; eauto.
Qed.

Lemma zero_limit_panics_witness :
  let conf := {| ResultsPerPage := 0; TraktAuthorized := false |} in
  (GoInt.mul (ResultsPerPage conf) 5 = 0 ->
   TopMovies 0 Sample.up conf Sample.K 5 "popular" "1" Sample.w0 = (None, Sample.w0) /\
   TopShows 0 Sample.up conf Sample.K 5 "popular" "1" Sample.w0 = (None, Sample.w0) /\
   CalendarShows 0 Sample.up conf Sample.K 5 "my/shows" "1" Sample.w0 = (None, Sample.w0)) /\
  (GoInt.mul (ResultsPerPage conf) 5 <> 0 ->
   is_Some (fst (TopMovies 0 Sample.up conf Sample.K 5 "popular" "1" Sample.w0)) /\
   is_Some (fst (TopShows 0 Sample.up conf Sample.K 5 "popular" "1" Sample.w0)) /\
   is_Some (fst (CalendarShows 0 Sample.up conf Sample.K 5 "my/shows" "1" Sample.w0))).
Proof.
  apply (zero_limit_panics 0 Sample.up {| ResultsPerPage := 0; TraktAuthorized := false |}
           Sample.K 5 "popular" "my/shows" "1" 1 Sample.w0).
  reflexivity.
Defined.

Lemma TopMovies_cached
    (now : Time) (up : Upstream) (conf : Config) (K : cache.Consts) (PagesAtOnce : Z)
    (topCategory page : string) (p P : Z) (movies : list Movies) (w : World) :
  strconv.Atoi page = Some p -> upstreamPage conf PagesAtOnce p = Some P ->
  cache.Get decode.moviesList now (topMoviesKey K topCategory P) (store w) = Some movies ->
  movies <> [] ->
  TopMovies now up conf K PagesAtOnce topCategory page w
  = (Some (movies,
           default (-1) (cache.Get decode.int now (topMoviesTotalKey K topCategory) (store w)),
           None), w).
Proof.
  intros Hp HP Hhit Hne. unfold TopMovies, topMoviesKey, topMoviesTotalKey in *.
  rewrite Hp, HP. unfold_M. rewrite Hhit. simpl.
  destruct movies as [|m l]; [contradiction|]. reflexivity.
Qed.

(** X8. [CalendarShows] serves whatever list it finds under the page
    key, an empty one included, with the cached total or [-1] when no
    total is readable; it sends no request and writes nothing. *)
Theorem CalendarShows_hit
    (now : Time) (up : Upstream) (conf : Config) (K : cache.Consts) (PagesAtOnce : Z)
    (endPoint page : string) (p P : Z) (shows : list CalendarShow) (w : World) :
  strconv.Atoi page = Some p -> upstreamPage conf PagesAtOnce p = Some P ->
  cache.Get decode.calendarShows now (calendarShowsKey K endPoint P) (store w) = Some shows ->
  CalendarShows now up conf K PagesAtOnce endPoint page w
  = (Some (shows,
           default (-1)
             (cache.Get decode.int now
                (fmt.Sprintf (cache.TraktShowsCalendarTotalKey K)
                   [fmt.AStr (replaceSlash endPoint)]) (store w)),
           None), w).
Proof.
  intros Hp HP Hhit. unfold CalendarShows, calendarShowsKey in *.
  rewrite Hp, HP. unfold_M. rewrite Hhit. reflexivity.
Qed.

Lemma CalendarShows_hit_witness :
  let w := {| store := cache.Set_ 0 (calendarShowsKey Sample.K "my/shows" 1)
                         (DCalendarShows []) 3600 ∅;
              calls := [] |} in
  CalendarShows 9 Sample.up Sample.conf Sample.K 5 "my/shows" "2" w
  = (Some ([],
           default (-1)
             (cache.Get decode.int 9
                (fmt.Sprintf (cache.TraktShowsCalendarTotalKey Sample.K)
                   [fmt.AStr (replaceSlash "my/shows")]) (store w)),
           None), w).
Proof.
  apply (CalendarShows_hit 9 Sample.up Sample.conf Sample.K 5 "my/shows" "2" 2 1 []
           {| store := cache.Set_ 0 (calendarShowsKey Sample.K "my/shows" 1)
                         (DCalendarShows []) 3600 ∅;
              calls := [] |});
    vm_compute; reflexivity.
Defined.

(** X9. The total is kept beside the page: after a [TopMovies] call
    that misses, is answered with status 200 and decodes to a
    non-empty list, a second call for a client page of the same batch,
    within both lifetimes, returns the same list and the same total
    from the cache, whatever the upstream would answer then.  The page
    key and the total key are different keys. *)
Theorem TopMovies_total_persists
    (now1 now2 : Time) (up1 up2 : Upstream) (conf : Config) (K : cache.Consts)
    (PagesAtOnce : Z) (topCategory page1 page2 : string) (p1 p2 P : Z) (w : World) :
  strconv.Atoi page1 = Some p1 -> upstreamPage conf PagesAtOnce p1 = Some P ->
  strconv.Atoi page2 = Some p2 -> upstreamPage conf PagesAtOnce p2 = Some P ->
  topMoviesKey K topCategory P <> topMoviesTotalKey K topCategory ->
  cache.Get decode.moviesList now1 (topMoviesKey K topCategory P) (store w) = None ->
  (let r := pageRequest conf PagesAtOnce (TraktAuthorized conf)
              (topMoviesEndPoint topCategory) P in
   snd (up1 r) = None /\ Status (fst (up1 r)) = 200 /\
   topMoviesOf topCategory (fst (up1 r)) <> []) ->
  now2 < now1 + cache.TraktMoviesByCategoryExpire K ->
  now2 < now1 + cache.TraktMoviesByCategoryTotalExpire K ->
  let first := TopMovies now1 up1 conf K PagesAtOnce topCategory page1 w in
  let second := TopMovies now2 up2 conf K PagesAtOnce topCategory page2 (snd first) in
  let r := pageRequest conf PagesAtOnce (TraktAuthorized conf)
             (topMoviesEndPoint topCategory) P in
  fst first = Some (topMoviesOf topCategory (fst (up1 r)),
                    getPagination_ItemCount (fst (up1 r)), None) /\
  fst second = fst first /\
  snd second = snd first /\
  calls (snd second) = (calls w ++ [r])%list.
Proof.
  intros Hp1 HP1 Hp2 HP2 Hkeys Hmiss Hok Hl1 Hl2. cbv zeta in *.
  destruct Hok as (Herr & Hst & Hne).
  set (r := pageRequest conf PagesAtOnce (TraktAuthorized conf)
              (topMoviesEndPoint topCategory) P) in *.
  rewrite (TopMovies_refetch now1 up1 conf K PagesAtOnce topCategory page1 p1 P w Hp1 HP1
             (or_introl Hmiss)).
  cbv zeta. fold r. rewrite Herr, Hst. cbn [Z.eqb Pos.eqb fst snd].
  apply Z.ltb_lt in Hl1, Hl2.
  rewrite (TopMovies_cached now2 up2 conf K PagesAtOnce topCategory page2 p2 P
             (topMoviesOf topCategory (fst (up1 r))) _ Hp2 HP2).
  - cbn [store fst snd calls]. rewrite Get_Set_ne by congruence.
    rewrite Get_Set_eq, Hl2. cbn [decode.int default]. auto.
  - cbn [store]. now rewrite Get_Set_eq, Hl1.
  - exact Hne.
Qed.

Lemma TopMovies_total_persists_witness :
  let first := TopMovies 0 Sample.up Sample.conf Sample.K 5 "popular" "1" Sample.w0 in
  let second := TopMovies 9 Sample.upBroken Sample.conf Sample.K 5 "popular" "4"
                  (snd first) in
  let r := pageRequest Sample.conf 5 (TraktAuthorized Sample.conf)
             (topMoviesEndPoint "popular") 1 in
  fst first = Some (topMoviesOf "popular" (fst (Sample.up r)),
                    getPagination_ItemCount (fst (Sample.up r)), None) /\
  fst second = fst first /\
  snd second = snd first /\
  calls (snd second) = (calls Sample.w0 ++ [r])%list.
Proof.
  apply (TopMovies_total_persists 0 9 Sample.up Sample.upBroken Sample.conf Sample.K 5
           "popular" "1" "4" 1 4 1 Sample.w0);
    first [ reflexivity
          | vm_compute; congruence
          | vm_compute; repeat split; congruence ].
Defined.



(** X11. [WatchlistMovies] without authorization returns the
    authorization error and does nothing else, whatever the flag.
    With a forced refresh it never reads the cache: it sends exactly
    one request, and its result is the one it gives on an empty
    store. *)
Theorem watchlist_refresh_ignores_cache
    (now : Time) (up : Upstream) (K : cache.Consts) (w : World) :
  (forall (e : Error) (isUpdateNeeded : bool),
     WatchlistMovies now up K (Some e) isUpdateNeeded w = (([], Some e), w)) /\
  (let forced := WatchlistMovies now up K None true w in
   calls (snd forced) = (calls w ++ [watchlistRequest])%list /\
   fst forced
   = fst (WatchlistMovies now up K None true {| store := ∅; calls := [] |}) /\
   (fst forced = ([], snd (fst forced)) /\ is_Some (snd (fst forced)) /\
    store (snd forced) = store w
    \/
    snd (fst forced) = None /\
    cache.lookup now (cache.TraktMoviesWatchlistKey K) (store (snd forced))
    = (if now <? now + cache.TraktMoviesWatchlistExpire K
       then Some (DMoviesList (fst (fst forced))) else None))).
Proof.
  split; [reflexivity|]. cbv zeta. rewrite !WatchlistMovies_run. cbv zeta.
  destruct (snd (up watchlistRequest)) as [e|]; cbn [fst snd calls store].
  - repeat split. left. eauto.
  - destruct (Status (fst (up watchlistRequest)) =? 200); cbn [fst snd calls store].
    + repeat split. right. split; [reflexivity|].
      unfold cache.lookup, cache.Set_. rewrite lookup_insert_eq. reflexivity.
    + repeat split. left. eauto.
Qed.

(** ** List items and lookups by TMDB id *)

Lemma ListItemsMovies_run
    (now : Time) (up : Upstream) (conf : Config) (TraktUsername TraktMoviesListKey : string)
    (unmarshalListItems : Data -> option (list ListItem))
    (user listID : string) (isUpdateNeeded : bool) (w : World) :
  ListItemsMovies now up conf TraktUsername TraktMoviesListKey unmarshalListItems
    user listID isUpdateNeeded w =
  let key := fmt.Sprintf TraktMoviesListKey [fmt.AStr listID] in
  let r := listMoviesRequest conf (listUser TraktUsername user) listID in
  match (if isUpdateNeeded then None
         else cache.Get decode.moviesList now key (store w)) with
  | Some movies => ((movies, None), w)
  | None =>
      match snd (up r) with
      | Some e => (([], Some e), logged r w)
      | None =>
          if Status (fst (up r)) =? 200 then
            let decoded := unmarshalListItems (Body (fst (up r))) in
            let movies := movieListing (default [] decoded) in
            ((movies, match decoded with Some _ => None | None => Some ErrUnmarshal end),
             {| store := cache.Set_ now key (DMoviesList movies) (1 * Minute) (store w);
                calls := (calls w ++ [r])%list |})
          else (([], None), logged r w)
      end
  end.
Proof.
  unfold ListItemsMovies, listMoviesRequest, logged, Unmarshal. unfold_M.
  destruct isUpdateNeeded; simpl.
  2: destruct (cache.Get decode.moviesList now _ (store w)); [reflexivity|].
  all: destruct (TraktAuthorized conf); simpl.
  all: destruct (up _) as [resp [e|]]; simpl; try reflexivity.
  all: destruct (Status resp =? 200); simpl; reflexivity.
Qed.

Lemma ListItemsShows_run
    (now : Time) (up : Upstream) (conf : Config) (TraktUsername TraktShowsListKey : string)
    (TraktShowsListExpire : Duration)
    (unmarshalListItems : Data -> option (list ListItem))
    (user listID : string) (isUpdateNeeded : bool) (w : World) :
  ListItemsShows now up conf TraktUsername TraktShowsListKey TraktShowsListExpire
    unmarshalListItems user listID isUpdateNeeded w =
  let key := fmt.Sprintf TraktShowsListKey [fmt.AStr listID] in
  let r := listShowsRequest conf (listUser TraktUsername user) listID in
  match (if isUpdateNeeded then None
         else cache.Get decode.showsList now key (store w)) with
  | Some shows => ((shows, None), w)
  | None =>
      match snd (up r) with
      | Some e => (([], Some e), logged r w)
      | None =>
          if Status (fst (up r)) =? 200 then
            let decoded := unmarshalListItems (Body (fst (up r))) in
            let shows := showListing (default [] decoded) in
            ((shows, match decoded with Some _ => None | None => Some ErrUnmarshal end),
             {| store := cache.Set_ now key (DShowsList shows) TraktShowsListExpire (store w);
                calls := (calls w ++ [r])%list |})
          else (([], None), logged r w)
      end
  end.
Proof.
  unfold ListItemsShows, listShowsRequest, logged, Unmarshal. unfold_M.
  destruct isUpdateNeeded; simpl.
  2: destruct (cache.Get decode.showsList now _ (store w)); [reflexivity|].
  all: destruct (TraktAuthorized conf); simpl.
  all: destruct (up _) as [resp [e|]]; simpl; try reflexivity.
  all: destruct (Status resp =? 200); simpl; reflexivity.
Qed.



(** X12. The entry of a list is keyed by the list id alone.  Once a
    forced [ListItemsMovies] (or [ListItemsShows]) call for one user
    was answered with status 200, a call for the same list id on
    behalf of any other user, under any configuration, returns the
    first user's list from the cache, without a request and without
    error, for as long as the entry lives: one minute for movies, the
    shows list lifetime for shows. *)
Theorem list_entry_is_shared_by_users
    (now1 now2 : Time) (up1 up2 : Upstream) (conf1 conf2 : Config)
    (user1 user2 name1 name2 listID moviesKey showsKey : string) (expire : Duration)
    (unmarshalListItems : Data -> option (list ListItem)) (w : World) :
  (answered200 (up1 (listMoviesRequest conf1 (listUser name1 user1) listID)) ->
   now2 < now1 + 1 * Minute ->
   let first := ListItemsMovies now1 up1 conf1 name1 moviesKey unmarshalListItems
                  user1 listID true w in
   ListItemsMovies now2 up2 conf2 name2 moviesKey unmarshalListItems
     user2 listID false (snd first)
   = ((fst (fst first), None), snd first)) /\
  (answered200 (up1 (listShowsRequest conf1 (listUser name1 user1) listID)) ->
   now2 < now1 + expire ->
   let first := ListItemsShows now1 up1 conf1 name1 showsKey expire unmarshalListItems
                  user1 listID true w in
   ListItemsShows now2 up2 conf2 name2 showsKey expire unmarshalListItems
     user2 listID false (snd first)
   = ((fst (fst first), None), snd first)).
Proof.
  split; intros [He Hs] Hlt; cbv zeta.
  - rewrite (ListItemsMovies_run now1). cbv zeta. rewrite He, Hs.
    cbn [Z.eqb Pos.eqb fst snd]. rewrite ListItemsMovies_run. cbv zeta.
    cbn [store]. rewrite Get_Set_eq. apply Z.ltb_lt in Hlt. rewrite Hlt.
    reflexivity.
  - rewrite (ListItemsShows_run now1). cbv zeta. rewrite He, Hs.
    cbn [Z.eqb Pos.eqb fst snd]. rewrite ListItemsShows_run. cbv zeta.
    cbn [store]. rewrite Get_Set_eq. apply Z.ltb_lt in Hlt. rewrite Hlt.
    reflexivity.
Qed.

Lemma list_entry_is_shared_by_users_witness :
  (let first := ListItemsMovies 0 SampleLists.up Sample.conf "alice"
                  "com.trakt.movies.list.%s" SampleLists.unmarshalListItems
                  "id" "7" true Sample.w0 in
   ListItemsMovies 30 Sample.upBroken Sample.conf "bob"
     "com.trakt.movies.list.%s" SampleLists.unmarshalListItems
     "bob" "7" false (snd first)
   = ((fst (fst first), None), snd first)) /\
  (let first := ListItemsShows 0 SampleLists.up Sample.conf "alice"
                  "com.trakt.shows.list.%s" 3600 SampleLists.unmarshalListItems
                  "id" "7" true Sample.w0 in
   ListItemsShows 30 Sample.upBroken Sample.conf "bob"
     "com.trakt.shows.list.%s" 3600 SampleLists.unmarshalListItems
     "bob" "7" false (snd first)
   = ((fst (fst first), None), snd first)).
Proof.
  destruct (list_entry_is_shared_by_users 0 30 SampleLists.up Sample.upBroken
              Sample.conf Sample.conf "id" "bob" "alice" "bob" "7"
              "com.trakt.movies.list.%s" "com.trakt.shows.list.%s" 3600
              SampleLists.unmarshalListItems Sample.w0) as [Hm Hs].
  split; [apply Hm | apply Hs]; first [split; reflexivity | reflexivity].
Defined.

(** X13. A list fetch that has to ask the upstream and gets an error
    or a status other than 200 returns an empty list together with the
    transport error as it is: for a bad status without error the
    caller gets an empty list and no error at all.  One request is
    sent and nothing is written. *)
Theorem list_items_failure_is_silent
    (now : Time) (up : Upstream) (conf : Config)
    (name moviesKey showsKey : string) (expire : Duration)
    (unmarshalListItems : Data -> option (list ListItem))
    (user listID : string) (isUpdateNeeded : bool) (w : World) :
  (let r := listMoviesRequest conf (listUser name user) listID in
   (if isUpdateNeeded then None
    else cache.Get decode.moviesList now (fmt.Sprintf moviesKey [fmt.AStr listID]) (store w))
   = None ->
   ~ answered200 (up r) ->
   ListItemsMovies now up conf name moviesKey unmarshalListItems user listID isUpdateNeeded w
   = (([], snd (up r)), logged r w)) /\
  (let r := listShowsRequest conf (listUser name user) listID in
   (if isUpdateNeeded then None
    else cache.Get decode.showsList now (fmt.Sprintf showsKey [fmt.AStr listID]) (store w))
   = None ->
   ~ answered200 (up r) ->
   ListItemsShows now up conf name showsKey expire unmarshalListItems
     user listID isUpdateNeeded w
   = (([], snd (up r)), logged r w)).
Proof.
  split; cbv zeta; intros Hmiss Hbad.
  - rewrite ListItemsMovies_run. cbv zeta. rewrite Hmiss.
    destruct (snd (up _)) as [e|] eqn:He; [reflexivity|].
    destruct (Z.eqb_spec (Status (fst (up (listMoviesRequest conf (listUser name user) listID))))
                200) as [Hs|Hs]; [|reflexivity].
    exfalso. apply Hbad. now split.
  - rewrite ListItemsShows_run. cbv zeta. rewrite Hmiss.
    destruct (snd (up _)) as [e|] eqn:He; [reflexivity|].
    destruct (Z.eqb_spec (Status (fst (up (listShowsRequest conf (listUser name user) listID))))
                200) as [Hs|Hs]; [|reflexivity].
    exfalso. apply Hbad. now split.
Qed.

Lemma list_items_failure_is_silent_witness :
  ListItemsMovies 0 SampleLists.up Sample.conf "alice" "com.trakt.movies.list.%s"
    SampleLists.unmarshalListItems "bob" "7" false Sample.w0
  = (([], None), logged (listMoviesRequest Sample.conf "bob" "7") Sample.w0) /\
  ListItemsShows 0 SampleLists.up Sample.conf "alice" "com.trakt.shows.list.%s" 3600
    SampleLists.unmarshalListItems "bob" "7" false Sample.w0
  = (([], None), logged (listShowsRequest Sample.conf "bob" "7") Sample.w0).
Proof.
  destruct (list_items_failure_is_silent 0 SampleLists.up Sample.conf "alice"
              "com.trakt.movies.list.%s" "com.trakt.shows.list.%s" 3600
              SampleLists.unmarshalListItems "bob" "7" false Sample.w0) as [Hm Hs].
  split; [apply Hm | apply Hs];
    first [reflexivity | intros [_ H]; vm_compute in H; discriminate].
Defined.



Lemma GetMovieByTMDB_run
    (now : Time) (up : Upstream) (key : string) (expire : Duration)
    (unmarshalMovieSearchResults : Data -> option (list MovieSearchResult))
    (tmdbID : string) (w : World) :
  GetMovieByTMDB now up key expire unmarshalMovieSearchResults tmdbID w =
  let r := movieByTMDBRequest tmdbID in
  match cache.Get decode.movie now (fmt.Sprintf key [fmt.AStr tmdbID]) (store w) with
  | Some movie => (movie, w)
  | None =>
      match snd (up r) with
      | Some _ => (None, logged r w)
      | None =>
          let movie := head (default [] (unmarshalMovieSearchResults (Body (fst (up r)))))
                         ≫= MovieSearchResult_Movie in
          (movie,
           {| store := cache.Set_ now (fmt.Sprintf key [fmt.AStr tmdbID]) (DMovie movie)
                         expire (store w);
              calls := (calls w ++ [r])%list |})
      end
  end.
Proof.
  unfold GetMovieByTMDB, movieByTMDBRequest, logged, Unmarshal. unfold_M.
  destruct (cache.Get decode.movie now _ (store w)); [reflexivity|].
  destruct (up _) as [resp [e|]]; simpl; [reflexivity|].
  now destruct (unmarshalMovieSearchResults (Body resp)) as [[|first rest]|].
Qed.

Lemma GetShowByTMDB_run
    (now : Time) (up : Upstream) (key : string) (expire : Duration)
    (unmarshalShowSearchResults : Data -> option (list ShowSearchResult))
    (tmdbID : string) (w : World) :
  GetShowByTMDB now up key expire unmarshalShowSearchResults tmdbID w =
  let r := showByTMDBRequest tmdbID in
  match cache.Get decode.show now (fmt.Sprintf key [fmt.AStr tmdbID]) (store w) with
  | Some show => (show, w)
  | None =>
      match snd (up r) with
      | Some _ => (None, logged r w)
      | None =>
          let show := head (default [] (unmarshalShowSearchResults (Body (fst (up r)))))
                        ≫= ShowSearchResult_Show in
          (show,
           {| store := cache.Set_ now (fmt.Sprintf key [fmt.AStr tmdbID]) (DShow show)
                         expire (store w);
              calls := (calls w ++ [r])%list |})
      end
  end.
Proof.
  unfold GetShowByTMDB, showByTMDBRequest, logged, Unmarshal. unfold_M.
  destruct (cache.Get decode.show now _ (store w)); [reflexivity|].
  destruct (up _) as [resp [e|]]; simpl; [reflexivity|].
  now destruct (unmarshalShowSearchResults (Body resp)) as [[|first rest]|].
Qed.

(** X15. [GetMovieByTMDB] and [GetShowByTMDB] on a miss send one
    search request.  An answer with an error is given up at once:
    nothing is returned and nothing stored.  Any other answer,
    whatever its status, yields the movie (show) of the first search
    result, or nothing when there is no first result or it carries
    none; that outcome, the empty one included, is stored, and until
    the entry expires every further call returns it without a
    request. *)
Theorem lookup_by_tmdb_keeps_first_result
    (now : Time) (up : Upstream) (movieKey' showKey' : string)
    (movieExpire showExpire : Duration)
    (unmarshalMovieSearchResults : Data -> option (list MovieSearchResult))
    (unmarshalShowSearchResults : Data -> option (list ShowSearchResult))
    (tmdbID : string) (w : World) :
  (let r := movieByTMDBRequest tmdbID in
   let res := GetMovieByTMDB now up movieKey' movieExpire unmarshalMovieSearchResults
                tmdbID w in
   cache.Get decode.movie now (fmt.Sprintf movieKey' [fmt.AStr tmdbID]) (store w) = None ->
   (is_Some (snd (up r)) -> res = (None, logged r w)) /\
   (snd (up r) = None ->
    fst res = head (default [] (unmarshalMovieSearchResults (Body (fst (up r)))))
                ≫= MovieSearchResult_Movie /\
    calls (snd res) = (calls w ++ [r])%list /\
    forall (now' : Time) (up' : Upstream), now' < now + movieExpire ->
      GetMovieByTMDB now' up' movieKey' movieExpire unmarshalMovieSearchResults
        tmdbID (snd res) = (fst res, snd res))) /\
  (let r := showByTMDBRequest tmdbID in
   let res := GetShowByTMDB now up showKey' showExpire unmarshalShowSearchResults
                tmdbID w in
   cache.Get decode.show now (fmt.Sprintf showKey' [fmt.AStr tmdbID]) (store w) = None ->
   (is_Some (snd (up r)) -> res = (None, logged r w)) /\
   (snd (up r) = None ->
    fst res = head (default [] (unmarshalShowSearchResults (Body (fst (up r)))))
                ≫= ShowSearchResult_Show /\
    calls (snd res) = (calls w ++ [r])%list /\
    forall (now' : Time) (up' : Upstream), now' < now + showExpire ->
      GetShowByTMDB now' up' showKey' showExpire unmarshalShowSearchResults
        tmdbID (snd res) = (fst res, snd res))).
Proof.
  split; cbv zeta; intros Hmiss.
  - rewrite (GetMovieByTMDB_run now). cbv zeta. rewrite Hmiss. split.
    + intros [e ->]. reflexivity.
    + intros ->. cbn [fst snd calls]. repeat split.
      intros now' up' Hlt. rewrite GetMovieByTMDB_run. cbv zeta. cbn [store].
      rewrite Get_Set_eq. apply Z.ltb_lt in Hlt. rewrite Hlt. reflexivity.
  - rewrite (GetShowByTMDB_run now). cbv zeta. rewrite Hmiss. split.
    + intros [e ->]. reflexivity.
    + intros ->. cbn [fst snd calls]. repeat split.
      intros now' up' Hlt. rewrite GetShowByTMDB_run. cbv zeta. cbn [store].
      rewrite Get_Set_eq. apply Z.ltb_lt in Hlt. rewrite Hlt. reflexivity.
Qed.

Lemma lookup_by_tmdb_keeps_first_result_witness :
  (let res := GetMovieByTMDB 0 SampleLists.up "com.trakt.movie.tmdb.%s" 3600
                SampleLists.unmarshalMovieSearchResults "999" Sample.w0 in
   fst res = None /\
   calls (snd res) = [movieByTMDBRequest "999"] /\
   GetMovieByTMDB 10 SampleLists.up "com.trakt.movie.tmdb.%s" 3600
     SampleLists.unmarshalMovieSearchResults "999" (snd res) = (None, snd res)) /\
  (let res := GetShowByTMDB 0 SampleLists.up "com.trakt.show.tmdb.%s" 3600
                SampleLists.unmarshalShowSearchResults "1100" Sample.w0 in
   fst res = Some Sample.showX /\
   calls (snd res) = [showByTMDBRequest "1100"] /\
   GetShowByTMDB 10 Sample.upBroken "com.trakt.show.tmdb.%s" 3600
     SampleLists.unmarshalShowSearchResults "1100" (snd res) = (Some Sample.showX, snd res)).
Proof.
  split; cbv zeta.
  - destruct (lookup_by_tmdb_keeps_first_result 0 SampleLists.up
                "com.trakt.movie.tmdb.%s" "com.trakt.show.tmdb.%s" 3600 3600
                SampleLists.unmarshalMovieSearchResults
                SampleLists.unmarshalShowSearchResults "999" Sample.w0) as [Hm _].
    destruct (Hm eq_refl) as [_ H]. destruct (H eq_refl) as (E & C & Again).
    split; [exact E | split; [exact C | exact (Again 10 SampleLists.up eq_refl)]].
  - destruct (lookup_by_tmdb_keeps_first_result 0 SampleLists.up
                "com.trakt.movie.tmdb.%s" "com.trakt.show.tmdb.%s" 3600 3600
                SampleLists.unmarshalMovieSearchResults
                SampleLists.unmarshalShowSearchResults "1100" Sample.w0) as [_ Hs].
    destruct (Hs eq_refl) as [_ H]. destruct (H eq_refl) as (E & C & Again).
    split; [exact E | split; [exact C | exact (Again 10 Sample.upBroken eq_refl)]].
Defined.

(** ** The movie search object *)

Lemma AtoiValue_cases (s : string) :
  search.AtoiValue s =
  match s with
  | EmptyString => 0
  | String c r =>
      let neg := Ascii.eqb c "-" in
      let body := if Ascii.eqb c "+" || Ascii.eqb c "-" then r else s in
      match body with
      | EmptyString => 0
      | _ =>
          match strconv.digits 0 body with
          | Some n =>
              let v := if neg then - n else n in
              if GoInt.in_range v then v
              else if neg then GoInt.MinInt else GoInt.MaxInt
          | None => 0
          end
      end
  end.
Proof.
  destruct s as [|[[] [] [] [] [] [] [] []] r]; reflexivity.
Qed.

Lemma digit_of_range (c : ascii) (d : Z) : strconv.digit_of c = Some d -> 0 <= d <= 9.
Proof.
  unfold strconv.digit_of.
  destruct ((48 <=? Z.of_nat (nat_of_ascii c)) && (Z.of_nat (nat_of_ascii c) <=? 57)) eqn:E;
    [|discriminate].
  intros [= <-]. apply andb_true_iff in E as [E1 E2]. lia.
Qed.

Lemma digits_ge (s : string) : forall acc n, 0 <= acc -> strconv.digits acc s = Some n -> acc <= n.
Proof.
  induction s as [|c s IH]; intros acc n Hacc; simpl.
  - intros [= <-]. lia.
  - destruct (strconv.digit_of c) as [d|] eqn:Hd; [|discriminate].
    apply digit_of_range in Hd. intros H. apply IH in H; lia.
Qed.

Lemma firstField_no_dash (s : string) :
  match search.firstField s with
  | String c _ => Ascii.eqb c "-" = false
  | EmptyString => True
  end.
Proof.
  destruct s as [|c r]; simpl; [exact I|].
  destruct (Ascii.eqb c "-") eqn:E; [exact I | exact E].
Qed.

Lemma yearOf_range (date : string) : 0 <= search.yearOf date <= GoInt.MaxInt.
Proof.
  unfold search.yearOf. rewrite AtoiValue_cases.
  pose proof (firstField_no_dash date) as H.
  assert (HM : 0 <= GoInt.MaxInt) by (vm_compute; discriminate).
  destruct (search.firstField date) as [|c r]; [lia|].
  rewrite H. cbv zeta. rewrite orb_false_r.
  set (body := if Ascii.eqb c "+" then r else String c r).
  destruct body as [|c' r'] eqn:Eb; [lia|].
  destruct (strconv.digits 0 (String c' r')) as [n|] eqn:Hd; [|lia].
  apply digits_ge in Hd; [|lia].
  destruct (GoInt.in_range n) eqn:Hr; [|lia].
  unfold GoInt.in_range in Hr. apply andb_true_iff in Hr as [_ Hr]. lia.
Qed.

Lemma fold_min_spec (l : list Z) : forall y0,
  let m := fold_left (fun year y => if y <? year then y else year) l y0 in
  m <= y0 /\ Forall (fun y => m <= y) l /\ (m = y0 \/ In m l).
Proof.
  induction l as [|y l IH]; intros y0; cbv zeta; simpl.
  - repeat split; [lia | constructor | now left].
  - specialize (IH (if y <? y0 then y else y0)). cbv zeta in IH.
    destruct IH as (H1 & H2 & H3).
    destruct (Z.ltb_spec y y0) as [Hlt|Hge].
    + repeat split; [lia | constructor; [lia | exact H2] |].
      destruct H3 as [->|H3]; [right; now left | right; now right].
    + repeat split; [lia | constructor; [lia | exact H2] |].
      destruct H3 as [H3|H3]; [now left | right; now right].
Qed.

Lemma earliest_fold (results : list search.ReleaseDatesResult) : forall year,
  search.earliest results year
  = fold_left (fun year y => if y <? year then y else year) (allYears results) year.
Proof.
  unfold search.earliest, allYears.
  induction results as [|r results IH]; intros year; simpl; [reflexivity|].
  rewrite fold_left_app, IH. f_equal.
  generalize year. induction (search.ReleaseDatesResult_ReleaseDates r) as [|d ds IHd];
    intros y0; simpl; [reflexivity|]. apply IHd.
Qed.

Section SearchObjectProperties.

Variable UseOriginalTitle UseLowestReleaseDate : bool.
Variable Language config_ProxyURL util_ElementumURL util_InternalProxyURL : string.
Variable NormalizeTitle ToLower : string -> string.

Let GetMovieSearchObject :=
  search.GetMovieSearchObject UseOriginalTitle UseLowestReleaseDate Language
    config_ProxyURL util_ElementumURL util_InternalProxyURL NormalizeTitle ToLower.

Lemma search_year_nonneg (movie : search.Movie) :
  0 <= search.Year (GetMovieSearchObject movie).
Proof.
  subst GetMovieSearchObject. unfold search.GetMovieSearchObject. cbn [search.Year].
  pose proof (yearOf_range (search.Movie_ReleaseDate movie)) as Hown.
  destruct (search.Movie_ReleaseDates movie) as [dates|]; [|lia].
  destruct UseLowestReleaseDate; [|lia].
  rewrite earliest_fold.
  pose proof (fold_min_spec (allYears (search.Results dates))
                (search.yearOf (search.Movie_ReleaseDate movie))) as H.
  cbv zeta in H. set (m := fold_left _ _ _) in *.
  destruct H as (_ & _ & [H3|H3]); [lia|].
  unfold allYears in H3. apply in_flat_map in H3 as (r & _ & Hy).
  apply in_map_iff in Hy as (d & <- & _). apply yearOf_range.
Qed.

(** X16. The year of a movie search object is never negative.  It is
    the year of the movie's own release date, unless the lowest
    release date is asked for and the movie carries release dates:
    then it is the least year among the movie's own and all listed
    dates.  A date without a readable year counts as year 0, so one
    such date among the listed ones makes the search year 0. *)
Theorem search_year_is_the_earliest (movie : search.Movie) :
  let o := GetMovieSearchObject movie in
  let own := search.yearOf (search.Movie_ReleaseDate movie) in
  0 <= search.Year o /\
  match search.Movie_ReleaseDates movie with
  | Some dates =>
      if UseLowestReleaseDate then
        let years := allYears (search.Results dates) in
        search.Year o <= own /\
        Forall (fun y => search.Year o <= y) years /\
        (search.Year o = own \/ In (search.Year o) years) /\
        (In 0 years -> search.Year o = 0)
      else search.Year o = own
  | None => search.Year o = own
  end.
Proof.
  cbv zeta. subst GetMovieSearchObject. unfold search.GetMovieSearchObject.
  cbn [search.Year].
  pose proof (yearOf_range (search.Movie_ReleaseDate movie)) as Hown.
  destruct (search.Movie_ReleaseDates movie) as [dates|]; [|split; [lia | reflexivity]].
  destruct UseLowestReleaseDate; [|split; [lia | reflexivity]].
  rewrite earliest_fold.
  pose proof (fold_min_spec (allYears (search.Results dates))
                (search.yearOf (search.Movie_ReleaseDate movie))) as H.
  cbv zeta in H. destruct H as (H1 & H2 & H3).
  set (m := fold_left _ _ _) in *.
  assert (Hall : Forall (fun y => 0 <= y) (allYears (search.Results dates))).
  { unfold allYears. apply List.Forall_forall. intros y Hy.
    apply in_flat_map in Hy as (r & _ & Hy). apply in_map_iff in Hy as (d & <- & _).
    apply yearOf_range. }
  assert (Hm : 0 <= m).
  { destruct H3 as [->|H3]; [lia|]. rewrite List.Forall_forall in Hall. now apply Hall. }
  repeat split; try assumption.
  intros H0. rewrite List.Forall_forall in H2. specialize (H2 0 H0). lia.
Qed.

Lemma lowestYear_step_nonneg (dates : list search.ReleaseDate) : forall l0,
  0 <= l0 ->
  0 <= fold_left (fun lowestYear d =>
                    let y := search.yearOf (search.ReleaseDate_ReleaseDate d) in
                    if (y <? lowestYear) || (lowestYear =? 0) then y else lowestYear)
                 dates l0.
Proof.
  induction dates as [|d dates IH]; intros l0 H0; simpl; [exact H0|].
  apply IH. pose proof (yearOf_range (search.ReleaseDate_ReleaseDate d)).
  destruct ((_ <? l0) || (l0 =? 0)); lia.
Qed.

Lemma lowestYear_positive_fold (dates : list search.ReleaseDate) : forall l0,
  0 < l0 -> Forall (fun y => 0 < y) (yearsOf dates) ->
  fold_left (fun lowestYear d =>
               let y := search.yearOf (search.ReleaseDate_ReleaseDate d) in
               if (y <? lowestYear) || (lowestYear =? 0) then y else lowestYear)
            dates l0
  = fold_left (fun year y => if y <? year then y else year) (yearsOf dates) l0.
Proof.
  induction dates as [|d dates IH]; intros l0 H0 Hall; simpl; [reflexivity|].
  inversion Hall as [|y ys Hy Hys]; subst.
  destruct (Z.eqb_spec l0 0) as [->|_]; [lia|]. rewrite orb_false_r.
  apply IH; [|exact Hys].
  destruct (_ <? l0); lia.
Qed.

Lemma lowestYear_cons (d : search.ReleaseDate) (dates : list search.ReleaseDate) :
  search.lowestYear (d :: dates)
  = fold_left (fun lowestYear d =>
                 let y := search.yearOf (search.ReleaseDate_ReleaseDate d) in
                 if (y <? lowestYear) || (lowestYear =? 0) then y else lowestYear)
              dates (search.yearOf (search.ReleaseDate_ReleaseDate d)).
Proof.
  unfold search.lowestYear. simpl. now rewrite orb_true_r.
Qed.

(** X17. The year kept for one location.  It is never negative.  A
    date without a readable year resets the search: the dates before
    it are forgotten and the result is the one of the dates after it.
    When every date of the location has a positive year, the result is
    the least of them. *)
Theorem location_year_restarts_after_gap :
  (forall dates, 0 <= search.lowestYear dates) /\
  (forall before gap after,
     search.yearOf (search.ReleaseDate_ReleaseDate gap) = 0 ->
     search.lowestYear (before ++ gap :: after) = search.lowestYear after) /\
  (forall dates,
     dates <> [] -> Forall (fun y => 0 < y) (yearsOf dates) ->
     0 < search.lowestYear dates /\
     Forall (fun y => search.lowestYear dates <= y) (yearsOf dates) /\
     In (search.lowestYear dates) (yearsOf dates)).
Proof.
  split; [|split].
  - intros dates. apply lowestYear_step_nonneg. lia.
  - intros before gap after Hgap. unfold search.lowestYear.
    rewrite fold_left_app. simpl. rewrite Hgap.
    pose proof (lowestYear_step_nonneg before 0 ltac:(lia)) as H. cbv zeta in H.
    set (l := fold_left _ before 0) in *.
    replace ((0 <? l) || (l =? 0)) with true; [reflexivity|].
    symmetry. apply orb_true_iff.
    destruct (Z.eqb_spec l 0); [now right | left; apply Z.ltb_lt; lia].
  - intros [|d dates] Hne Hall; [contradiction|].
    rewrite lowestYear_cons.
    inversion Hall as [|y ys Hy Hys]; subst.
    rewrite (lowestYear_positive_fold dates _ Hy Hys).
    pose proof (fold_min_spec (yearsOf dates)
                  (search.yearOf (search.ReleaseDate_ReleaseDate d))) as H.
    cbv zeta in H. destruct H as (H1 & H2 & H3).
    set (m := fold_left _ (yearsOf dates) _) in *.
    assert (Hm : 0 < m).
    { destruct H3 as [->|H3]; [exact Hy|].
      rewrite List.Forall_forall in Hys. now apply Hys. }
    repeat split; [exact Hm | constructor; [exact H1 | exact H2] |].
    destruct H3 as [->|H3]; [now left | now right].
Qed.

Lemma collectYears_entries (results : list search.ReleaseDatesResult) :
  forall (years : gmap string Z) (k : string) (v : Z),
    search.collectYears ToLower results years !! k = Some v ->
    years !! k = Some v \/
    exists r, In r results /\ ToLower (search.ReleaseDatesResult_Iso3166_1 r) = k /\
              v = search.lowestYear (search.ReleaseDatesResult_ReleaseDates r) /\ 0 < v.
Proof.
  unfold search.collectYears.
  induction results as [|r results IH]; intros years k v; simpl; [now left|].
  intros H. apply IH in H as [H|(r' & Hin & Hk & Hv & Hpos)].
  - destruct (Z.ltb_spec 0 (search.lowestYear (search.ReleaseDatesResult_ReleaseDates r)))
      as [Hpos|_]; [|now left].
    destruct (decide (ToLower (search.ReleaseDatesResult_Iso3166_1 r) = k)) as [Hk|Hk].
    + subst k. rewrite lookup_insert_eq in H. injection H as <-.
      right. exists r. repeat split; [now left | exact Hpos].
    + rewrite lookup_insert_ne in H by exact Hk. now left.
  - right. exists r'. repeat split; [now right | exact Hk | exact Hv | exact Hpos].
Qed.

Lemma collectYears_keeps (results : list search.ReleaseDatesResult) :
  forall (years : gmap string Z) (k : string),
    Forall (fun r => 0 < search.lowestYear (search.ReleaseDatesResult_ReleaseDates r) ->
                     ToLower (search.ReleaseDatesResult_Iso3166_1 r) <> k) results ->
    search.collectYears ToLower results years !! k = years !! k.
Proof.
  unfold search.collectYears.
  induction results as [|r results IH]; intros years k Hall; simpl; [reflexivity|].
  inversion Hall as [|r' rs Hr Hrs]; subst. rewrite IH by exact Hrs.
  destruct (Z.ltb_spec 0 (search.lowestYear (search.ReleaseDatesResult_ReleaseDates r)))
    as [Hpos|_]; [|reflexivity].
  apply lookup_insert_ne. now apply Hr.
Qed.

Lemma collectYears_app (before after : list search.ReleaseDatesResult)
    (years : gmap string Z) :
  search.collectYears ToLower (before ++ after) years
  = search.collectYears ToLower after (search.collectYears ToLower before years).
Proof. unfold search.collectYears. apply fold_left_app. Qed.

Lemma collectYears_cons (r : search.ReleaseDatesResult)
    (after : list search.ReleaseDatesResult) (years : gmap string Z) :
  search.collectYears ToLower (r :: after) years
  = search.collectYears ToLower after
      (if 0 <? search.lowestYear (search.ReleaseDatesResult_ReleaseDates r)
       then <[ToLower (search.ReleaseDatesResult_Iso3166_1 r)
               := search.lowestYear (search.ReleaseDatesResult_ReleaseDates r)]> years
       else years).
Proof. reflexivity. Qed.

(** X18. The years map of a movie search object.  Every entry is
    either the base entry, under "original" with the search year, or
    the positive year of a location under the location's lowered
    code; no entry is negative.  When locations share a lowered code
    the last one with a positive year wins, and a location whose
    lowered code is "original" replaces the base entry. *)
Theorem years_entries (movie : search.Movie) :
  let o := GetMovieSearchObject movie in
  (forall k v,
     search.Years o !! k = Some v ->
     0 <= v /\
     (k = "original" /\ v = search.Year o \/
      exists r, In r (locations movie) /\
                ToLower (search.ReleaseDatesResult_Iso3166_1 r) = k /\
                v = search.lowestYear (search.ReleaseDatesResult_ReleaseDates r) /\
                0 < v)) /\
  (forall before r after,
     locations movie = (before ++ r :: after)%list ->
     0 < search.lowestYear (search.ReleaseDatesResult_ReleaseDates r) ->
     Forall (fun r' =>
               0 < search.lowestYear (search.ReleaseDatesResult_ReleaseDates r') ->
               ToLower (search.ReleaseDatesResult_Iso3166_1 r')
               <> ToLower (search.ReleaseDatesResult_Iso3166_1 r)) after ->
     search.Years o !! ToLower (search.ReleaseDatesResult_Iso3166_1 r)
     = Some (search.lowestYear (search.ReleaseDatesResult_ReleaseDates r))) /\
  (Forall (fun r =>
             0 < search.lowestYear (search.ReleaseDatesResult_ReleaseDates r) ->
             ToLower (search.ReleaseDatesResult_Iso3166_1 r) <> "original")
          (locations movie) ->
   search.Years o !! "original" = Some (search.Year o)).
Proof.
  cbv zeta.
  pose proof (search_year_nonneg movie) as Hyear.
  assert (E : search.Years (GetMovieSearchObject movie)
              = search.collectYears ToLower (locations movie)
                  {[ "original" := search.Year (GetMovieSearchObject movie) ]}).
  { subst GetMovieSearchObject. unfold search.GetMovieSearchObject, locations.
    cbn [search.Years search.Year].
    destruct (search.Movie_ReleaseDates movie); reflexivity. }
  rewrite E. split; [|split].
  - intros k v H. apply collectYears_entries in H as [H|(r & Hin & Hk & Hv & Hpos)].
    + apply lookup_singleton_Some in H as [<- <-]. split; [exact Hyear | now left].
    + split; [lia | right; exists r; repeat split; assumption].
  - intros before r after Hloc Hpos Hafter. rewrite Hloc.
    rewrite collectYears_app, collectYears_cons.
    apply Z.ltb_lt in Hpos. rewrite Hpos.
    rewrite collectYears_keeps by exact Hafter. apply lookup_insert_eq.
  - intros Hall. rewrite collectYears_keeps by exact Hall. apply lookup_singleton_eq.
Qed.

End SearchObjectProperties.

(** One undated entry among the German dates: with the lowest release
    date asked for the search year is 0, and Germany's year is the
    one of the date after the gap, not the earlier 1998. *)
Example sample_search_years :
  let o := SampleSearch.GetMovieSearchObject true in
  search.Year o = 0 /\
  search.Year (SampleSearch.GetMovieSearchObject false) = 1999 /\
  search.Years o !! "original" = Some 0 /\
  search.Years o !! "us" = Some 1999 /\
  search.Years o !! "de" = Some 2001 /\
  search.Titles o !! "en" = Some "Fight Club".
Proof. vm_compute. repeat split; reflexivity. Qed.

(** ** The API key check *)

Section CheckAPIKeyProperties.

Variable napping_Get : nat -> string -> tmdb.Response * option Error.
Variable rand_Intn : nat -> Z -> Z.
Hypothesis Hrand : inRange rand_Intn.

Lemma allFailed_cons (base : nat) (a : string) (new : list string) :
  apikeys.tmdbCheck napping_Get base a = false ->
  allFailed (apikeys.tmdbCheck napping_Get) (S base) new ->
  allFailed (apikeys.tmdbCheck napping_Get) base (a :: new).
Proof.
  intros Ha Hn [|i] key; simpl.
  - intros [= <-]. now rewrite Nat.add_0_r.
  - intros H. apply Hn in H. now rewrite Nat.add_succ_r.
Qed.

Lemma remove_sublist (index : nat) (keys : list string) :
  apikeys.remove index keys `sublist_of` keys.
Proof.
  unfold apikeys.remove. rewrite <- delete_take_drop. apply sublist_delete.
Qed.

(** The loop, entered with [n] rounds to go and at least [n] keys on
    the list. *)
Lemma loop_spec (n : nat) : forall s,
  (n <= length (apikeys.apiKeys s))%nat ->
  match apikeys.loop napping_Get rand_Intn n s with
  | apikeys.Passed s' =>
      exists new,
        apikeys.checked s' = (apikeys.checked s ++ new ++ [apikeys.apiKey s'])%list /\
        allFailed (apikeys.tmdbCheck napping_Get) (length (apikeys.checked s)) new /\
        apikeys.tmdbCheck napping_Get (length (apikeys.checked s) + length new)%nat
          (apikeys.apiKey s') = true /\
        (7 <= String.length (apikeys.apiKey s'))%nat /\
        (length new < n)%nat /\
        (apikeys.apiKey s' = apikeys.apiKey s \/ apikeys.apiKey s' ∈ apikeys.apiKeys s) /\
        apikeys.apiKeys s' `sublist_of` apikeys.apiKeys s /\
        (apikeys.apiKey s ∈ apikeys.apiKeys s -> apikeys.apiKey s' ∈ apikeys.apiKeys s')
  | apikeys.Failed s' =>
      exists new,
        apikeys.checked s' = (apikeys.checked s ++ new)%list /\
        allFailed (apikeys.tmdbCheck napping_Get) (length (apikeys.checked s)) new /\
        (length new <= n)%nat /\
        apikeys.apiKeys s' `sublist_of` apikeys.apiKeys s /\
        (forall key, key ∈ apikeys.apiKeys s -> key ∈ apikeys.apiKeys s' \/ key ∈ new) /\
        (apikeys.apiKey s ∈ apikeys.apiKeys s ->
         apikeys.apiKeys s' = [] \/ apikeys.apiKey s' ∈ apikeys.apiKeys s')
  | apikeys.Panic =>
      exists new key,
        allFailed (apikeys.tmdbCheck napping_Get) (length (apikeys.checked s)) new /\
        apikeys.tmdbCheck napping_Get (length (apikeys.checked s) + length new)%nat key
        = true /\
        (String.length key < 7)%nat /\
        (key = apikeys.apiKey s \/ key ∈ apikeys.apiKeys s)
  end.
Proof.
  induction n as [|index IH]; intros s Hn.
  - simpl. exists []. rewrite app_nil_r. repeat split; auto.
    intros i key H. discriminate.
  - cbn [apikeys.loop]. cbv zeta.
    cbn [apikeys.apiKey apikeys.apiKeys apikeys.checked apikeys.draws].
    destruct (apikeys.tmdbCheck napping_Get (length (apikeys.checked s)) (apikeys.apiKey s))
      eqn:Hcheck.
    + destruct (Nat.ltb_spec (String.length (apikeys.apiKey s)) 7) as [Hshort|Hlong].
      * exists [], (apikeys.apiKey s). simpl. rewrite Nat.add_0_r.
        repeat split; auto. intros i key H. discriminate.
      * exists []. cbn [apikeys.apiKey apikeys.apiKeys apikeys.checked app length].
        rewrite Nat.add_0_r. repeat split; auto; try lia.
        intros i key H. discriminate.
    + destruct (lookup_lt_is_Some_2 (apikeys.apiKeys s) index ltac:(lia)) as [key Hkey].
      rewrite Hkey.
      set (keys := if String.eqb (apikeys.apiKey s) key
                   then apikeys.remove index (apikeys.apiKeys s) else apikeys.apiKeys s).
      assert (Hsub : keys `sublist_of` apikeys.apiKeys s).
      { subst keys. destruct (String.eqb _ key); [apply remove_sublist | reflexivity]. }
      assert (Hlen : (index <= length keys)%nat).
      { subst keys. destruct (String.eqb _ key); [|lia].
        unfold apikeys.remove. rewrite <- delete_take_drop.
        rewrite length_delete by eauto. lia. }
      assert (Hkept : forall k, k ∈ apikeys.apiKeys s -> k ∈ keys \/ k = apikeys.apiKey s).
      { subst keys. intros k Hk. destruct (String.eqb_spec (apikeys.apiKey s) key) as [E|E];
          [|now left].
        unfold apikeys.remove. rewrite <- delete_take_drop.
        apply list_elem_of_lookup in Hk as [j Hj].
        destruct (decide (j = index)) as [->|Hne].
        - right. congruence.
        - left. apply list_elem_of_lookup.
          destruct (decide (j < index)%nat).
          + exists j. rewrite list_lookup_delete_lt by lia. exact Hj.
          + exists (pred j). rewrite list_lookup_delete_ge by lia.
            replace (S (pred j)) with j by lia. exact Hj. }
      destruct (Nat.ltb_spec 0 (length keys)) as [Hpos|Hzero].
      * pose proof (Hrand (apikeys.draws s) (Z.of_nat (length keys)) ltac:(lia)) as Hr.
        destruct (lookup_lt_is_Some_2 keys
                    (Z.to_nat (rand_Intn (apikeys.draws s) (Z.of_nat (length keys))))
                    ltac:(lia)) as [next Hnext].
        rewrite Hnext.
        assert (Hin : next ∈ keys) by (eapply list_elem_of_lookup_2; eauto).
        specialize (IH {| apikeys.apiKeys := keys; apikeys.apiKey := next;
                          apikeys.checked := (apikeys.checked s ++ [apikeys.apiKey s])%list;
                          apikeys.draws := S (apikeys.draws s) |} Hlen).
        cbn [apikeys.apiKey apikeys.apiKeys apikeys.checked apikeys.draws] in IH.
        rewrite length_app in IH. simpl length in IH.
        replace (length (apikeys.checked s) + 1)%nat with (S (length (apikeys.checked s)))
          in IH by lia.
        destruct (apikeys.loop _ _ index _) as [s'|s'|].
        -- destruct IH as (new & Hc & Hf & Ht & H7 & Hl & Hfrom & Hs & Hmem).
           exists (apikeys.apiKey s :: new). repeat split.
           ++ rewrite Hc, <- app_assoc. reflexivity.
           ++ now apply allFailed_cons.
           ++ simpl length. rewrite Nat.add_succ_r. exact Ht.
           ++ exact H7.
           ++ simpl. lia.
           ++ right. destruct Hfrom as [->|Hfrom].
              ** eapply elem_of_sublist; eauto.
              ** eapply elem_of_sublist; eauto.
           ++ etransitivity; eauto.
           ++ intros _. apply Hmem. exact Hin.
        -- destruct IH as (new & Hc & Hf & Hl & Hs & Hrem & Hmem).
           exists (apikeys.apiKey s :: new). repeat split.
           ++ rewrite Hc, <- app_assoc. reflexivity.
           ++ now apply allFailed_cons.
           ++ simpl. lia.
           ++ etransitivity; eauto.
           ++ intros k Hk. destruct (Hkept k Hk) as [Hk'| ->].
              ** destruct (Hrem k Hk') as [?|?]; [now left | right; now right].
              ** right. now left.
           ++ intros _. apply Hmem. exact Hin.
        -- destruct IH as (new & k & Hf & Ht & H7 & Hfrom).
           exists (apikeys.apiKey s :: new), k. repeat split.
           ++ now apply allFailed_cons.
           ++ simpl length. rewrite Nat.add_succ_r. exact Ht.
           ++ exact H7.
           ++ right. destruct Hfrom as [->|Hfrom]; eapply elem_of_sublist; eauto.
      * assert (keys = []) as Hnil by (destruct keys; [reflexivity | simpl in Hzero; lia]).
        exists [apikeys.apiKey s].
        cbn [apikeys.apiKey apikeys.apiKeys apikeys.checked apikeys.draws].
        repeat split.
        -- intros [|i] k; simpl; [|discriminate]. intros [= <-]. now rewrite Nat.add_0_r.
        -- simpl. lia.
        -- exact Hsub.
        -- intros k Hk. destruct (Hkept k Hk) as [Hk'| ->].
           ++ rewrite Hnil in Hk'. now apply elem_of_nil in Hk'.
           ++ right. now left.
        -- intros _. now left.
Qed.
(** X19. How [CheckAPIKey] ends, for draws within [rand.Intn]'s
    contract.  It checks at most as many keys as the list holds on
    entry, never indexes the list out of range, and only ever drops
    keys from it.  When it ends with a key, that key passed the last
    check, every check before failed, and the key is on the list.
    When it ends without one, every check failed, every key that left
    the list had just failed a check, and the list is empty or the
    current key is a key of the list drawn after the last failure.
    It panics only when a key of fewer than seven bytes passes (the
    notice slices the first seven). *)
Theorem CheckAPIKey_outcome (TMDBApiKey : string) (s : apikeys.State) :
  let start := entry TMDBApiKey s in
  let base := length (apikeys.checked s) in
  match apikeys.CheckAPIKey napping_Get rand_Intn TMDBApiKey s with
  | apikeys.Passed s' =>
      exists new,
        apikeys.checked s' = (apikeys.checked s ++ new ++ [apikeys.apiKey s'])%list /\
        allFailed (apikeys.tmdbCheck napping_Get) base new /\
        apikeys.tmdbCheck napping_Get (base + length new)%nat (apikeys.apiKey s') = true /\
        (7 <= String.length (apikeys.apiKey s'))%nat /\
        (length new < length (apikeys.apiKeys start))%nat /\
        apikeys.apiKeys s' `sublist_of` apikeys.apiKeys start /\
        (apikeys.apiKey start ∈ apikeys.apiKeys start ->
         apikeys.apiKey s' ∈ apikeys.apiKeys s')
  | apikeys.Failed s' =>
      exists new,
        apikeys.checked s' = (apikeys.checked s ++ new)%list /\
        allFailed (apikeys.tmdbCheck napping_Get) base new /\
        (length new <= length (apikeys.apiKeys start))%nat /\
        apikeys.apiKeys s' `sublist_of` apikeys.apiKeys start /\
        (forall key, key ∈ apikeys.apiKeys start -> key ∈ apikeys.apiKeys s' \/ key ∈ new) /\
        (apikeys.apiKey start ∈ apikeys.apiKeys start ->
         apikeys.apiKeys s' = [] \/ apikeys.apiKey s' ∈ apikeys.apiKeys s')
  | apikeys.Panic =>
      exists new key,
        allFailed (apikeys.tmdbCheck napping_Get) base new /\
        apikeys.tmdbCheck napping_Get (base + length new)%nat key = true /\
        (String.length key < 7)%nat /\
        (key = apikeys.apiKey start \/ key ∈ apikeys.apiKeys start)
  end.
Proof.
  cbv zeta.
  assert (Hc : apikeys.checked (entry TMDBApiKey s) = apikeys.checked s)
    by (unfold entry; now destruct (negb _)).
  change (apikeys.CheckAPIKey napping_Get rand_Intn TMDBApiKey s)
    with (apikeys.loop napping_Get rand_Intn
            (length (apikeys.apiKeys (entry TMDBApiKey s))) (entry TMDBApiKey s)).
  pose proof (loop_spec (length (apikeys.apiKeys (entry TMDBApiKey s)))
                (entry TMDBApiKey s) (Nat.le_refl _)) as H.
  rewrite Hc in H.
  destruct (apikeys.loop _ _ _ _) as [s'|s'|].
  - destruct H as (new & H1 & H2 & H3 & H4 & H5 & _ & H7 & H8).
    exists new. repeat split; assumption.
  - exact H.
  - exact H.
Qed.

(** X20. With a configured key, [CheckAPIKey] checks that key first;
    when it passes and has at least seven bytes the check ends there,
    with the configured key current and appended to the list. *)
Theorem configured_key_is_checked_first (TMDBApiKey : string) (s : apikeys.State) :
  TMDBApiKey <> EmptyString ->
  apikeys.tmdbCheck napping_Get (length (apikeys.checked s)) TMDBApiKey = true ->
  (7 <= String.length TMDBApiKey)%nat ->
  apikeys.CheckAPIKey napping_Get rand_Intn TMDBApiKey s
  = apikeys.Passed {| apikeys.apiKeys := (apikeys.apiKeys s ++ [TMDBApiKey])%list;
                      apikeys.apiKey := TMDBApiKey;
                      apikeys.checked := (apikeys.checked s ++ [TMDBApiKey])%list;
                      apikeys.draws := apikeys.draws s |}.
Proof.
  intros Hne Hpass Hlen. unfold apikeys.CheckAPIKey.
  destruct (String.eqb_spec TMDBApiKey EmptyString) as [E|_]; [contradiction|].
  cbn [negb apikeys.apiKeys]. rewrite length_app, Nat.add_comm. simpl length.
  cbn [Nat.add].
  cbn [apikeys.loop]. cbv zeta.
  cbn [apikeys.apiKey apikeys.apiKeys apikeys.checked apikeys.draws].
  rewrite Hpass. destruct (Nat.ltb_spec (String.length TMDBApiKey) 7); [lia | reflexivity].
Qed.

End CheckAPIKeyProperties.

Lemma CheckAPIKey_outcome_witness :
  let start := entry EmptyString SampleKeys.s0 in
  let base := length (apikeys.checked SampleKeys.s0) in
  match apikeys.CheckAPIKey SampleKeys.napping_Get SampleKeys.counting EmptyString
          SampleKeys.s0 with
  | apikeys.Passed s' =>
      exists new,
        apikeys.checked s'
        = (apikeys.checked SampleKeys.s0 ++ new ++ [apikeys.apiKey s'])%list /\
        allFailed (apikeys.tmdbCheck SampleKeys.napping_Get) base new /\
        apikeys.tmdbCheck SampleKeys.napping_Get (base + length new)%nat (apikeys.apiKey s')
        = true /\
        (7 <= String.length (apikeys.apiKey s'))%nat /\
        (length new < length (apikeys.apiKeys start))%nat /\
        apikeys.apiKeys s' `sublist_of` apikeys.apiKeys start /\
        (apikeys.apiKey start ∈ apikeys.apiKeys start ->
         apikeys.apiKey s' ∈ apikeys.apiKeys s')
  | apikeys.Failed s' =>
      exists new,
        apikeys.checked s' = (apikeys.checked SampleKeys.s0 ++ new)%list /\
        allFailed (apikeys.tmdbCheck SampleKeys.napping_Get) base new /\
        (length new <= length (apikeys.apiKeys start))%nat /\
        apikeys.apiKeys s' `sublist_of` apikeys.apiKeys start /\
        (forall key, key ∈ apikeys.apiKeys start -> key ∈ apikeys.apiKeys s' \/ key ∈ new) /\
        (apikeys.apiKey start ∈ apikeys.apiKeys start ->
         apikeys.apiKeys s' = [] \/ apikeys.apiKey s' ∈ apikeys.apiKeys s')
  | apikeys.Panic =>
      exists new key,
        allFailed (apikeys.tmdbCheck SampleKeys.napping_Get) base new /\
        apikeys.tmdbCheck SampleKeys.napping_Get (base + length new)%nat key = true /\
        (String.length key < 7)%nat /\
        (key = apikeys.apiKey start \/ key ∈ apikeys.apiKeys start)
  end.
Proof.
  apply (CheckAPIKey_outcome SampleKeys.napping_Get SampleKeys.counting).
  intros k n Hn. unfold SampleKeys.counting. apply Z.mod_pos_bound. exact Hn.
Defined.

Lemma configured_key_is_checked_first_witness :
  apikeys.CheckAPIKey SampleKeys.napping_Get SampleKeys.zeros "0123456789abcdef"
    SampleKeys.s0
  = apikeys.Passed
      {| apikeys.apiKeys := (apikeys.apiKeys SampleKeys.s0 ++ ["0123456789abcdef"])%list;
         apikeys.apiKey := "0123456789abcdef";
         apikeys.checked := (apikeys.checked SampleKeys.s0 ++ ["0123456789abcdef"])%list;
         apikeys.draws := apikeys.draws SampleKeys.s0 |}.
Proof.
  apply (configured_key_is_checked_first SampleKeys.napping_Get SampleKeys.zeros);
    [discriminate | reflexivity | simpl; lia].
Defined.

(** With draws that keep returning 0 the refused first key is drawn
    again and again: it is checked three times, it leaves the list
    only in the last round, and the check ends without a valid key
    although the two keys left on the list would pass; the current
    key is one of them, unchecked. *)
Example sample_refused_key_checked_thrice :
  apikeys.CheckAPIKey SampleKeys.napping_Get SampleKeys.zeros EmptyString SampleKeys.s0
  = apikeys.Failed
      {| apikeys.apiKeys := ["ae4bd1b6fce2a5648671bfc171d15ba4";
                             "29a551a65eef108dd01b46e27eb0554a"];
         apikeys.apiKey := "ae4bd1b6fce2a5648671bfc171d15ba4";
         apikeys.checked := ["8cf43ad9c085135b9479ad5cf6bbcbda";
                             "8cf43ad9c085135b9479ad5cf6bbcbda";
                             "8cf43ad9c085135b9479ad5cf6bbcbda"];
         apikeys.draws := 3 |} /\
  apikeys.tmdbCheck SampleKeys.napping_Get 3 "ae4bd1b6fce2a5648671bfc171d15ba4" = true.
Proof. split; reflexivity. Qed.

(** ** Fan art *)

Section FanartProperties.

Variable GetImages : Z -> option fanart.TmdbImages.
Variable Language : string.

Lemma choose_fold (images : list fanart.Image) : forall chosen,
  fold_left (fun chosen image =>
               if String.eqb (fanart.Iso639_1 image) Language
               then fanart.ImageURL (fanart.FilePath image) "w1280" else chosen)
            images chosen
  = match last (inLanguage Language images) with
    | Some image => fanart.ImageURL (fanart.FilePath image) "w1280"
    | None => chosen
    end.
Proof.
  unfold inLanguage.
  induction images as [|x images IH]; intros chosen; simpl; [reflexivity|].
  rewrite IH. destruct (String.eqb_spec (fanart.Iso639_1 x) Language) as [E|E].
  - rewrite filter_cons_True by exact E. rewrite last_cons.
    now destruct (last (filter _ images)).
  - rewrite filter_cons_False by exact E. reflexivity.
Qed.

(** X21. Which image [setFanart] takes from a list: none from an
    empty list; otherwise the last image in the configured language,
    and the first image of the list when no image is in that language.
    The URL of the image is the image endpoint, the size "w1280" and
    the file path, and it is empty exactly for an empty file path. *)
Theorem fanart_takes_last_in_language (images : list fanart.Image) :
  fanart.choose Language images
  = (image ← from_option Some (head images) (last (inLanguage Language images));
     Some (fanart.ImageURL (fanart.FilePath image) "w1280")) /\
  (forall uri size,
     (fanart.ImageURL uri size = EmptyString <-> uri = EmptyString) /\
     (uri <> EmptyString ->
      fanart.ImageURL uri size = "http://image.tmdb.org/t/p/" ++ size ++ uri)).
Proof.
  split.
  - destruct images as [|first rest]; [reflexivity|].
    unfold fanart.choose. rewrite choose_fold.
    now destruct (last (inLanguage Language (first :: rest))).
  - intros uri size. unfold fanart.ImageURL.
    destruct (String.eqb_spec uri EmptyString) as [->|Hne].
    + split; [tauto | congruence].
    + split; [|reflexivity]. split; [discriminate | contradiction].
Qed.

Lemma setFanart_panics (movie : option fanart.Movie) :
  fanart.setFanart GetImages Language movie = None <-> movie = None.
Proof.
  destruct movie as [[ids images]|]; [|tauto].
  split; [|discriminate]. unfold fanart.setFanart. cbn [fanart.Movie_IDs].
  destruct ids as [ids|]; [|discriminate].
  destruct (TMDB ids =? 0); [discriminate|].
  destruct (GetImages (TMDB ids)); discriminate.
Qed.

Lemma setFanart_returns (movie movie' : fanart.Movie) :
  fanart.setFanart GetImages Language (Some movie) = Some movie' ->
  complete movie' /\
  fanart.Movie_IDs movie' = fanart.Movie_IDs movie /\
  fanart.setFanart GetImages Language (Some movie') = Some movie'.
Proof.
  destruct movie as [ids images].
  unfold fanart.setFanart at 1. cbn [fanart.Movie_IDs fanart.Movie_Images].
  destruct images as [[p t f b c]|]; cbn [default fanart.Poster fanart.Thumbnail
    fanart.FanArt fanart.Banner fanart.ClearArt].
  all: destruct ids as [ids|]; [destruct (TMDB ids =? 0) eqn:Hz;
         [|destruct (GetImages (TMDB ids)) as [tmdbImages|] eqn:Hg;
           [destruct (fanart.choose Language (fanart.Posters tmdbImages)) eqn:Hp;
            destruct (fanart.choose Language (fanart.Backdrops tmdbImages)) eqn:Hb|]]|].
  all: intros [= <-].
  all: repeat split.
  all: try (unfold complete; cbn [fanart.Movie_Images];
            try destruct p; try destruct t; try destruct f; try destruct b; try destruct c;
            cbn [fanart.orEmpty]; eauto 10; fail).
  all: unfold fanart.setFanart; cbn [fanart.Movie_IDs fanart.Movie_Images default
         fanart.Poster fanart.Thumbnail fanart.FanArt fanart.Banner fanart.ClearArt];
       rewrite ?Hz, ?Hg, ?Hp, ?Hb;
       cbn [fanart.Poster fanart.Thumbnail fanart.FanArt fanart.Banner fanart.ClearArt];
       try destruct p; try destruct t; try destruct f; try destruct b; try destruct c;
       reflexivity.
Qed.

(** X22. [setFanart] panics exactly on a nil movie.  Otherwise the
    movie it returns has all five image containers, keeps its ids,
    and running [setFanart] on it again changes nothing. *)
Theorem setFanart_completes_and_settles (movie : option fanart.Movie) :
  (fanart.setFanart GetImages Language movie = None <-> movie = None) /\
  (forall movie', fanart.setFanart GetImages Language movie = Some movie' ->
     complete movie' /\
     Some (fanart.Movie_IDs movie') = fanart.Movie_IDs <$> movie /\
     fanart.setFanart GetImages Language (Some movie') = Some movie').
Proof.
  split; [apply setFanart_panics|].
  intros movie' H. destruct movie as [movie|]; [|discriminate].
  apply setFanart_returns in H as (Hc & Hi & Hs).
  repeat split; [exact Hc | simpl; now rewrite Hi | exact Hs].
Qed.

(** X23. [setFanarts] returns exactly when every wrapper carries a
    movie; the list it returns has the length of the one given, and
    every movie in it has all five image containers. *)
Theorem setFanarts_needs_every_movie (movies : list fanart.Movies) :
  (is_Some (fanart.setFanarts GetImages Language movies)
   <-> Forall (fun m => is_Some (fanart.Movies_Movie m)) movies) /\
  (forall movies', fanart.setFanarts GetImages Language movies = Some movies' ->
     length movies' = length movies /\
     Forall (fun m => exists movie, fanart.Movies_Movie m = Some movie /\ complete movie)
            movies').
Proof.
  unfold fanart.setFanarts. split.
  - rewrite mapM_is_Some. apply Forall_iff. intros [movie]. simpl.
    pose proof (setFanart_panics movie) as Hn.
    destruct (fanart.setFanart GetImages Language movie) as [m'|] eqn:E; simpl.
    + split; intros _; [|eauto]. destruct movie; [eauto|].
      destruct Hn as [_ Hn]. specialize (Hn eq_refl). discriminate.
    + split; intros [x Hx]; [discriminate|]. subst movie.
      destruct Hn as [Hn _]. now specialize (Hn eq_refl).
  - intros movies' H. split; [symmetry; eapply length_mapM; eauto|].
    apply mapM_Some in H. induction H as [|m m' l l' Hm Hl IH]; constructor; [|exact IH].
    destruct (fanart.Movies_Movie m) as [movie0|] eqn:Em; [|discriminate].
    destruct (fanart.setFanart GetImages Language (Some movie0)) as [movie|] eqn:E;
      [|discriminate].
    simpl in Hm. injection Hm as <-. exists movie. split; [reflexivity|].
    now apply setFanart_returns in E.
Qed.

End FanartProperties.

(** Three posters, two of them English: the later English one is
    taken; for French, which none of them is in, the first. *)
Example sample_poster_choice :
  let posters := [ {| fanart.FilePath := "/a.jpg"; fanart.Iso639_1 := "en" |};
                   {| fanart.FilePath := "/b.jpg"; fanart.Iso639_1 := "de" |};
                   {| fanart.FilePath := "/c.jpg"; fanart.Iso639_1 := "en" |} ] in
  fanart.choose "en" posters = Some "http://image.tmdb.org/t/p/w1280/c.jpg" /\
  fanart.choose "fr" posters = Some "http://image.tmdb.org/t/p/w1280/a.jpg".
Proof. split; reflexivity. Qed.

(** ** The repository add-on *)

Lemma sleeps_app (l k : list migration.Call) : sleeps (l ++ k) = (sleeps l + sleeps k)%nat.
Proof. unfold sleeps. now rewrite List.filter_app, length_app. Qed.

Lemma sleeps_wait (h : migration.Host) (rounds : nat) : forall asked,
  sleeps (migration.wait h rounds asked) = unanswered (migration.installed h) rounds asked /\
  (unanswered (migration.installed h) rounds asked <= rounds)%nat.
Proof.
  induction rounds as [|rounds IH]; intros asked; simpl; [split; [reflexivity | lia]|].
  destruct (migration.installed h asked); [split; [reflexivity | lia]|].
  destruct (IH (S asked)) as [E L]. unfold sleeps in *. simpl. rewrite E. split; lia.
Qed.

Ltac calls_case :=
  simpl; intros; try tauto; try discriminate;
  repeat match goal with
         | H : _ \/ _ |- _ => destruct H
         | H : False |- _ => destruct H
         | H : In _ (if ?b then _ else _) |- _ => destruct b; simpl in H
         end;
  try discriminate; try tauto.

(** X24. [checkRepository] answers true when the repository add-on is
    installed already, or when it could be created and no enabled
    repository add-on was listed afterwards; in every other case it
    answers false and installs nothing.  It creates the add-on only
    when none is installed.  When it installs, it asks at most ten
    times whether the add-on has arrived, sleeping one second after
    every "no" (so for at most ten seconds), and then, arrived or
    not, enables the add-on and refreshes the local add-ons and the
    repositories. *)
Theorem checkRepository_outcome (h : migration.Host) :
  let result := fst (migration.checkRepository h) in
  let calls := snd (migration.checkRepository h) in
  let installs := negb (migration.installed h 0) && negb (bool_decide (is_Some (migration.made h)))
                  && negb (migration.foundEnabled h) in
  (result = true <-> migration.installed h 0 = true \/ installs = true) /\
  (In migration.MakeElementumRepositoryAddon calls <-> migration.installed h 0 = false) /\
  (In (migration.InstallAddon "repository.elementum") calls <-> installs = true) /\
  (sleeps calls <= 10)%nat /\
  (installs = true ->
   sleeps calls = unanswered (migration.installed h) 10 1 /\
   exists before,
     calls = (before ++ [migration.SetAddonEnabled "repository.elementum" true;
                         migration.UpdateLocalAddons; migration.UpdateAddonRepos])%list).
Proof.
  cbv zeta. unfold migration.checkRepository.
  destruct (migration.installed h 0) eqn:Hi; cbn [negb andb fst snd].
  - repeat split.
    all: try solve [calls_case].
    destruct (negb (migration.enabled h)); unfold sleeps; simpl; lia.
  - destruct (migration.made h) as [e|] eqn:Hm; cbn [negb andb fst snd bool_decide].
    + rewrite bool_decide_true by eauto. cbn [negb andb].
      repeat split.
      all: try solve [calls_case].
      unfold sleeps; simpl; lia.
    + rewrite bool_decide_false by (intros [x Hx]; discriminate). cbn [negb andb].
      destruct (migration.foundEnabled h) eqn:Hf; cbn [negb fst snd].
      * repeat split.
        all: try solve [calls_case].
        unfold sleeps; simpl; lia.
      * pose proof (sleeps_wait h 10 1) as [E L].
        assert (Hs : sleeps
                  ([migration.IsAddonInstalled "repository.elementum";
                    migration.MakeElementumRepositoryAddon; migration.UpdateLocalAddons;
                    migration.GetAddons] ++
                   migration.InstallAddon "repository.elementum" :: migration.wait h 10 1 ++
                   [migration.SetAddonEnabled "repository.elementum" true;
                    migration.UpdateLocalAddons; migration.UpdateAddonRepos])
                = unanswered (migration.installed h) 10 1).
        { rewrite sleeps_app.
          change (migration.InstallAddon "repository.elementum" :: migration.wait h 10 1 ++ ?k)
            with ([migration.InstallAddon "repository.elementum"]
                  ++ migration.wait h 10 1 ++ k)%list.
          rewrite !sleeps_app, E. unfold sleeps. simpl. lia. }
        repeat split.
        all: try solve [calls_case].
        -- rewrite Hs. exact L.
        -- exists ([migration.IsAddonInstalled "repository.elementum";
                    migration.MakeElementumRepositoryAddon; migration.UpdateLocalAddons;
                    migration.GetAddons] ++
                   migration.InstallAddon "repository.elementum" :: migration.wait h 10 1)%list.
           rewrite <- app_assoc. reflexivity.
Qed.

(** A host on which the add-on never arrives: ten questions, ten
    seconds of sleep, and the add-on is enabled all the same. *)
Example sample_repository_never_arrives :
  let h := {| migration.installed := fun _ => false; migration.enabled := false;
              migration.made := None; migration.addons := [] |} in
  fst (migration.checkRepository h) = true /\
  sleeps (snd (migration.checkRepository h)) = 10%nat /\
  last (snd (migration.checkRepository h)) = Some migration.UpdateAddonRepos.
Proof. repeat split; reflexivity. Qed.

(** ** Frames and renewals *)

Lemma WatchedShows_cached (now : Time) (up : Upstream) (K : cache.Consts)
    (shows : list WatchedShow) (w : World) :
  cache.Get decode.watchedShows now (cache.TraktShowsWatchedKey K) (store w) = Some shows ->
  shows <> [] ->
  WatchedShows now up K false w
  = ((shows, None),
     {| store := cache.Set_ now (cache.TraktShowsWatchedKey K) (DWatchedShows shows)
                   (cache.TraktShowsWatchedExpire K) (store w);
        calls := calls w |}).
Proof.
  intros Hhit Hne. unfold WatchedShows, Request. unfold_M. rewrite Hhit. simpl.
  destruct shows as [|s l]; [contradiction|]. reflexivity.
Qed.

(** X25. [WatchedShows] writes a non-empty list back even when it
    came from the cache, so a read renews the entry: as long as every
    call comes within one lifetime of the call before it, the calls
    keep returning the list that was stored once, and the upstream is
    never asked again. *)
Theorem watched_shows_read_renews_entry
    (up : Upstream) (K : cache.Consts) (shows : list WatchedShow)
    (times : list Time) : forall (written : Time) (w : World),
  shows <> [] ->
  store w !! cache.TraktShowsWatchedKey K
  = Some {| cache.payload := DWatchedShows shows;
            cache.expiry := written + cache.TraktShowsWatchedExpire K |} ->
  closely (cache.TraktShowsWatchedExpire K) written times ->
  fst (watchedAt up K times w) = map (fun _ => (shows, None)) times /\
  calls (snd (watchedAt up K times w)) = calls w /\
  store (snd (watchedAt up K times w)) !! cache.TraktShowsWatchedKey K
  = Some {| cache.payload := DWatchedShows shows;
            cache.expiry := default written (last times) + cache.TraktShowsWatchedExpire K |}.
Proof.
  induction times as [|t times IH]; intros written w Hne Hentry Hclose.
  - simpl. auto.
  - destruct Hclose as [Hlt Hclose].
    assert (Hhit : cache.Get decode.watchedShows t (cache.TraktShowsWatchedKey K) (store w)
                   = Some shows).
    { unfold cache.Get, cache.lookup. rewrite Hentry. cbn [cache.expiry cache.payload].
      apply Z.ltb_lt in Hlt. now rewrite Hlt. }
    cbn [watchedAt]. rewrite (WatchedShows_cached t up K shows w Hhit Hne).
    specialize (IH t {| store := cache.Set_ t (cache.TraktShowsWatchedKey K)
                                   (DWatchedShows shows)
                                   (cache.TraktShowsWatchedExpire K) (store w);
                        calls := calls w |} Hne).
    cbn [store calls] in IH. unfold cache.Set_ in IH at 1.
    rewrite lookup_insert_eq in IH. specialize (IH eq_refl Hclose).
    destruct (watchedAt up K times _) as [rs w2]. cbn [fst snd] in *.
    destruct IH as (H1 & H2 & H3). repeat split.
    + simpl. now rewrite H1.
    + exact H2.
    + rewrite H3, last_cons. now destruct (last times).
Qed.

Lemma watched_shows_read_renews_entry_witness :
  let shows := [SampleProgress.watchedX] in
  let w := {| store := cache.Set_ 0 (cache.TraktShowsWatchedKey Sample.K)
                         (DWatchedShows shows) 3600 ∅;
              calls := [] |} in
  let times := [100; 3000; 6500] in
  fst (watchedAt Sample.upBroken Sample.K times w) = map (fun _ => (shows, None)) times /\
  calls (snd (watchedAt Sample.upBroken Sample.K times w)) = calls w /\
  store (snd (watchedAt Sample.upBroken Sample.K times w))
    !! cache.TraktShowsWatchedKey Sample.K
  = Some {| cache.payload := DWatchedShows shows;
            cache.expiry := default 0 (last times)
                            + cache.TraktShowsWatchedExpire Sample.K |}.
Proof.
  apply (watched_shows_read_renews_entry Sample.upBroken Sample.K
           [SampleProgress.watchedX] [100; 3000; 6500] 0).
  - discriminate.
  - reflexivity.
  - simpl. lia.
Defined.

(** X26. No fetch writes outside its own entries: [TopMovies],
    [TopShows] and [CalendarShows] leave every key but their page key
    and their total key as it was, [GetMovie], [GetShow] and
    [WatchlistMovies] every key but their one. *)
Theorem fetches_touch_only_their_keys
    (now : Time) (up : Upstream) (conf : Config) (K : cache.Consts) (PagesAtOnce : Z)
    (Authorized : option Error) (topCategory endPoint page ID : string) (p P : Z)
    (isUpdateNeeded : bool) (w : World) (k : string) :
  strconv.Atoi page = Some p -> upstreamPage conf PagesAtOnce p = Some P ->
  (k <> topMoviesKey K topCategory P -> k <> topMoviesTotalKey K topCategory ->
   store (snd (TopMovies now up conf K PagesAtOnce topCategory page w)) !! k = store w !! k) /\
  (k <> topShowsKey K topCategory P -> k <> topShowsTotalKey K topCategory ->
   store (snd (TopShows now up conf K PagesAtOnce topCategory page w)) !! k = store w !! k) /\
  (k <> calendarShowsKey K endPoint P ->
   k <> fmt.Sprintf (cache.TraktShowsCalendarTotalKey K) [fmt.AStr (replaceSlash endPoint)] ->
   store (snd (CalendarShows now up conf K PagesAtOnce endPoint page w)) !! k = store w !! k) /\
  (k <> movieKey K ID -> store (snd (GetMovie now up K ID w)) !! k = store w !! k) /\
  (k <> showKey K ID -> store (snd (GetShow now up K ID w)) !! k = store w !! k) /\
  (k <> cache.TraktMoviesWatchlistKey K ->
   store (snd (WatchlistMovies now up K Authorized isUpdateNeeded w)) !! k = store w !! k).
Proof.
  intros Hp HP. repeat split.
  - intros Hk Ht. unfold TopMovies, topMoviesKey, topMoviesTotalKey in *.
    rewrite Hp, HP. unfold_M.
    destruct (cache.Get decode.moviesList now _ (store w)) as [movies|]; simpl;
      try (destruct (Z.of_nat (length movies) =? 0); simpl; [|reflexivity]);
      (destruct (TraktAuthorized conf); simpl;
       destruct (up _) as [resp [e|]]; simpl; try reflexivity;
       destruct (Status resp =? 200); simpl; try reflexivity;
       unfold cache.Set_; rewrite !lookup_insert_ne by congruence; reflexivity).
  - intros Hk Ht. unfold TopShows, topShowsKey, topShowsTotalKey in *.
    rewrite Hp, HP. unfold_M.
    destruct (cache.Get decode.showsList now _ (store w)) as [shows|]; simpl;
      try (destruct (Z.of_nat (length shows) =? 0); simpl; [|reflexivity]);
      (destruct (TraktAuthorized conf); simpl;
       destruct (up _) as [resp [e|]]; simpl; try reflexivity;
       destruct (Status resp =? 200); simpl; try reflexivity;
       destruct (isListCategory topCategory); simpl;
       try (destruct (Unmarshal decode.showList resp); simpl; try reflexivity);
       unfold cache.Set_; rewrite !lookup_insert_ne by congruence; reflexivity).
  - intros Hk Ht. unfold CalendarShows, calendarShowsKey in *.
    rewrite Hp, HP. unfold_M.
    destruct (cache.Get decode.calendarShows now _ (store w)) as [shows|]; simpl;
      [reflexivity|].
    destruct (up _) as [resp [e|]]; simpl; try reflexivity.
    destruct (Status resp =? 200); simpl; try reflexivity.
    unfold cache.Set_; rewrite !lookup_insert_ne by congruence; reflexivity.
  - intros Hk. rewrite GetMovie_run.
    destruct (cache.Get decode.movie now _ (store w)); [reflexivity|].
    cbn [snd store]. unfold cache.Set_. now rewrite lookup_insert_ne by congruence.
  - intros Hk. rewrite GetShow_run.
    destruct (cache.Get decode.show now _ (store w)); [reflexivity|].
    cbv zeta. destruct (snd (up (showRequest ID))); [reflexivity|].
    cbn [snd store]. unfold cache.Set_. now rewrite lookup_insert_ne by congruence.
  - intros Hk. destruct Authorized as [e|]; [reflexivity|]. rewrite WatchlistMovies_run.
    destruct (if isUpdateNeeded then None else _); [reflexivity|].
    cbv zeta. destruct (snd (up watchlistRequest)); [reflexivity|].
    destruct (Status _ =? 200); [|reflexivity].
    cbn [snd store]. unfold cache.Set_. now rewrite lookup_insert_ne by congruence.
Qed.

Lemma fetches_touch_only_their_keys_witness :
  let w := snd (GetShow 0 Sample.up Sample.K "100" Sample.w0) in
  let k := showKey Sample.K "100" in
  is_Some (store w !! k) /\
  store (snd (TopMovies 5 Sample.up Sample.conf Sample.K 5 "popular" "1" w)) !! k
  = store w !! k /\
  store (snd (TopShows 5 Sample.up Sample.conf Sample.K 5 "popular" "1" w)) !! k
  = store w !! k /\
  store (snd (CalendarShows 5 Sample.up Sample.conf Sample.K 5 "my/shows" "1" w)) !! k
  = store w !! k /\
  store (snd (GetMovie 5 Sample.up Sample.K "42" w)) !! k = store w !! k /\
  store (snd (GetShow 5 Sample.up Sample.K "7" w)) !! k = store w !! k /\
  store (snd (WatchlistMovies 5 Sample.up Sample.K None true w)) !! k = store w !! k.
Proof.
  pose proof (fetches_touch_only_their_keys 5 Sample.up Sample.conf Sample.K 5 None
                "popular" "my/shows" "1" "42" 1 1 true
                (snd (GetShow 0 Sample.up Sample.K "100" Sample.w0))
                (showKey Sample.K "100") eq_refl eq_refl) as (H1 & H2 & H3 & H4 & _ & H6).
  pose proof (fetches_touch_only_their_keys 5 Sample.up Sample.conf Sample.K 5 None
                "popular" "my/shows" "1" "7" 1 1 true
                (snd (GetShow 0 Sample.up Sample.K "100" Sample.w0))
                (showKey Sample.K "100") eq_refl eq_refl) as (_ & _ & _ & _ & H5 & _).
  cbv zeta. split; [vm_compute; eauto|].
  split; [apply H1; vm_compute; discriminate|].
  split; [apply H2; vm_compute; discriminate|].
  split; [apply H3; vm_compute; discriminate|].
  split; [apply H4; vm_compute; discriminate|].
  split; [apply H5 | apply H6]; vm_compute; discriminate.
Defined.
